(** * packetbeat, protos/http/http.go: HTTP message reconstruction

    A shallow embedding of the incremental HTTP parser, the per-direction
    stream state, the request/response transaction table and the credential
    scrubbing pass, followed by the properties established about them.

    Conventions.
    - A Go [[]byte] is a [list ascii]; a Go [string] is a [string].  The
      conversions [string(b)] and [[]byte(s)] are [string_of_list_ascii] and
      [list_ascii_of_string].
    - A Go [int] is a [Z] kept in the 64-bit two's complement range: every
      addition and subtraction of the source is followed by [int], which
      wraps.  [len] of a slice is exact.
    - A run-time panic (slice or index out of range) is the outcome [Panic].
      Slice bounds are checked against the length; the spare capacity that a
      Go slice may own behind its length is not represented.
    - Loops of the source are unrolled with fuel; [OutOfFuel] stands for a
      loop that was cut off. *)

From Stdlib Require Import ZArith Lia Bool Ascii String.
From stdpp Require Import base option list strings gmap.

Local Open Scope Z_scope.

Abbreviation bytes := (list ascii).

(** ** Outcomes of a computation *)

Inductive result (A : Type) : Type :=
  | Ok (a : A)
  | Panic
  | OutOfFuel.
Arguments Ok {A} a.
Arguments Panic {A}.
Arguments OutOfFuel {A}.

Definition rbind {A B} (r : result A) (k : A -> result B) : result B :=
  match r with
  | Ok a => k a
  | Panic => Panic
  | OutOfFuel => OutOfFuel
  end.

Notation "'do' x <- e ; k" := (rbind e (fun x => k))
  (at level 10, x pattern, e at level 100, k at level 200).

(** ** Machine integers *)

Definition wrap (w z : Z) : Z := (z + 2 ^ (w - 1)) mod 2 ^ w - 2 ^ (w - 1).
Definition int (z : Z) : Z := wrap 64 z.
Definition int32 (z : Z) : Z := wrap 32 z.
Definition uint8 (z : Z) : Z := z mod 2 ^ 8.
Definition uint16 (z : Z) : Z := z mod 2 ^ 16.
Definition MaxInt : Z := 2 ^ 63 - 1.
Definition MinInt : Z := - 2 ^ 63.

Notation "a +! b" := (int (a + b)) (at level 50, left associativity).
Notation "a -! b" := (int (a - b)) (at level 50, left associativity).

(** ** Slices *)

Definition len {A} (s : list A) : Z := Z.of_nat (length s).

(** [s[lo:hi]] *)
Definition slice {A} (s : list A) (lo hi : Z) : result (list A) :=
  if (0 <=? lo) && (lo <=? hi) && (hi <=? len s)
  then Ok (take (Z.to_nat (hi - lo)) (drop (Z.to_nat lo) s))
  else Panic.

(** [s[lo:]] and [s[:hi]] *)
Definition slice_from {A} (s : list A) (lo : Z) : result (list A) := slice s lo (len s).
Definition slice_to {A} (s : list A) (hi : Z) : result (list A) := slice s 0 hi.

(** [s[i]] *)
Definition index {A} (s : list A) (i : Z) : result A :=
  if (0 <=? i) && (i <? len s)
  then match s !! Z.to_nat i with Some a => Ok a | None => Panic end
  else Panic.

(** [s[i] = a] *)
Definition store {A} (s : list A) (i : Z) (a : A) : result (list A) :=
  if (0 <=? i) && (i <? len s) then Ok (<[Z.to_nat i := a]> s) else Panic.

(** ** Bytes and strings of the Go library *)

Definition B (s : string) : bytes := list_ascii_of_string s.
Definition S_ (b : bytes) : string := string_of_list_ascii b.

Definition CR : ascii := "013"%char.
Definition LF : ascii := "010"%char.
Definition HT : ascii := "009"%char.
Definition SP : ascii := " "%char.
Definition STAR : ascii := "*"%char.
Definition CRLF : bytes := [CR; LF].

Definition code (c : ascii) : Z := Z.of_N (N_of_ascii c).

(** [bytes.Equal] *)
Definition Equal (a b : bytes) : bool := bool_decide (a = b).

(** [bytes.HasPrefix] *)
Fixpoint HasPrefix (s p : bytes) : bool :=
  match p, s with
  | [], _ => true
  | _ :: _, [] => false
  | b :: p', a :: s' => Ascii.eqb a b && HasPrefix s' p'
  end.

(** Position of the first occurrence of [sep] in [s]. *)
Fixpoint find_sub (s sep : bytes) : option nat :=
  if HasPrefix s sep then Some O
  else match s with
       | [] => None
       | _ :: s' => S <$> find_sub s' sep
       end.

(** Position of the last occurrence of [sep] in [s]. *)
Fixpoint find_last_sub (s sep : bytes) : option nat :=
  match s with
  | [] => if HasPrefix [] sep then Some O else None
  | _ :: s' =>
      match find_last_sub s' sep with
      | Some n => Some (S n)
      | None => if HasPrefix s sep then Some O else None
      end
  end.

Definition pos_or_minus1 (o : option nat) : Z :=
  match o with Some n => Z.of_nat n | None => -1 end.

(** [bytes.Index], [bytes.LastIndex] *)
Definition Index (s sep : bytes) : Z := pos_or_minus1 (find_sub s sep).
Definition LastIndex (s sep : bytes) : Z := pos_or_minus1 (find_last_sub s sep).

(** [bytes.IndexAny] with a set of ASCII characters. *)
Fixpoint find_any (s chars : bytes) : option nat :=
  match s with
  | [] => None
  | a :: s' => if bool_decide (a ∈ chars) then Some O else S <$> find_any s' chars
  end.
Definition IndexAny (s : bytes) (chars : string) : Z :=
  pos_or_minus1 (find_any s (B chars)).

(** [strings.Contains] *)
Definition Contains (s sub : string) : bool := 0 <=? Index (B s) (B sub).

(** [bytes.Trim] and [strings.Trim] with a cut set of ASCII characters. *)
Fixpoint TrimLeft (s cutset : bytes) : bytes :=
  match s with
  | a :: s' => if bool_decide (a ∈ cutset) then TrimLeft s' cutset else s
  | [] => []
  end.
Definition TrimRight (s cutset : bytes) : bytes := rev (TrimLeft (rev s) cutset).
Definition Trim (s : bytes) (cutset : string) : bytes :=
  TrimRight (TrimLeft s (B cutset)) (B cutset).

(** [strings.Split] with a separator of one byte, the only form the source
    uses: the pieces between the separators, always at least one piece. *)
Fixpoint split_byte (s : bytes) (sep : ascii) (cur : bytes) : list bytes :=
  match s with
  | [] => [cur]
  | a :: s' => if Ascii.eqb a sep then cur :: split_byte s' sep []
               else split_byte s' sep (cur ++ [a])
  end.
Definition Split (s : string) (sep : ascii) : list string :=
  S_ <$> split_byte (B s) sep [].

(** [bytes.Fields]: the maximal runs of bytes between white space.  White
    space is what [unicode.IsSpace] accepts once the input is read as UTF-8;
    [space_width] is the width of the white-space character encoded at the
    head of [s], or 0 when there is none. *)
Definition asciiSpace (c : ascii) : bool :=
  let n := code c in ((9 <=? n) && (n <=? 13)) || (n =? 32).

Definition space_width (s : bytes) : nat :=
  match s with
  | [] => O
  | c :: r =>
      if asciiSpace c then 1%nat
      else match code c, code <$> take 2 r with
           | 194, b1 :: _ => if (b1 =? 133) || (b1 =? 160) then 2%nat else O
           | 225, [154; 128] => 3%nat
           | 226, [128; b2] =>
               if ((128 <=? b2) && (b2 <=? 138)) || (b2 =? 168) || (b2 =? 169) || (b2 =? 175)
               then 3%nat else O
           | 226, [129; 159] => 3%nat
           | 227, [128; 128] => 3%nat
           | _, _ => O
           end
  end.

Definition close_field (cur : option bytes) : list bytes :=
  match cur with Some w => [w] | None => [] end.

Fixpoint fields_go (s : bytes) (skip : nat) (cur : option bytes) : list bytes :=
  match s with
  | [] => close_field cur
  | c :: r =>
      match skip with
      | S k => fields_go r k cur
      | O =>
          match space_width s with
          | O => fields_go r O (Some (default [] cur ++ [c]))
          | S w => close_field cur ++ fields_go r w None
          end
      end
  end.
Definition Fields (s : bytes) : list bytes := fields_go s O None.

(** [strconv.Atoi] on a 64-bit platform, with the error dropped as every
    call of the source does ([n, _ := strconv.Atoi(..)]): 0 on a syntax
    error, the nearest bound on a range error. *)
Definition digit_val (c : ascii) : option Z :=
  let n := code c in if (48 <=? n) && (n <=? 57) then Some (n - 48) else None.

Inductive num_error := ErrSyntax | ErrRange.

Fixpoint parse_uint (s : bytes) (n : Z) : Z + num_error :=
  match s with
  | [] => inl n
  | c :: r =>
      match digit_val c with
      | None => inr ErrSyntax
      | Some d => if 2 ^ 64 <=? n * 10 + d then inr ErrRange else parse_uint r (n * 10 + d)
      end
  end.

Definition Atoi (s : string) : Z :=
  let b := B s in
  let '(neg, ds) :=
    match b with
    | c :: r => if Ascii.eqb c "+" then (false, r)
                else if Ascii.eqb c "-" then (true, r) else (false, b)
    | [] => (false, b)
    end in
  match ds with
  | [] => 0
  | _ =>
      match parse_uint ds 0 with
      | inr ErrSyntax => 0
      | inr ErrRange => if neg then MinInt else MaxInt
      | inl n => if neg then (if 2 ^ 63 <? n then MinInt else - n)
                 else (if 2 ^ 63 <=? n then MaxInt else n)
      end
  end.

(** [string(c)] for a byte [c]: the UTF-8 encoding of the code point [c]. *)
Definition string_of_byte (c : ascii) : string :=
  let n := code c in
  if n <? 128 then S_ [c]
  else S_ [ascii_of_N (Z.to_N (192 + n / 64)); ascii_of_N (Z.to_N (128 + n mod 64))].

(** ASCII lower-casing: what [strings.ToLower] does on ASCII input. *)
Definition lower_byte (c : ascii) : ascii :=
  let n := code c in
  if (65 <=? n) && (n <=? 90) then ascii_of_N (Z.to_N (n + 32)) else c.
Definition ascii_lower (s : string) : string := S_ (lower_byte <$> B s).

(** ** Data model *)

(** The parse states, in the order of the source's [iota] constants. *)
Inductive State : Type :=
  | START
  | FLINE
  | HEADERS
  | BODY
  | BODY_CHUNKED_START
  | BODY_CHUNKED
  | BODY_CHUNKED_WAIT_FINAL_CRLF.

(** Types of the [common] package, by the fields the source reads.  An IP
    address is kept in the textual form that [String()] gives. *)
Record common_TcpTuple : Type := {
  Src_ip : string;
  Dst_ip : string;
  Src_port : Z;
  Dst_port : Z
}.

Record common_CmdlineTuple : Type := {
  cmd_Src : bytes;
  cmd_Dst : bytes
}.

Record common_Endpoint : Type := {
  Ip : string;
  Port : Z;
  Proc : string
}.

(** [common.MapStr] is [map[string]interface{}]; [Value] lists the dynamic
    types that the source stores in one.  Times are nanoseconds since the
    Unix epoch. *)
#[local] Set Warnings "-register-all".
Inductive Value : Type :=
  | VString (s : string)
  | VUint16 (n : Z)
  | VInt (n : Z)
  | VInt32 (n : Z)
  | VTime (t : Z)
  | VEndpoint (e : common_Endpoint)
  | VStrMap (m : gmap string string)
  | VMapStr (m : gmap string Value).

Abbreviation MapStr := (gmap string Value).

(** [tcp.TcpDirectionReverse] and [tcp.TcpDirectionOriginal] index the two
    streams of a flow. *)
Inductive Dir : Type := TcpDirectionReverse | TcpDirectionOriginal.
Definition dir_code (d : Dir) : Z :=
  match d with TcpDirectionReverse => 0 | TcpDirectionOriginal => 1 end.

(** [HttpMessage].  A [nil] header map and an empty one behave alike in the
    source (it is read, ranged over, and written only after [make]), so
    [Headers] is a plain finite map. *)
Module Msg.

Record HttpMessage : Type := Build {
  Ts : Z;
  hasContentLength : bool;
  headerOffset : Z;
  bodyOffset : Z;
  version_major : Z;
  version_minor : Z;
  connection : string;
  chunked_length : Z;
  chunked_body : bytes;
  IsRequest : bool;
  TcpTuple : common_TcpTuple;
  CmdlineTuple : option common_CmdlineTuple;
  Direction : Z;
  FirstLine : string;
  RequestUri : string;
  Method : string;
  StatusCode : Z;
  StatusPhrase : string;
  Real_ip : string;
  ContentLength : Z;
  TransferEncoding : string;
  Headers : gmap string string;
  Body : string;
  Raw : bytes;
  start : Z;
  end_ : Z
}.

Definition set_hasContentLength (v : bool) (x : HttpMessage) : HttpMessage :=
  {| Ts := Ts x; hasContentLength := v; headerOffset := headerOffset x;
     bodyOffset := bodyOffset x; version_major := version_major x;
     version_minor := version_minor x; connection := connection x;
     chunked_length := chunked_length x; chunked_body := chunked_body x;
     IsRequest := IsRequest x; TcpTuple := TcpTuple x; CmdlineTuple := CmdlineTuple x;
     Direction := Direction x; FirstLine := FirstLine x; RequestUri := RequestUri x;
     Method := Method x; StatusCode := StatusCode x; StatusPhrase := StatusPhrase x;
     Real_ip := Real_ip x; ContentLength := ContentLength x;
     TransferEncoding := TransferEncoding x; Headers := Headers x; Body := Body x;
     Raw := Raw x; start := start x; end_ := end_ x |}.

Definition set_headerOffset (v : Z) (x : HttpMessage) : HttpMessage :=
  {| Ts := Ts x; hasContentLength := hasContentLength x; headerOffset := v;
     bodyOffset := bodyOffset x; version_major := version_major x;
     version_minor := version_minor x; connection := connection x;
     chunked_length := chunked_length x; chunked_body := chunked_body x;
     IsRequest := IsRequest x; TcpTuple := TcpTuple x; CmdlineTuple := CmdlineTuple x;
     Direction := Direction x; FirstLine := FirstLine x; RequestUri := RequestUri x;
     Method := Method x; StatusCode := StatusCode x; StatusPhrase := StatusPhrase x;
     Real_ip := Real_ip x; ContentLength := ContentLength x;
     TransferEncoding := TransferEncoding x; Headers := Headers x; Body := Body x;
     Raw := Raw x; start := start x; end_ := end_ x |}.

Definition set_bodyOffset (v : Z) (x : HttpMessage) : HttpMessage :=
  {| Ts := Ts x; hasContentLength := hasContentLength x; headerOffset := headerOffset x;
     bodyOffset := v; version_major := version_major x; version_minor := version_minor x;
     connection := connection x; chunked_length := chunked_length x;
     chunked_body := chunked_body x; IsRequest := IsRequest x; TcpTuple := TcpTuple x;
     CmdlineTuple := CmdlineTuple x; Direction := Direction x; FirstLine := FirstLine x;
     RequestUri := RequestUri x; Method := Method x; StatusCode := StatusCode x;
     StatusPhrase := StatusPhrase x; Real_ip := Real_ip x; ContentLength := ContentLength x;
     TransferEncoding := TransferEncoding x; Headers := Headers x; Body := Body x;
     Raw := Raw x; start := start x; end_ := end_ x |}.

Definition set_version_major (v : Z) (x : HttpMessage) : HttpMessage :=
  {| Ts := Ts x; hasContentLength := hasContentLength x; headerOffset := headerOffset x;
     bodyOffset := bodyOffset x; version_major := v; version_minor := version_minor x;
     connection := connection x; chunked_length := chunked_length x;
     chunked_body := chunked_body x; IsRequest := IsRequest x; TcpTuple := TcpTuple x;
     CmdlineTuple := CmdlineTuple x; Direction := Direction x; FirstLine := FirstLine x;
     RequestUri := RequestUri x; Method := Method x; StatusCode := StatusCode x;
     StatusPhrase := StatusPhrase x; Real_ip := Real_ip x; ContentLength := ContentLength x;
     TransferEncoding := TransferEncoding x; Headers := Headers x; Body := Body x;
     Raw := Raw x; start := start x; end_ := end_ x |}.

Definition set_version_minor (v : Z) (x : HttpMessage) : HttpMessage :=
  {| Ts := Ts x; hasContentLength := hasContentLength x; headerOffset := headerOffset x;
     bodyOffset := bodyOffset x; version_major := version_major x; version_minor := v;
     connection := connection x; chunked_length := chunked_length x;
     chunked_body := chunked_body x; IsRequest := IsRequest x; TcpTuple := TcpTuple x;
     CmdlineTuple := CmdlineTuple x; Direction := Direction x; FirstLine := FirstLine x;
     RequestUri := RequestUri x; Method := Method x; StatusCode := StatusCode x;
     StatusPhrase := StatusPhrase x; Real_ip := Real_ip x; ContentLength := ContentLength x;
     TransferEncoding := TransferEncoding x; Headers := Headers x; Body := Body x;
     Raw := Raw x; start := start x; end_ := end_ x |}.

Definition set_connection (v : string) (x : HttpMessage) : HttpMessage :=
  {| Ts := Ts x; hasContentLength := hasContentLength x; headerOffset := headerOffset x;
     bodyOffset := bodyOffset x; version_major := version_major x;
     version_minor := version_minor x; connection := v; chunked_length := chunked_length x;
     chunked_body := chunked_body x; IsRequest := IsRequest x; TcpTuple := TcpTuple x;
     CmdlineTuple := CmdlineTuple x; Direction := Direction x; FirstLine := FirstLine x;
     RequestUri := RequestUri x; Method := Method x; StatusCode := StatusCode x;
     StatusPhrase := StatusPhrase x; Real_ip := Real_ip x; ContentLength := ContentLength x;
     TransferEncoding := TransferEncoding x; Headers := Headers x; Body := Body x;
     Raw := Raw x; start := start x; end_ := end_ x |}.

Definition set_chunked_length (v : Z) (x : HttpMessage) : HttpMessage :=
  {| Ts := Ts x; hasContentLength := hasContentLength x; headerOffset := headerOffset x;
     bodyOffset := bodyOffset x; version_major := version_major x;
     version_minor := version_minor x; connection := connection x; chunked_length := v;
     chunked_body := chunked_body x; IsRequest := IsRequest x; TcpTuple := TcpTuple x;
     CmdlineTuple := CmdlineTuple x; Direction := Direction x; FirstLine := FirstLine x;
     RequestUri := RequestUri x; Method := Method x; StatusCode := StatusCode x;
     StatusPhrase := StatusPhrase x; Real_ip := Real_ip x; ContentLength := ContentLength x;
     TransferEncoding := TransferEncoding x; Headers := Headers x; Body := Body x;
     Raw := Raw x; start := start x; end_ := end_ x |}.

Definition set_chunked_body (v : bytes) (x : HttpMessage) : HttpMessage :=
  {| Ts := Ts x; hasContentLength := hasContentLength x; headerOffset := headerOffset x;
     bodyOffset := bodyOffset x; version_major := version_major x;
     version_minor := version_minor x; connection := connection x;
     chunked_length := chunked_length x; chunked_body := v; IsRequest := IsRequest x;
     TcpTuple := TcpTuple x; CmdlineTuple := CmdlineTuple x; Direction := Direction x;
     FirstLine := FirstLine x; RequestUri := RequestUri x; Method := Method x;
     StatusCode := StatusCode x; StatusPhrase := StatusPhrase x; Real_ip := Real_ip x;
     ContentLength := ContentLength x; TransferEncoding := TransferEncoding x;
     Headers := Headers x; Body := Body x; Raw := Raw x; start := start x; end_ := end_ x |}.

Definition set_IsRequest (v : bool) (x : HttpMessage) : HttpMessage :=
  {| Ts := Ts x; hasContentLength := hasContentLength x; headerOffset := headerOffset x;
     bodyOffset := bodyOffset x; version_major := version_major x;
     version_minor := version_minor x; connection := connection x;
     chunked_length := chunked_length x; chunked_body := chunked_body x; IsRequest := v;
     TcpTuple := TcpTuple x; CmdlineTuple := CmdlineTuple x; Direction := Direction x;
     FirstLine := FirstLine x; RequestUri := RequestUri x; Method := Method x;
     StatusCode := StatusCode x; StatusPhrase := StatusPhrase x; Real_ip := Real_ip x;
     ContentLength := ContentLength x; TransferEncoding := TransferEncoding x;
     Headers := Headers x; Body := Body x; Raw := Raw x; start := start x; end_ := end_ x |}.

Definition set_TcpTuple (v : common_TcpTuple) (x : HttpMessage) : HttpMessage :=
  {| Ts := Ts x; hasContentLength := hasContentLength x; headerOffset := headerOffset x;
     bodyOffset := bodyOffset x; version_major := version_major x;
     version_minor := version_minor x; connection := connection x;
     chunked_length := chunked_length x; chunked_body := chunked_body x;
     IsRequest := IsRequest x; TcpTuple := v; CmdlineTuple := CmdlineTuple x;
     Direction := Direction x; FirstLine := FirstLine x; RequestUri := RequestUri x;
     Method := Method x; StatusCode := StatusCode x; StatusPhrase := StatusPhrase x;
     Real_ip := Real_ip x; ContentLength := ContentLength x;
     TransferEncoding := TransferEncoding x; Headers := Headers x; Body := Body x;
     Raw := Raw x; start := start x; end_ := end_ x |}.

Definition set_CmdlineTuple (v : option common_CmdlineTuple) (x : HttpMessage) : HttpMessage :=
  {| Ts := Ts x; hasContentLength := hasContentLength x; headerOffset := headerOffset x;
     bodyOffset := bodyOffset x; version_major := version_major x;
     version_minor := version_minor x; connection := connection x;
     chunked_length := chunked_length x; chunked_body := chunked_body x;
     IsRequest := IsRequest x; TcpTuple := TcpTuple x; CmdlineTuple := v;
     Direction := Direction x; FirstLine := FirstLine x; RequestUri := RequestUri x;
     Method := Method x; StatusCode := StatusCode x; StatusPhrase := StatusPhrase x;
     Real_ip := Real_ip x; ContentLength := ContentLength x;
     TransferEncoding := TransferEncoding x; Headers := Headers x; Body := Body x;
     Raw := Raw x; start := start x; end_ := end_ x |}.

Definition set_Direction (v : Z) (x : HttpMessage) : HttpMessage :=
  {| Ts := Ts x; hasContentLength := hasContentLength x; headerOffset := headerOffset x;
     bodyOffset := bodyOffset x; version_major := version_major x;
     version_minor := version_minor x; connection := connection x;
     chunked_length := chunked_length x; chunked_body := chunked_body x;
     IsRequest := IsRequest x; TcpTuple := TcpTuple x; CmdlineTuple := CmdlineTuple x;
     Direction := v; FirstLine := FirstLine x; RequestUri := RequestUri x; Method := Method x;
     StatusCode := StatusCode x; StatusPhrase := StatusPhrase x; Real_ip := Real_ip x;
     ContentLength := ContentLength x; TransferEncoding := TransferEncoding x;
     Headers := Headers x; Body := Body x; Raw := Raw x; start := start x; end_ := end_ x |}.

Definition set_FirstLine (v : string) (x : HttpMessage) : HttpMessage :=
  {| Ts := Ts x; hasContentLength := hasContentLength x; headerOffset := headerOffset x;
     bodyOffset := bodyOffset x; version_major := version_major x;
     version_minor := version_minor x; connection := connection x;
     chunked_length := chunked_length x; chunked_body := chunked_body x;
     IsRequest := IsRequest x; TcpTuple := TcpTuple x; CmdlineTuple := CmdlineTuple x;
     Direction := Direction x; FirstLine := v; RequestUri := RequestUri x; Method := Method x;
     StatusCode := StatusCode x; StatusPhrase := StatusPhrase x; Real_ip := Real_ip x;
     ContentLength := ContentLength x; TransferEncoding := TransferEncoding x;
     Headers := Headers x; Body := Body x; Raw := Raw x; start := start x; end_ := end_ x |}.

Definition set_RequestUri (v : string) (x : HttpMessage) : HttpMessage :=
  {| Ts := Ts x; hasContentLength := hasContentLength x; headerOffset := headerOffset x;
     bodyOffset := bodyOffset x; version_major := version_major x;
     version_minor := version_minor x; connection := connection x;
     chunked_length := chunked_length x; chunked_body := chunked_body x;
     IsRequest := IsRequest x; TcpTuple := TcpTuple x; CmdlineTuple := CmdlineTuple x;
     Direction := Direction x; FirstLine := FirstLine x; RequestUri := v; Method := Method x;
     StatusCode := StatusCode x; StatusPhrase := StatusPhrase x; Real_ip := Real_ip x;
     ContentLength := ContentLength x; TransferEncoding := TransferEncoding x;
     Headers := Headers x; Body := Body x; Raw := Raw x; start := start x; end_ := end_ x |}.

Definition set_Method (v : string) (x : HttpMessage) : HttpMessage :=
  {| Ts := Ts x; hasContentLength := hasContentLength x; headerOffset := headerOffset x;
     bodyOffset := bodyOffset x; version_major := version_major x;
     version_minor := version_minor x; connection := connection x;
     chunked_length := chunked_length x; chunked_body := chunked_body x;
     IsRequest := IsRequest x; TcpTuple := TcpTuple x; CmdlineTuple := CmdlineTuple x;
     Direction := Direction x; FirstLine := FirstLine x; RequestUri := RequestUri x;
     Method := v; StatusCode := StatusCode x; StatusPhrase := StatusPhrase x;
     Real_ip := Real_ip x; ContentLength := ContentLength x;
     TransferEncoding := TransferEncoding x; Headers := Headers x; Body := Body x;
     Raw := Raw x; start := start x; end_ := end_ x |}.

Definition set_StatusCode (v : Z) (x : HttpMessage) : HttpMessage :=
  {| Ts := Ts x; hasContentLength := hasContentLength x; headerOffset := headerOffset x;
     bodyOffset := bodyOffset x; version_major := version_major x;
     version_minor := version_minor x; connection := connection x;
     chunked_length := chunked_length x; chunked_body := chunked_body x;
     IsRequest := IsRequest x; TcpTuple := TcpTuple x; CmdlineTuple := CmdlineTuple x;
     Direction := Direction x; FirstLine := FirstLine x; RequestUri := RequestUri x;
     Method := Method x; StatusCode := v; StatusPhrase := StatusPhrase x; Real_ip := Real_ip x;
     ContentLength := ContentLength x; TransferEncoding := TransferEncoding x;
     Headers := Headers x; Body := Body x; Raw := Raw x; start := start x; end_ := end_ x |}.

Definition set_StatusPhrase (v : string) (x : HttpMessage) : HttpMessage :=
  {| Ts := Ts x; hasContentLength := hasContentLength x; headerOffset := headerOffset x;
     bodyOffset := bodyOffset x; version_major := version_major x;
     version_minor := version_minor x; connection := connection x;
     chunked_length := chunked_length x; chunked_body := chunked_body x;
     IsRequest := IsRequest x; TcpTuple := TcpTuple x; CmdlineTuple := CmdlineTuple x;
     Direction := Direction x; FirstLine := FirstLine x; RequestUri := RequestUri x;
     Method := Method x; StatusCode := StatusCode x; StatusPhrase := v; Real_ip := Real_ip x;
     ContentLength := ContentLength x; TransferEncoding := TransferEncoding x;
     Headers := Headers x; Body := Body x; Raw := Raw x; start := start x; end_ := end_ x |}.

Definition set_Real_ip (v : string) (x : HttpMessage) : HttpMessage :=
  {| Ts := Ts x; hasContentLength := hasContentLength x; headerOffset := headerOffset x;
     bodyOffset := bodyOffset x; version_major := version_major x;
     version_minor := version_minor x; connection := connection x;
     chunked_length := chunked_length x; chunked_body := chunked_body x;
     IsRequest := IsRequest x; TcpTuple := TcpTuple x; CmdlineTuple := CmdlineTuple x;
     Direction := Direction x; FirstLine := FirstLine x; RequestUri := RequestUri x;
     Method := Method x; StatusCode := StatusCode x; StatusPhrase := StatusPhrase x;
     Real_ip := v; ContentLength := ContentLength x; TransferEncoding := TransferEncoding x;
     Headers := Headers x; Body := Body x; Raw := Raw x; start := start x; end_ := end_ x |}.

Definition set_ContentLength (v : Z) (x : HttpMessage) : HttpMessage :=
  {| Ts := Ts x; hasContentLength := hasContentLength x; headerOffset := headerOffset x;
     bodyOffset := bodyOffset x; version_major := version_major x;
     version_minor := version_minor x; connection := connection x;
     chunked_length := chunked_length x; chunked_body := chunked_body x;
     IsRequest := IsRequest x; TcpTuple := TcpTuple x; CmdlineTuple := CmdlineTuple x;
     Direction := Direction x; FirstLine := FirstLine x; RequestUri := RequestUri x;
     Method := Method x; StatusCode := StatusCode x; StatusPhrase := StatusPhrase x;
     Real_ip := Real_ip x; ContentLength := v; TransferEncoding := TransferEncoding x;
     Headers := Headers x; Body := Body x; Raw := Raw x; start := start x; end_ := end_ x |}.

Definition set_TransferEncoding (v : string) (x : HttpMessage) : HttpMessage :=
  {| Ts := Ts x; hasContentLength := hasContentLength x; headerOffset := headerOffset x;
     bodyOffset := bodyOffset x; version_major := version_major x;
     version_minor := version_minor x; connection := connection x;
     chunked_length := chunked_length x; chunked_body := chunked_body x;
     IsRequest := IsRequest x; TcpTuple := TcpTuple x; CmdlineTuple := CmdlineTuple x;
     Direction := Direction x; FirstLine := FirstLine x; RequestUri := RequestUri x;
     Method := Method x; StatusCode := StatusCode x; StatusPhrase := StatusPhrase x;
     Real_ip := Real_ip x; ContentLength := ContentLength x; TransferEncoding := v;
     Headers := Headers x; Body := Body x; Raw := Raw x; start := start x; end_ := end_ x |}.

Definition set_Headers (v : gmap string string) (x : HttpMessage) : HttpMessage :=
  {| Ts := Ts x; hasContentLength := hasContentLength x; headerOffset := headerOffset x;
     bodyOffset := bodyOffset x; version_major := version_major x;
     version_minor := version_minor x; connection := connection x;
     chunked_length := chunked_length x; chunked_body := chunked_body x;
     IsRequest := IsRequest x; TcpTuple := TcpTuple x; CmdlineTuple := CmdlineTuple x;
     Direction := Direction x; FirstLine := FirstLine x; RequestUri := RequestUri x;
     Method := Method x; StatusCode := StatusCode x; StatusPhrase := StatusPhrase x;
     Real_ip := Real_ip x; ContentLength := ContentLength x;
     TransferEncoding := TransferEncoding x; Headers := v; Body := Body x; Raw := Raw x;
     start := start x; end_ := end_ x |}.

Definition set_Raw (v : bytes) (x : HttpMessage) : HttpMessage :=
  {| Ts := Ts x; hasContentLength := hasContentLength x; headerOffset := headerOffset x;
     bodyOffset := bodyOffset x; version_major := version_major x;
     version_minor := version_minor x; connection := connection x;
     chunked_length := chunked_length x; chunked_body := chunked_body x;
     IsRequest := IsRequest x; TcpTuple := TcpTuple x; CmdlineTuple := CmdlineTuple x;
     Direction := Direction x; FirstLine := FirstLine x; RequestUri := RequestUri x;
     Method := Method x; StatusCode := StatusCode x; StatusPhrase := StatusPhrase x;
     Real_ip := Real_ip x; ContentLength := ContentLength x;
     TransferEncoding := TransferEncoding x; Headers := Headers x; Body := Body x; Raw := v;
     start := start x; end_ := end_ x |}.

Definition set_start (v : Z) (x : HttpMessage) : HttpMessage :=
  {| Ts := Ts x; hasContentLength := hasContentLength x; headerOffset := headerOffset x;
     bodyOffset := bodyOffset x; version_major := version_major x;
     version_minor := version_minor x; connection := connection x;
     chunked_length := chunked_length x; chunked_body := chunked_body x;
     IsRequest := IsRequest x; TcpTuple := TcpTuple x; CmdlineTuple := CmdlineTuple x;
     Direction := Direction x; FirstLine := FirstLine x; RequestUri := RequestUri x;
     Method := Method x; StatusCode := StatusCode x; StatusPhrase := StatusPhrase x;
     Real_ip := Real_ip x; ContentLength := ContentLength x;
     TransferEncoding := TransferEncoding x; Headers := Headers x; Body := Body x;
     Raw := Raw x; start := v; end_ := end_ x |}.

Definition set_end_ (v : Z) (x : HttpMessage) : HttpMessage :=
  {| Ts := Ts x; hasContentLength := hasContentLength x; headerOffset := headerOffset x;
     bodyOffset := bodyOffset x; version_major := version_major x;
     version_minor := version_minor x; connection := connection x;
     chunked_length := chunked_length x; chunked_body := chunked_body x;
     IsRequest := IsRequest x; TcpTuple := TcpTuple x; CmdlineTuple := CmdlineTuple x;
     Direction := Direction x; FirstLine := FirstLine x; RequestUri := RequestUri x;
     Method := Method x; StatusCode := StatusCode x; StatusPhrase := StatusPhrase x;
     Real_ip := Real_ip x; ContentLength := ContentLength x;
     TransferEncoding := TransferEncoding x; Headers := Headers x; Body := Body x;
     Raw := Raw x; start := start x; end_ := v |}.

End Msg.

(** [HttpStream] *)
Module Stream.

Record HttpStream : Type := Build {
  tcptuple : common_TcpTuple;
  data : bytes;
  parseOffset : Z;
  parseState : State;
  bodyReceived : Z;
  message : option Msg.HttpMessage
}.

Definition set_data (v : bytes) (x : HttpStream) : HttpStream :=
  {| tcptuple := tcptuple x; data := v; parseOffset := parseOffset x;
     parseState := parseState x; bodyReceived := bodyReceived x; message := message x |}.

Definition set_parseOffset (v : Z) (x : HttpStream) : HttpStream :=
  {| tcptuple := tcptuple x; data := data x; parseOffset := v; parseState := parseState x;
     bodyReceived := bodyReceived x; message := message x |}.

Definition set_parseState (v : State) (x : HttpStream) : HttpStream :=
  {| tcptuple := tcptuple x; data := data x; parseOffset := parseOffset x; parseState := v;
     bodyReceived := bodyReceived x; message := message x |}.

Definition set_bodyReceived (v : Z) (x : HttpStream) : HttpStream :=
  {| tcptuple := tcptuple x; data := data x; parseOffset := parseOffset x;
     parseState := parseState x; bodyReceived := v; message := message x |}.

Definition set_message (v : option Msg.HttpMessage) (x : HttpStream) : HttpStream :=
  {| tcptuple := tcptuple x; data := data x; parseOffset := parseOffset x;
     parseState := parseState x; bodyReceived := bodyReceived x; message := v |}.

End Stream.

(** [HttpTransaction].  [timer] is the pointer to the timer, kept as the
    delay the timer was created with; stopping it is not recorded. *)
Module Trans.

Record HttpTransaction : Type := Build {
  Type_ : string;
  tuple : common_TcpTuple;
  Src : common_Endpoint;
  Dst : common_Endpoint;
  Real_ip : string;
  ResponseTime : Z;
  Ts : Z;
  JsTs : Z;
  ts : Z;
  cmdline : option common_CmdlineTuple;
  Method : string;
  RequestUri : string;
  Http : option MapStr;
  Request_raw : string;
  Response_raw : string;
  timer : option Z
}.

Definition set_Src (v : common_Endpoint) (x : HttpTransaction) : HttpTransaction :=
  {| Type_ := Type_ x; tuple := tuple x; Src := v; Dst := Dst x; Real_ip := Real_ip x;
     ResponseTime := ResponseTime x; Ts := Ts x; JsTs := JsTs x; ts := ts x;
     cmdline := cmdline x; Method := Method x; RequestUri := RequestUri x; Http := Http x;
     Request_raw := Request_raw x; Response_raw := Response_raw x; timer := timer x |}.

Definition set_Dst (v : common_Endpoint) (x : HttpTransaction) : HttpTransaction :=
  {| Type_ := Type_ x; tuple := tuple x; Src := Src x; Dst := v; Real_ip := Real_ip x;
     ResponseTime := ResponseTime x; Ts := Ts x; JsTs := JsTs x; ts := ts x;
     cmdline := cmdline x; Method := Method x; RequestUri := RequestUri x; Http := Http x;
     Request_raw := Request_raw x; Response_raw := Response_raw x; timer := timer x |}.

Definition set_Real_ip (v : string) (x : HttpTransaction) : HttpTransaction :=
  {| Type_ := Type_ x; tuple := tuple x; Src := Src x; Dst := Dst x; Real_ip := v;
     ResponseTime := ResponseTime x; Ts := Ts x; JsTs := JsTs x; ts := ts x;
     cmdline := cmdline x; Method := Method x; RequestUri := RequestUri x; Http := Http x;
     Request_raw := Request_raw x; Response_raw := Response_raw x; timer := timer x |}.

Definition set_ResponseTime (v : Z) (x : HttpTransaction) : HttpTransaction :=
  {| Type_ := Type_ x; tuple := tuple x; Src := Src x; Dst := Dst x; Real_ip := Real_ip x;
     ResponseTime := v; Ts := Ts x; JsTs := JsTs x; ts := ts x; cmdline := cmdline x;
     Method := Method x; RequestUri := RequestUri x; Http := Http x;
     Request_raw := Request_raw x; Response_raw := Response_raw x; timer := timer x |}.

Definition set_Ts (v : Z) (x : HttpTransaction) : HttpTransaction :=
  {| Type_ := Type_ x; tuple := tuple x; Src := Src x; Dst := Dst x; Real_ip := Real_ip x;
     ResponseTime := ResponseTime x; Ts := v; JsTs := JsTs x; ts := ts x; cmdline := cmdline x;
     Method := Method x; RequestUri := RequestUri x; Http := Http x;
     Request_raw := Request_raw x; Response_raw := Response_raw x; timer := timer x |}.

Definition set_JsTs (v : Z) (x : HttpTransaction) : HttpTransaction :=
  {| Type_ := Type_ x; tuple := tuple x; Src := Src x; Dst := Dst x; Real_ip := Real_ip x;
     ResponseTime := ResponseTime x; Ts := Ts x; JsTs := v; ts := ts x; cmdline := cmdline x;
     Method := Method x; RequestUri := RequestUri x; Http := Http x;
     Request_raw := Request_raw x; Response_raw := Response_raw x; timer := timer x |}.

Definition set_ts (v : Z) (x : HttpTransaction) : HttpTransaction :=
  {| Type_ := Type_ x; tuple := tuple x; Src := Src x; Dst := Dst x; Real_ip := Real_ip x;
     ResponseTime := ResponseTime x; Ts := Ts x; JsTs := JsTs x; ts := v; cmdline := cmdline x;
     Method := Method x; RequestUri := RequestUri x; Http := Http x;
     Request_raw := Request_raw x; Response_raw := Response_raw x; timer := timer x |}.

Definition set_Method (v : string) (x : HttpTransaction) : HttpTransaction :=
  {| Type_ := Type_ x; tuple := tuple x; Src := Src x; Dst := Dst x; Real_ip := Real_ip x;
     ResponseTime := ResponseTime x; Ts := Ts x; JsTs := JsTs x; ts := ts x;
     cmdline := cmdline x; Method := v; RequestUri := RequestUri x; Http := Http x;
     Request_raw := Request_raw x; Response_raw := Response_raw x; timer := timer x |}.

Definition set_RequestUri (v : string) (x : HttpTransaction) : HttpTransaction :=
  {| Type_ := Type_ x; tuple := tuple x; Src := Src x; Dst := Dst x; Real_ip := Real_ip x;
     ResponseTime := ResponseTime x; Ts := Ts x; JsTs := JsTs x; ts := ts x;
     cmdline := cmdline x; Method := Method x; RequestUri := v; Http := Http x;
     Request_raw := Request_raw x; Response_raw := Response_raw x; timer := timer x |}.

Definition set_Http (v : option MapStr) (x : HttpTransaction) : HttpTransaction :=
  {| Type_ := Type_ x; tuple := tuple x; Src := Src x; Dst := Dst x; Real_ip := Real_ip x;
     ResponseTime := ResponseTime x; Ts := Ts x; JsTs := JsTs x; ts := ts x;
     cmdline := cmdline x; Method := Method x; RequestUri := RequestUri x; Http := v;
     Request_raw := Request_raw x; Response_raw := Response_raw x; timer := timer x |}.

Definition set_Request_raw (v : string) (x : HttpTransaction) : HttpTransaction :=
  {| Type_ := Type_ x; tuple := tuple x; Src := Src x; Dst := Dst x; Real_ip := Real_ip x;
     ResponseTime := ResponseTime x; Ts := Ts x; JsTs := JsTs x; ts := ts x;
     cmdline := cmdline x; Method := Method x; RequestUri := RequestUri x; Http := Http x;
     Request_raw := v; Response_raw := Response_raw x; timer := timer x |}.

Definition set_Response_raw (v : string) (x : HttpTransaction) : HttpTransaction :=
  {| Type_ := Type_ x; tuple := tuple x; Src := Src x; Dst := Dst x; Real_ip := Real_ip x;
     ResponseTime := ResponseTime x; Ts := Ts x; JsTs := JsTs x; ts := ts x;
     cmdline := cmdline x; Method := Method x; RequestUri := RequestUri x; Http := Http x;
     Request_raw := Request_raw x; Response_raw := v; timer := timer x |}.

Definition set_timer (v : option Z) (x : HttpTransaction) : HttpTransaction :=
  {| Type_ := Type_ x; tuple := tuple x; Src := Src x; Dst := Dst x; Real_ip := Real_ip x;
     ResponseTime := ResponseTime x; Ts := Ts x; JsTs := JsTs x; ts := ts x;
     cmdline := cmdline x; Method := Method x; RequestUri := RequestUri x; Http := Http x;
     Request_raw := Request_raw x; Response_raw := Response_raw x; timer := v |}.

End Trans.

(** [config.ConfigSingleton], by the options the source reads:
    [Passwords.Hide_keywords], [Passwords.Strip_authorization] and
    [Http.Include_body_for]. *)
Record Config : Type := {
  Hide_keywords : list string;
  Strip_authorization : bool;
  Include_body_for : list string
}.

(** [TransactionTimeout = 10 * 1e9] *)
Definition TransactionTimeout : Z := 10 * 1000000000.

(** ** The parser *)

(** [parseVersion]; the third component tells whether an error is returned. *)
Definition parseVersion (s : bytes) : result (Z * Z * bool) :=
  if len s <? 3 then Ok (0, 0, true)
  else
    do c0 <- index s 0;
    do c2 <- index s 2;
    let major := Atoi (string_of_byte c0) in
    let minor := Atoi (string_of_byte c2) in
    Ok (uint8 major, uint8 minor, false).

(** [parseResponseStatus] *)
Definition parseResponseStatus (s : bytes) : result (Z * string * bool) :=
  let p := Index s (B " ") in
  if p =? -1 then Ok (0, EmptyString, true)
  else
    do code_bytes <- slice s 0 p;
    let status_code := Atoi (S_ code_bytes) in
    let p := LastIndex s (B " ") in
    if p =? -1 then Ok (uint16 status_code, EmptyString, true)
    else
      do status_phrase <- slice_from s (p +! 1);
      Ok (uint16 status_code, S_ status_phrase, false).

(** What one turn of the parser's loop does: go round again, or return
    [(ok, complete)]. *)
Inductive step : Type :=
  | Continue (s : Stream.HttpStream) (m : Msg.HttpMessage)
  | Return (s : Stream.HttpStream) (m : Msg.HttpMessage) (ok complete : bool).

(** [state_body_chunked_wait_final_crlf] *)
Definition state_body_chunked_wait_final_crlf (s : Stream.HttpStream) (m : Msg.HttpMessage)
  : result step :=
  do rest <- slice_from (Stream.data s) (Stream.parseOffset s);
  if len rest <? 2 then Ok (Return s m true false)
  else
    do c0 <- index (Stream.data s) (Stream.parseOffset s);
    do bad <- (if negb (Ascii.eqb c0 CR) then Ok true
               else do c1 <- index (Stream.data s) (Stream.parseOffset s +! 1);
                    Ok (negb (Ascii.eqb c1 LF)));
    if bad : bool then Ok (Return s m false false)
    else
      let s := Stream.set_parseOffset (Stream.parseOffset s +! 2) s in
      let m := Msg.set_end_ (Stream.parseOffset s) m in
      Ok (Return s m true true).

(** [state_body_chunked] *)
Definition state_body_chunked (s : Stream.HttpStream) (m : Msg.HttpMessage) : result step :=
  let po := Stream.parseOffset s in
  let want := Msg.chunked_length m -! Stream.bodyReceived s in
  do rest <- slice_from (Stream.data s) po;
  if want +! 2 <=? len rest then
    do chunk <- slice (Stream.data s) po (po +! Msg.chunked_length m -! Stream.bodyReceived s);
    let m := Msg.set_chunked_body (Msg.chunked_body m ++ chunk) m in
    let s := Stream.set_parseOffset (po +! (want +! 2)) s in
    let m := Msg.set_ContentLength (Msg.ContentLength m +! Msg.chunked_length m) m in
    let s := Stream.set_parseState BODY_CHUNKED_START s in
    Ok (Continue s m)
  else
    do rest <- slice_from (Stream.data s) po;
    if want <=? len rest then Ok (Return s m true false)
    else
      do rest <- slice_from (Stream.data s) po;
      let m := Msg.set_chunked_body (Msg.chunked_body m ++ rest) m in
      let s := Stream.set_bodyReceived
                 (Stream.bodyReceived s +! (len (Stream.data s) -! po)) s in
      let s := Stream.set_parseOffset (len (Stream.data s)) s in
      Ok (Return s m true false).

(** [HttpStream.PrepareForNewMessage]; the receiver's message is not nil
    where the source calls it. *)
Definition PrepareForNewMessage (stream : Stream.HttpStream) : result Stream.HttpStream :=
  match Stream.message stream with
  | None => Panic
  | Some m =>
      do rest <- slice_from (Stream.data stream) (Msg.end_ m);
      Ok (Stream.set_message None
            (Stream.set_bodyReceived 0
               (Stream.set_parseOffset 0
                  (Stream.set_parseState START
                     (Stream.set_data rest stream)))))
  end.

(** [httpPrivateData]: the two streams of a flow, either of which may be nil. *)
Record httpPrivateData : Type := {
  Data0 : option Stream.HttpStream;
  Data1 : option Stream.HttpStream
}.

Definition Data (priv : httpPrivateData) (dir : Dir) : option Stream.HttpStream :=
  match dir with TcpDirectionReverse => Data0 priv | TcpDirectionOriginal => Data1 priv end.

Definition set_Data (dir : Dir) (v : option Stream.HttpStream) (priv : httpPrivateData)
  : httpPrivateData :=
  match dir with
  | TcpDirectionReverse => {| Data0 := v; Data1 := Data1 priv |}
  | TcpDirectionOriginal => {| Data0 := Data0 priv; Data1 := v |}
  end.

(** [protos.Packet], by the fields the source reads. *)
Record Packet : Type := {
  Payload : bytes;
  pkt_Ts : Z
}.

(** [&HttpMessage{Ts: ts}]: every other field is the zero value. *)
Definition zero_TcpTuple : common_TcpTuple :=
  {| Src_ip := EmptyString; Dst_ip := EmptyString; Src_port := 0; Dst_port := 0 |}.

Definition new_HttpMessage (ts : Z) : Msg.HttpMessage :=
  {| Msg.Ts := ts; Msg.hasContentLength := false; Msg.headerOffset := 0; Msg.bodyOffset := 0;
     Msg.version_major := 0; Msg.version_minor := 0; Msg.connection := EmptyString;
     Msg.chunked_length := 0; Msg.chunked_body := []; Msg.IsRequest := false;
     Msg.TcpTuple := zero_TcpTuple; Msg.CmdlineTuple := None; Msg.Direction := 0;
     Msg.FirstLine := EmptyString; Msg.RequestUri := EmptyString; Msg.Method := EmptyString;
     Msg.StatusCode := 0; Msg.StatusPhrase := EmptyString; Msg.Real_ip := EmptyString;
     Msg.ContentLength := 0; Msg.TransferEncoding := EmptyString; Msg.Headers := ∅;
     Msg.Body := EmptyString; Msg.Raw := []; Msg.start := 0; Msg.end_ := 0 |}.

(** ** An instance of the collaborators, for worked examples

    [scan_hex] reads what [fmt.Sscanf(line, "%x", &n)] reads on a line made
    of an optional sign and hexadecimal digits, followed by anything that is
    not one: leading blanks are skipped, at least one digit is required, and
    the value must fit an int64. *)
Definition hex_val (c : ascii) : option Z :=
  let n := code c in
  if (48 <=? n) && (n <=? 57) then Some (n - 48)
  else if (97 <=? n) && (n <=? 102) then Some (n - 87)
  else if (65 <=? n) && (n <=? 70) then Some (n - 55)
  else None.

Fixpoint hex_digits (s : bytes) (acc : option Z) : option Z :=
  match s with
  | [] => acc
  | c :: r =>
      match hex_val c with
      | Some d => hex_digits r (Some (default 0 acc * 16 + d))
      | None => acc
      end
  end.

Definition scan_hex (line : string) : option Z :=
  let b := TrimLeft (B line) [SP; HT] in
  let '(neg, ds) :=
    match b with
    | c :: r => if Ascii.eqb c "+" then (false, r)
                else if Ascii.eqb c "-" then (true, r) else (false, b)
    | [] => (false, b)
    end in
  match hex_digits ds None with
  | Some n =>
      let v := if neg : bool then - n else n in
      if (MinInt <=? v) && (v <=? MaxInt) then Some v else None
  | None => None
  end.

Definition flow_key : Type := Z.
Definition tuple_key (t : common_TcpTuple) : flow_key := Src_port t + Dst_port t.
Definition no_processes (t : common_TcpTuple) : option common_CmdlineTuple :=
  Some {| cmd_Src := []; cmd_Dst := [] |}.

(** Ten mebibytes, the bound the spec suggests for a direction's buffer. *)
Definition max_data : Z := 10 * 1024 * 1024.

(** Bytes of a message head: each line followed by CRLF. *)
Definition lines (l : list string) : bytes := concat ((fun s => B s ++ CRLF) <$> l).

Definition segment (payload : bytes) (ts : Z) : Packet := {| Payload := payload; pkt_Ts := ts |}.

Definition example_tuple : common_TcpTuple :=
  {| Src_ip := "10.0.0.1"; Dst_ip := "10.0.0.2"; Src_port := 34567; Dst_port := 80 |}.

Definition scrub_config : Config :=
  {| Hide_keywords := ["password="%string]; Strip_authorization := true;
     Include_body_for := ["urlencoded"%string] |}.

Definition get_request : bytes := lines ["GET /x HTTP/1.1"; "Host: a"; ""]%string.
Definition no_content_response : bytes := lines ["HTTP/1.1 204 No Content"; ""]%string.

Definition login_request : bytes :=
  lines ["POST /login HTTP/1.1"; "Content-Type: application/x-www-form-urlencoded";
         "Content-Length: 28"; ""]%string
  ++ B "user=bob&password=secret&x=1".

Definition basic_auth_request : bytes :=
  lines ["GET /x HTTP/1.1"; "Authorization: Basic dXNlcjpwYXNz"; ""]%string.

Definition folded_header : bytes := lines ["X-Test: a"; " b"; ""]%string.

Definition chunked_no_content_response : bytes :=
  lines ["HTTP/1.1 204 No Content"; "Transfer-Encoding: chunked"; ""]%string.

Definition chunked_request_head : bytes :=
  lines ["GET / HTTP/1.1"; "Transfer-Encoding: chunked"; ""]%string.

(** A message in the middle of a chunk of five bytes. *)
Definition chunk_message : Msg.HttpMessage := Msg.set_chunked_length 5 (new_HttpMessage 0).

(** A request at the end of its headers, which asked for chunked framing. *)
Definition chunked_request_message : Msg.HttpMessage :=
  Msg.set_TransferEncoding "chunked" (Msg.set_IsRequest true (new_HttpMessage 0)).

(** A request with a Cookie header one of whose components has no [=]. *)
Definition flag_cookie_request : Msg.HttpMessage :=
  Msg.set_Headers (<["cookie" := "x=1; flag"%string]> ∅)
    (Msg.set_IsRequest true (new_HttpMessage 0)).


Section Http.

(** Collaborators outside this file, taken as parameters:
    - [Sscanf_x line] is [fmt.Sscanf(line, "%x", &n)]: the integer read, or
      [None] when the call returns an error;
    - [ToLower] is [strings.ToLower];
    - [HashableTcpTuple] and [Hashable] are [common.HashableTcpTuple] and
      [TcpTuple.Hashable];
    - [FindProcessesTuple] is [procs.ProcWatcher.FindProcessesTuple] applied
      to the tuple's address pair; it returns a pointer;
    - [TCP_MAX_DATA_IN_STREAM] is the constant of package [tcp];
    - [ConfigSingleton] is the process-wide configuration. *)
Variable Sscanf_x : string -> option Z.
Variable ToLower : string -> string.
Context {HashableTcpTuple : Type} `{Countable HashableTcpTuple}.
Variable Hashable : common_TcpTuple -> HashableTcpTuple.
Variable FindProcessesTuple : common_TcpTuple -> option common_CmdlineTuple.
Variable TCP_MAX_DATA_IN_STREAM : Z.
Variable ConfigSingleton : Config.

(** The [Http] protocol object.  [results] is the channel, as the list of
    the events sent on it so far ([None] for a nil channel); [warnings]
    collects what the transaction functions pass to [logp.Warn]. *)
Record Http : Type := {
  Send_request : bool;
  Send_response : bool;
  Send_headers : bool;
  Send_all_headers : bool;
  Headers_whitelist : gmap string bool;
  Split_cookie : bool;
  Real_ip_header : string;
  transactionsMap : gmap HashableTcpTuple Trans.HttpTransaction;
  results : option (list MapStr);
  warnings : list string
}.

Definition set_transactionsMap (v : gmap HashableTcpTuple Trans.HttpTransaction) (x : Http)
  : Http :=
  {| Send_request := Send_request x; Send_response := Send_response x;
     Send_headers := Send_headers x; Send_all_headers := Send_all_headers x;
     Headers_whitelist := Headers_whitelist x; Split_cookie := Split_cookie x;
     Real_ip_header := Real_ip_header x; transactionsMap := v; results := results x;
     warnings := warnings x |}.

Definition set_results (v : option (list MapStr)) (x : Http) : Http :=
  {| Send_request := Send_request x; Send_response := Send_response x;
     Send_headers := Send_headers x; Send_all_headers := Send_all_headers x;
     Headers_whitelist := Headers_whitelist x; Split_cookie := Split_cookie x;
     Real_ip_header := Real_ip_header x; transactionsMap := transactionsMap x; results := v;
     warnings := warnings x |}.

Definition Warn (w : string) (x : Http) : Http :=
  {| Send_request := Send_request x; Send_response := Send_response x;
     Send_headers := Send_headers x; Send_all_headers := Send_all_headers x;
     Headers_whitelist := Headers_whitelist x; Split_cookie := Split_cookie x;
     Real_ip_header := Real_ip_header x; transactionsMap := transactionsMap x;
     results := results x; warnings := warnings x ++ [w] |}.

(** The part of [parseHeader] that runs once the end [p] of the value is
    known: record the header whose name ends at the colon [i]. *)
Definition store_header (http : Http) (m : Msg.HttpMessage) (data : bytes) (i p : Z)
  : result (Msg.HttpMessage * (bool * bool * Z)) :=
  do name <- slice_to data i;
  let headerName := ToLower (S_ name) in
  do val <- slice data (i +! 1) p;
  let headerVal := S_ (Trim val (String SP (String HT EmptyString))) in
  let m :=
    if String.eqb headerName "content-length"
    then Msg.set_hasContentLength true (Msg.set_ContentLength (Atoi headerVal) m)
    else if String.eqb headerName "transfer-encoding"
    then Msg.set_TransferEncoding headerVal m
    else if String.eqb headerName "connection"
    then Msg.set_connection headerVal m
    else m in
  let m :=
    if (0 <? Z.of_nat (String.length (Real_ip_header http)))
       && String.eqb headerName (Real_ip_header http)
    then Msg.set_Real_ip headerVal m else m in
  if Send_headers http then
    if negb (Send_all_headers http) && negb (bool_decide (is_Some (Headers_whitelist http !! headerName)))
    then Ok (m, (true, true, p +! 2))
    else
      let m :=
        match Msg.Headers m !! headerName with
        | Some val => Msg.set_Headers (<[headerName := (val +:+ ", " +:+ headerVal)%string]> (Msg.Headers m)) m
        | None => Msg.set_Headers (<[headerName := headerVal]> (Msg.Headers m)) m
        end in
      Ok (m, (true, true, p +! 2))
  else Ok (m, (true, true, p +! 2)).

(** The loop of [parseHeader] that skips folded lines, from position [p]. *)
Fixpoint parseHeader_loop (fuel : nat) (http : Http) (m : Msg.HttpMessage) (data : bytes)
    (i p : Z) : result (Msg.HttpMessage * (bool * bool * Z)) :=
  if negb (p <? len data) then Ok (m, (true, false, len data))
  else
    match fuel with
    | O => OutOfFuel
    | S fuel' =>
        do rest <- slice_from data p;
        let q := Index rest CRLF in
        if q =? -1 then Ok (m, (true, false, 0))
        else
          let p := p +! q in
          do folded <- (if p <? len data
                        then do c <- index data (p +! 1);
                             if Ascii.eqb c SP then Ok true
                             else do c <- index data (p +! 1); Ok (Ascii.eqb c HT)
                        else Ok false);
          if folded : bool then parseHeader_loop fuel' http m data i (p +! 2)
          else store_header http m data i p
    end.

(** [Http.parseHeader] *)
Definition parseHeader (http : Http) (m : Msg.HttpMessage) (data : bytes)
  : result (Msg.HttpMessage * (bool * bool * Z)) :=
  let i := Index data (B ":") in
  if i =? -1 then Ok (m, (true, false, 0))
  else parseHeader_loop (S (length data)) http m data i (i +! 1).

(** [state_body_chunked_start] *)
Definition state_body_chunked_start (s : Stream.HttpStream) (m : Msg.HttpMessage)
  : result step :=
  do rest <- slice_from (Stream.data s) (Stream.parseOffset s);
  let i := Index rest CRLF in
  if i =? -1 then Ok (Return s m true false)
  else
    do line <- slice (Stream.data s) (Stream.parseOffset s) (Stream.parseOffset s +! i);
    match Sscanf_x (S_ line) with
    | None => Ok (Return s m false false)
    | Some n =>
        let m := Msg.set_chunked_length n m in
        let s := Stream.set_parseOffset (Stream.parseOffset s +! (i +! 2)) s in
        if Msg.chunked_length m =? 0 then
          do rest <- slice_from (Stream.data s) (Stream.parseOffset s);
          if len rest <? 2
          then Ok (Return (Stream.set_parseState BODY_CHUNKED_WAIT_FINAL_CRLF s) m true false)
          else
            do c0 <- index (Stream.data s) (Stream.parseOffset s);
            do bad <- (if negb (Ascii.eqb c0 CR) then Ok true
                       else do c1 <- index (Stream.data s) (Stream.parseOffset s +! 1);
                            Ok (negb (Ascii.eqb c1 LF)));
            if bad : bool then Ok (Return s m false false)
            else
              let s := Stream.set_parseOffset (Stream.parseOffset s +! 2) s in
              let m := Msg.set_end_ (Stream.parseOffset s) m in
              Ok (Return s m true true)
        else
          let s := Stream.set_bodyReceived 0 s in
          let s := Stream.set_parseState BODY_CHUNKED s in
          Ok (Continue s m)
    end.

(** The [START] case of [messageParser].  [set_version] is its call of
    [parseVersion] with the default that follows an error. *)
Definition set_version (version : bytes) (m : Msg.HttpMessage) : result Msg.HttpMessage :=
  do v <- parseVersion version;
  let '(major, minor, err) := v in
  let m := Msg.set_version_minor minor (Msg.set_version_major major m) in
  if err : bool
  then Ok (Msg.set_version_minor 0 (Msg.set_version_major 1 m))
  else Ok m.

(** What the first line tells: for a line that is understood, the message
    and the bytes of the version; otherwise the message as it is when the
    parser gives the stream up. *)
Definition first_line (fline : bytes) (m : Msg.HttpMessage)
  : result (Msg.HttpMessage * bytes + Msg.HttpMessage) :=
  do head <- slice fline 0 5;
  if Equal head (B "HTTP/") then
    (* RESPONSE *)
    let m := Msg.set_IsRequest false m in
    do version <- slice fline 5 8;
    do status_line <- slice_from fline 9;
    do st <- parseResponseStatus status_line;
    let '(status_code, status_phrase, err) := st in
    let m := Msg.set_StatusPhrase status_phrase (Msg.set_StatusCode status_code m) in
    if err : bool then Ok (inr m) else Ok (inl (m, version))
  else
    (* REQUEST *)
    let slices := Fields fline in
    if negb (len slices =? 3) then Ok (inr m)
    else
      do slices0 <- index slices 0;
      do slices1 <- index slices 1;
      let m := Msg.set_RequestUri (S_ slices1) (Msg.set_Method (S_ slices0) m) in
      do slices2 <- index slices 2;
      do head2 <- slice_to slices2 5;
      if Equal head2 (B "HTTP/") then
        let m := Msg.set_IsRequest true m in
        do version <- slice_from slices2 5;
        let m := Msg.set_FirstLine (S_ fline) m in
        Ok (inl (m, version))
      else Ok (inr m).

Definition state_start (s : Stream.HttpStream) (m : Msg.HttpMessage) : result step :=
  let m := Msg.set_start (Stream.parseOffset s) m in
  do rest <- slice_from (Stream.data s) (Stream.parseOffset s);
  let i := Index rest CRLF in
  if i =? -1 then Ok (Return s m true false)
  else
    do fline <- slice (Stream.data s) (Stream.parseOffset s) i;
    if len fline <? 8 then Ok (Return s m false false)
    else
      do parsed <- first_line fline m;
      match parsed with
      | inr m => Ok (Return s m false false)
      | inl (m, version) =>
          do m <- set_version version m;
          let s := Stream.set_parseOffset (i +! 2) s in
          let m := Msg.set_headerOffset (Stream.parseOffset s) m in
          let s := Stream.set_parseState HEADERS s in
          Ok (Continue s m)
      end.

(** The [HEADERS] case. *)
Definition state_headers (http : Http) (s : Stream.HttpStream) (m : Msg.HttpMessage)
  : result step :=
  do eoh <- (if 2 <=? len (Stream.data s) -! Stream.parseOffset s
             then do two <- slice (Stream.data s) (Stream.parseOffset s)
                                  (Stream.parseOffset s +! 2);
                  Ok (Equal two CRLF)
             else Ok false);
  if eoh : bool then
    (* EOH *)
    let s := Stream.set_parseOffset (Stream.parseOffset s +! 2) s in
    let m := Msg.set_bodyOffset (Stream.parseOffset s) m in
    if negb (Msg.IsRequest m)
       && (((100 <=? Msg.StatusCode m) && (Msg.StatusCode m <? 200))
           || (Msg.StatusCode m =? 204) || (Msg.StatusCode m =? 304))
    then Ok (Return s (Msg.set_end_ (Stream.parseOffset s) m) true true)
    else if String.eqb (Msg.TransferEncoding m) "chunked"
    then Ok (Continue (Stream.set_parseState BODY_CHUNKED_START s) m)
    else if (Msg.ContentLength m =? 0) && (Msg.IsRequest m || Msg.hasContentLength m)
    then Ok (Return s (Msg.set_end_ (Stream.parseOffset s) m) true true)
    else Ok (Continue (Stream.set_parseState BODY s) m)
  else
    do rest <- slice_from (Stream.data s) (Stream.parseOffset s);
    do r <- parseHeader http m rest;
    let '(m, (ok, hfcomplete, offset)) := r in
    if negb ok then Ok (Return s m false false)
    else if negb hfcomplete then Ok (Return s m true false)
    else Ok (Continue (Stream.set_parseOffset (Stream.parseOffset s +! offset) s) m).

(** The [BODY] case. *)
Definition state_body (s : Stream.HttpStream) (m : Msg.HttpMessage) : result step :=
  let avail := len (Stream.data s) -! Stream.parseOffset s in
  if negb (Msg.hasContentLength m)
     && (String.eqb (Msg.connection m) "close"
         || ((Msg.version_major m =? 1) && (Msg.version_minor m =? 0)
             && negb (String.eqb (Msg.connection m) "keep-alive")))
  then
    let s := Stream.set_bodyReceived (Stream.bodyReceived s +! avail) s in
    let m := Msg.set_ContentLength (Msg.ContentLength m +! avail) m in
    let s := Stream.set_parseOffset (len (Stream.data s)) s in
    Ok (Return s m true false)
  else
    do rest <- slice_from (Stream.data s) (Stream.parseOffset s);
    if Msg.ContentLength m -! Stream.bodyReceived s <=? len rest then
      let s := Stream.set_parseOffset
                 (Stream.parseOffset s +! (Msg.ContentLength m -! Stream.bodyReceived s)) s in
      Ok (Return s (Msg.set_end_ (Stream.parseOffset s) m) true true)
    else
      let s := Stream.set_bodyReceived (Stream.bodyReceived s +! avail) s in
      let s := Stream.set_parseOffset (len (Stream.data s)) s in
      Ok (Return s m true false).

(** One turn of the [switch] inside the loop of [messageParser].  No case
    matches [FLINE], so that turn changes nothing. *)
Definition parser_step (http : Http) (s : Stream.HttpStream) (m : Msg.HttpMessage)
  : result step :=
  match Stream.parseState s with
  | START => state_start s m
  | FLINE => Ok (Continue s m)
  | HEADERS => state_headers http s m
  | BODY => state_body s m
  | BODY_CHUNKED_START => state_body_chunked_start s m
  | BODY_CHUNKED => state_body_chunked s m
  | BODY_CHUNKED_WAIT_FINAL_CRLF => state_body_chunked_wait_final_crlf s m
  end.

Fixpoint messageParser_loop (fuel : nat) (http : Http) (s : Stream.HttpStream)
    (m : Msg.HttpMessage) : result (Stream.HttpStream * Msg.HttpMessage * (bool * bool)) :=
  if negb (Stream.parseOffset s <? len (Stream.data s)) then Ok (s, m, (true, false))
  else
    match fuel with
    | O => OutOfFuel
    | S fuel' =>
        do st <- parser_step http s m;
        match st with
        | Continue s m => messageParser_loop fuel' http s m
        | Return s m ok complete => Ok (s, m, (ok, complete))
        end
    end.

(** [Http.messageParser].  The message is the one the stream points to: it
    is written back into the stream on return.  [Parse], the only caller,
    hands over a stream that has a message; without one the first turn of
    the loop dereferences nil. *)
Definition messageParser (http : Http) (s : Stream.HttpStream)
  : result (Stream.HttpStream * (bool * bool)) :=
  match Stream.message s with
  | None =>
      if Stream.parseOffset s <? len (Stream.data s) then Panic else Ok (s, (true, false))
  | Some m =>
      do r <- messageParser_loop (S (length (Stream.data s))) http s m;
      let '(s, m, oc) := r in
      Ok (Stream.set_message (Some m) s, oc)
  end.

(** ** Cookies, body cutting and credential scrubbing *)

(** The loop of [splitCookiesHeader] over the [;]-separated components. *)
Fixpoint splitCookies_loop (cstring : list string) (cookies : gmap string string)
  : result (gmap string string) :=
  match cstring with
  | [] => Ok cookies
  | cval :: rest =>
      let cookie := Split cval "=" in
      do name <- index cookie 0;
      do value <- index cookie 1;
      splitCookies_loop rest (<[ToLower (S_ (Trim (B name) " ")) := value]> cookies)
  end.

(** [splitCookiesHeader] *)
Definition splitCookiesHeader (headerVal : string) : result (gmap string string) :=
  splitCookies_loop (Split headerVal ";") ∅.

(** [Http.shouldIncludeInBody] *)
Definition shouldIncludeInBody (contenttype : string) : bool :=
  existsb (fun include => Contains contenttype include) (Include_body_for ConfigSingleton).

(** [Http.cutMessageBody].  The [append] writes into the array behind
    [m.Raw]; only the returned bytes are read afterwards. *)
Definition cutMessageBody (m : Msg.HttpMessage) : result bytes :=
  do raw_msg_cut <- slice_to (Msg.Raw m) (Msg.bodyOffset m);
  match Msg.Headers m !! "content-type" with
  | Some contentType =>
      if (Z.of_nat (String.length contentType) =? 0) || shouldIncludeInBody contentType then
        if 0 <? len (Msg.chunked_body m) then Ok (raw_msg_cut ++ Msg.chunked_body m)
        else do body <- slice_from (Msg.Raw m) (Msg.bodyOffset m);
             Ok (raw_msg_cut ++ body)
      else Ok raw_msg_cut
  | None => Ok raw_msg_cut
  end.

(** [for i := start_index; i < end_index; i++ { msg[i] = '*' }] *)
Fixpoint star_loop (n : nat) (i : Z) (msg : bytes) : result bytes :=
  match n with
  | O => Ok msg
  | S n' => do msg <- store msg i STAR; star_loop n' (i +! 1) msg
  end.
Definition stars (msg : bytes) (start_index end_index : Z) : result bytes :=
  star_loop (Z.to_nat (end_index - start_index)) start_index msg.

Definition auth_text : bytes := B "Authorization:".

(** First block of [censorPasswords]: the Authorization header. *)
Definition censorAuthorization (m : Msg.HttpMessage) (msg : bytes)
  : result (Msg.HttpMessage * bytes) :=
  if Strip_authorization ConfigSingleton
     && negb (String.eqb (default EmptyString (Msg.Headers m !! "authorization")) EmptyString)
  then
    let header_len := Msg.bodyOffset m -! Msg.headerOffset m in
    do block <- slice msg (Msg.headerOffset m) (Msg.bodyOffset m);
    let val_start_x := Index block auth_text in
    do msg <-
      (if negb (val_start_x =? -1) then
         do tail <- slice msg (Msg.headerOffset m +! val_start_x) (Msg.bodyOffset m);
         let val_end_x := Index tail CRLF in
         let val_end_x :=
           if (val_end_x <? 0) || (header_len <? val_end_x) then header_len else val_end_x in
         let start_index := Msg.headerOffset m +! val_start_x +! len auth_text in
         let end_index := Msg.headerOffset m +! val_end_x in
         stars msg start_index end_index
       else Ok msg);
    Ok (Msg.set_Headers (<["authorization" := "*"%string]> (Msg.Headers m)) m, msg)
  else Ok (m, msg).

(** Body of the loop over the keywords in the second block. *)
Definition censorKeyword (m : Msg.HttpMessage) (msg : bytes) (keyword : string)
  : result bytes :=
  do body <- slice_from msg (Msg.bodyOffset m);
  let index := Index body (B keyword) in
  if 0 <? index then
    let start_index := Msg.bodyOffset m +! index +! len (B keyword) in
    do tail <- slice_from msg (Msg.bodyOffset m +! index +! len (B keyword));
    let end_index := IndexAny tail (String "&" (String SP (String CR (String LF EmptyString)))) in
    let end_index :=
      if 0 <? end_index then
        let end_index := end_index +! (Msg.bodyOffset m +! index) in
        if Msg.end_ m <? end_index then Msg.end_ m else end_index
      else Msg.end_ m in
    if end_index -! start_index <? 120 then stars msg start_index end_index
    else Ok msg
  else Ok msg.

Fixpoint censorKeywords (m : Msg.HttpMessage) (msg : bytes) (keywords : list string)
  : result bytes :=
  match keywords with
  | [] => Ok msg
  | keyword :: rest => do msg <- censorKeyword m msg keyword; censorKeywords m msg rest
  end.

(** Second block of [censorPasswords]: passwords in form bodies. *)
Definition censorBody (m : Msg.HttpMessage) (msg : bytes) : result bytes :=
  if (0 <? Msg.ContentLength m)
     && Contains (default EmptyString (Msg.Headers m !! "content-type")) "urlencoded"
  then censorKeywords m msg (Hide_keywords ConfigSingleton)
  else Ok msg.

(** [Http.censorPasswords]: the message with its header map rewritten, and
    the bytes of [msg] after the writes made in place. *)
Definition censorPasswords (m : Msg.HttpMessage) (msg : bytes)
  : result (Msg.HttpMessage * bytes) :=
  if Msg.IsRequest m then
    do r <- censorAuthorization m msg;
    let '(m, msg) := r in
    do msg <- censorBody m msg;
    Ok (m, msg)
  else Ok (m, msg).

(** ** Transactions *)

(** Modelled from the spec: the constants [common.OK_STATUS] and
    [common.ERROR_STATUS], declared outside this file; the spec gives the
    status classification as "OK" and "ERROR". *)
Definition OK_STATUS : string := "OK".
Definition ERROR_STATUS : string := "ERROR".

(** Effects on the protocol object survive a panic, so the functions below
    return the object together with the outcome. *)
Definition try {A} (http : Http) (r : result A) (k : A -> Http * result unit)
  : Http * result unit :=
  match r with
  | Ok a => k a
  | Panic => (http, Panic)
  | OutOfFuel => (http, OutOfFuel)
  end.

(** A transaction is reached through a pointer kept in the table: a write
    to it is a write to the table's entry. *)
Definition put (key : HashableTcpTuple) (trans : Trans.HttpTransaction) (http : Http) : Http :=
  set_transactionsMap (<[key := trans]> (transactionsMap http)) http.

(** The headers as they go into a record: as they are, or with the header
    [cookie_name] split into its cookies when [Split_cookie] is set. *)
Definition record_headers (http : Http) (cookie_name : string) (headers : gmap string string)
  : result Value :=
  if negb (Split_cookie http) then Ok (VStrMap headers)
  else
    match headers !! cookie_name with
    | Some hdr_val =>
        do cookies <- splitCookiesHeader hdr_val;
        Ok (VMapStr (<[cookie_name := VStrMap cookies]> (VString <$> headers)))
    | None => Ok (VMapStr (VString <$> headers))
    end.

(** [Http.PublishTransaction] *)
Definition PublishTransaction (http : Http) (t : Trans.HttpTransaction) : Http * result unit :=
  match results http with
  | None => (http, Ok tt)
  | Some sent =>
      match Trans.Http t ≫= (fun h => h !! "code") with
      | Some (VUint16 code) =>
          let event : MapStr := <["type" := VString "http"]> ∅ in
          let event :=
            if code <? 400 then <["status" := VString OK_STATUS]> event
            else <["status" := VString ERROR_STATUS]> event in
          let event := <["responsetime" := VInt32 (Trans.ResponseTime t)]> event in
          let event :=
            if Send_request http then <["request_raw" := VString (Trans.Request_raw t)]> event
            else event in
          let event :=
            if Send_response http then <["response_raw" := VString (Trans.Response_raw t)]> event
            else event in
          let event := <["http" := VMapStr (default ∅ (Trans.Http t))]> event in
          let event :=
            if 0 <? Z.of_nat (String.length (Trans.Real_ip t))
            then <["real_ip" := VString (Trans.Real_ip t)]> event else event in
          let event := <["method" := VString (Trans.Method t)]> event in
          let event := <["path" := VString (Trans.RequestUri t)]> event in
          let event := <["@timestamp" := VTime (Trans.ts t)]> event in
          let event := <["src" := VEndpoint (Trans.Src t)]> event in
          let event := <["dst" := VEndpoint (Trans.Dst t)]> event in
          (set_results (Some (sent ++ [event])) http, Ok tt)
      | _ => (http, Panic)
      end
  end.

(** [&HttpTransaction{Type: "http", tuple: tuple}] *)
Definition new_HttpTransaction (tuple : common_TcpTuple) : Trans.HttpTransaction :=
  let zero := {| Ip := EmptyString; Port := 0; Proc := EmptyString |} in
  {| Trans.Type_ := "http"; Trans.tuple := tuple; Trans.Src := zero; Trans.Dst := zero;
     Trans.Real_ip := EmptyString; Trans.ResponseTime := 0; Trans.Ts := 0; Trans.JsTs := 0;
     Trans.ts := 0; Trans.cmdline := None; Trans.Method := EmptyString;
     Trans.RequestUri := EmptyString; Trans.Http := None; Trans.Request_raw := EmptyString;
     Trans.Response_raw := EmptyString; Trans.timer := None |}.

(** [Http.receivedHttpRequest] *)
Definition receivedHttpRequest (http : Http) (msg : Msg.HttpMessage) : Http * result unit :=
  let key := Hashable (Msg.TcpTuple msg) in
  let '(trans, http) :=
    match transactionsMap http !! key with
    | Some trans =>
        (trans,
         if negb (Z.of_nat (size (default ∅ (Trans.Http trans))) =? 0)
         then Warn "Two requests without a response. Dropping old request" http
         else http)
    | None =>
        let trans := new_HttpTransaction (Msg.TcpTuple msg) in
        (trans, put key trans http)
    end in
  let trans := Trans.set_ts (Msg.Ts msg) trans in
  let trans := Trans.set_Ts (Z.quot (Trans.ts trans) 1000) trans in
  let trans := Trans.set_JsTs (Msg.Ts msg) trans in
  match Msg.CmdlineTuple msg with
  | None => (put key trans http, Panic)
  | Some cmdline =>
      let src := {| Ip := Src_ip (Msg.TcpTuple msg); Port := Src_port (Msg.TcpTuple msg);
                    Proc := S_ (cmd_Src cmdline) |} in
      let trans := Trans.set_Src src trans in
      let dst := {| Ip := Dst_ip (Msg.TcpTuple msg); Port := Dst_port (Msg.TcpTuple msg);
                    Proc := S_ (cmd_Dst cmdline) |} in
      let trans := Trans.set_Dst dst trans in
      let trans :=
        if Msg.Direction msg =? dir_code TcpDirectionReverse
        then Trans.set_Dst (Trans.Src trans) (Trans.set_Src (Trans.Dst trans) trans)
        else trans in
      (* save Raw message *)
      try (put key trans http)
        (if Send_request http
         then do cut <- cutMessageBody msg; Ok (Trans.set_Request_raw (S_ cut) trans)
         else Ok trans)
        (fun trans =>
           let trans := Trans.set_Method (Msg.Method msg) trans in
           let trans := Trans.set_RequestUri (Msg.RequestUri msg) trans in
           let trans := Trans.set_Http (Some ∅) trans in
           try (put key trans http)
             (if Send_headers http
              then do hdrs <- record_headers http "cookie" (Msg.Headers msg);
                   Ok (Trans.set_Http (Some (<["request_headers" := hdrs]> ∅)) trans)
              else Ok trans)
             (fun trans =>
                let trans := Trans.set_Real_ip (Msg.Real_ip msg) trans in
                let trans := Trans.set_timer (Some TransactionTimeout) trans in
                (put key trans http, Ok tt)))
  end.

(** [Http.expireTransaction], what the timer runs. *)
Definition expireTransaction (http : Http) (trans : Trans.HttpTransaction) : Http :=
  set_transactionsMap (delete (Hashable (Trans.tuple trans)) (transactionsMap http)) http.

(** [t.Sub(u).Nanoseconds()]: the difference, kept within an int64. *)
Definition time_Sub (t u : Z) : Z := Z.max MinInt (Z.min MaxInt (t - u)).

(** [Http.receivedHttpResponse] *)
Definition receivedHttpResponse (http : Http) (msg : Msg.HttpMessage) : Http * result unit :=
  let tuple := Msg.TcpTuple msg in
  let key := Hashable tuple in
  match transactionsMap http !! key with
  | None => (Warn "Response from unknown transaction. Ignoring" http, Ok tt)
  | Some trans =>
      match Trans.Http trans with
      | None => (Warn "Response without a known request. Ignoring." http, Ok tt)
      | Some trans_Http =>
          let response : MapStr :=
            <["content_length" := VInt (Msg.ContentLength msg)]>
              (<["code" := VUint16 (Msg.StatusCode msg)]>
                 (<["phrase" := VString (Msg.StatusPhrase msg)]> ∅)) in
          try http
            (if Send_headers http
             then do hdrs <- record_headers http "set-cookie" (Msg.Headers msg);
                  Ok (<["response_headers" := hdrs]> response)
             else Ok response)
            (fun response =>
               (* trans.Http.Update(response) *)
               let trans := Trans.set_Http (Some (response ∪ trans_Http)) trans in
               let trans :=
                 Trans.set_ResponseTime
                   (int32 (Z.quot (time_Sub (Msg.Ts msg) (Trans.ts trans)) 1000000)) trans in
               (* save Raw message *)
               try (put key trans http)
                 (if Send_response http
                  then do cut <- cutMessageBody msg; Ok (Trans.set_Response_raw (S_ cut) trans)
                  else Ok trans)
                 (fun trans =>
                    let http := put key trans http in
                    let '(http, r) := PublishTransaction http trans in
                    try http r
                      (fun _ =>
                         (* remove from map *)
                         (set_transactionsMap
                            (delete (Hashable (Trans.tuple trans)) (transactionsMap http)) http,
                          Ok tt))))
      end
  end.

(** [Http.handleHttp] *)
Definition handleHttp (http : Http) (m : Msg.HttpMessage) (tcptuple : common_TcpTuple)
    (dir : Dir) (raw_msg : bytes) : Http * result unit :=
  let m := Msg.set_TcpTuple tcptuple m in
  let m := Msg.set_Direction (dir_code dir) m in
  let m := Msg.set_CmdlineTuple (FindProcessesTuple tcptuple) m in
  let m := Msg.set_Raw raw_msg m in
  if Msg.IsRequest m then receivedHttpRequest http m else receivedHttpResponse http m.

(** ** Entry points *)

(** The bytes of [msg] are a window [data[lo:lo+len(msg)]] on the stream's
    buffer: what is written through [msg] is written to the buffer. *)
Definition write_back (data : bytes) (lo : Z) (msg : bytes) : bytes :=
  take (Z.to_nat lo) data ++ msg ++ drop (Z.to_nat lo + length msg) data.

(** The tail of [Parse], from the call of [messageParser] on.  A panic in
    here is caught by the deferred [logp.Recover] of [Parse], which then
    returns nil. *)
Definition parse_stream (http : Http) (tcptuple : common_TcpTuple) (dir : Dir)
    (priv : httpPrivateData) (stream : Stream.HttpStream)
  : Http * result (option httpPrivateData) :=
  match messageParser http stream with
  | OutOfFuel => (http, OutOfFuel)
  | Panic => (http, Ok None)
  | Ok (stream, (ok, complete)) =>
      if negb ok then
        (* drop this tcp stream *)
        (http, Ok (Some (set_Data dir None priv)))
      else if complete then
        (* all ok, ship it *)
        match Stream.message stream with
        | None => (http, Ok None)
        | Some m =>
            match (do msg <- slice (Stream.data stream) (Msg.start m) (Msg.end_ m);
                   censorPasswords m msg) with
            | Ok (m, msg) =>
                let stream :=
                  Stream.set_data (write_back (Stream.data stream) (Msg.start m) msg) stream in
                let stream := Stream.set_message (Some m) stream in
                match handleHttp http m tcptuple dir msg with
                | (http, Ok _) =>
                    (* and reset message *)
                    match PrepareForNewMessage stream with
                    | Ok stream => (http, Ok (Some (set_Data dir (Some stream) priv)))
                    | Panic => (http, Ok None)
                    | OutOfFuel => (http, OutOfFuel)
                    end
                | (http, Panic) => (http, Ok None)
                | (http, OutOfFuel) => (http, OutOfFuel)
                end
            | Panic => (http, Ok None)
            | OutOfFuel => (http, OutOfFuel)
            end
        end
      else (http, Ok (Some (set_Data dir (Some stream) priv)))
  end.

(** [Http.Parse].  [private] is [None] for a nil interface value or one of
    another dynamic type. *)
Definition Parse (http : Http) (pkt : Packet) (tcptuple : common_TcpTuple) (dir : Dir)
    (private : option httpPrivateData) : Http * result (option httpPrivateData) :=
  let priv := default {| Data0 := None; Data1 := None |} private in
  match Data priv dir with
  | None =>
      let stream :=
        {| Stream.tcptuple := tcptuple; Stream.data := Payload pkt; Stream.parseOffset := 0;
           Stream.parseState := START; Stream.bodyReceived := 0;
           Stream.message := Some (new_HttpMessage (pkt_Ts pkt)) |} in
      parse_stream http tcptuple dir (set_Data dir (Some stream) priv) stream
  | Some stream =>
      (* concatenate bytes *)
      let stream := Stream.set_data (Stream.data stream ++ Payload pkt) stream in
      if TCP_MAX_DATA_IN_STREAM <? len (Stream.data stream)
      then (http, Ok (Some (set_Data dir None priv)))
      else
        let stream :=
          match Stream.message stream with
          | None => Stream.set_message (Some (new_HttpMessage (pkt_Ts pkt))) stream
          | Some _ => stream
          end in
        parse_stream http tcptuple dir (set_Data dir (Some stream) priv) stream
  end.


(** [Http.GapInStream] *)
Definition GapInStream (tcptuple : common_TcpTuple) (dir : Dir)
    (private : option httpPrivateData) : option httpPrivateData :=
  private.

(** The events sent on the results channel so far. *)
Definition emitted (http : Http) : list MapStr := default [] (results http).

(** Feeding segments in order through [Parse], on one direction of one flow.
    A segment is a payload with its time stamp. *)
Fixpoint feed (http : Http) (tcptuple : common_TcpTuple) (dir : Dir)
    (private : option httpPrivateData) (segments : list Packet)
  : Http * result (option httpPrivateData) :=
  match segments with
  | [] => (http, Ok private)
  | pkt :: rest =>
      match Parse http pkt tcptuple dir private with
      | (http, Ok private) => feed http tcptuple dir private rest
      | other => other
      end
  end.

(** ** Configuration *)

(** What [SetFromConfig] reads of [config.Config] and of the metadata of
    the configuration file: whether [protocols.http.send_request] and
    [protocols.http.send_response] are defined in the file, and the values
    of the fields. *)
Record config_Config : Type := {
  Defined_send_request : bool;
  Defined_send_response : bool;
  Protocols_http_Send_request : bool;
  Protocols_http_Send_response : bool;
  Http_Send_all_headers : bool;
  Http_Send_headers : list string;
  Http_Split_cookie : bool;
  Http_Real_ip_header : string
}.

Definition set_Send_request (v : bool) (x : Http) : Http :=
  {| Send_request := v; Send_response := Send_response x;
     Send_headers := Send_headers x; Send_all_headers := Send_all_headers x;
     Headers_whitelist := Headers_whitelist x; Split_cookie := Split_cookie x;
     Real_ip_header := Real_ip_header x; transactionsMap := transactionsMap x;
     results := results x; warnings := warnings x |}.

Definition set_Send_response (v : bool) (x : Http) : Http :=
  {| Send_request := Send_request x; Send_response := v;
     Send_headers := Send_headers x; Send_all_headers := Send_all_headers x;
     Headers_whitelist := Headers_whitelist x; Split_cookie := Split_cookie x;
     Real_ip_header := Real_ip_header x; transactionsMap := transactionsMap x;
     results := results x; warnings := warnings x |}.

Definition set_Send_headers (v : bool) (x : Http) : Http :=
  {| Send_request := Send_request x; Send_response := Send_response x;
     Send_headers := v; Send_all_headers := Send_all_headers x;
     Headers_whitelist := Headers_whitelist x; Split_cookie := Split_cookie x;
     Real_ip_header := Real_ip_header x; transactionsMap := transactionsMap x;
     results := results x; warnings := warnings x |}.

Definition set_Send_all_headers (v : bool) (x : Http) : Http :=
  {| Send_request := Send_request x; Send_response := Send_response x;
     Send_headers := Send_headers x; Send_all_headers := v;
     Headers_whitelist := Headers_whitelist x; Split_cookie := Split_cookie x;
     Real_ip_header := Real_ip_header x; transactionsMap := transactionsMap x;
     results := results x; warnings := warnings x |}.

Definition set_Headers_whitelist (v : gmap string bool) (x : Http) : Http :=
  {| Send_request := Send_request x; Send_response := Send_response x;
     Send_headers := Send_headers x; Send_all_headers := Send_all_headers x;
     Headers_whitelist := v; Split_cookie := Split_cookie x;
     Real_ip_header := Real_ip_header x; transactionsMap := transactionsMap x;
     results := results x; warnings := warnings x |}.

Definition set_Split_cookie (v : bool) (x : Http) : Http :=
  {| Send_request := Send_request x; Send_response := Send_response x;
     Send_headers := Send_headers x; Send_all_headers := Send_all_headers x;
     Headers_whitelist := Headers_whitelist x; Split_cookie := v;
     Real_ip_header := Real_ip_header x; transactionsMap := transactionsMap x;
     results := results x; warnings := warnings x |}.

Definition set_Real_ip_header (v : string) (x : Http) : Http :=
  {| Send_request := Send_request x; Send_response := Send_response x;
     Send_headers := Send_headers x; Send_all_headers := Send_all_headers x;
     Headers_whitelist := Headers_whitelist x; Split_cookie := Split_cookie x;
     Real_ip_header := v; transactionsMap := transactionsMap x;
     results := results x; warnings := warnings x |}.

(** [Http.InitDefaults] *)
Definition InitDefaults (http : Http) : Http :=
  set_Send_response true (set_Send_request true http).

(** The loop of [SetFromConfig] over the configured header names. *)
Fixpoint whitelist_loop (hdrs : list string) (whitelist : gmap string bool)
  : gmap string bool :=
  match hdrs with
  | [] => whitelist
  | hdr :: rest => whitelist_loop rest (<[ToLower hdr := true]> whitelist)
  end.

(** [Http.SetFromConfig]; the error it returns is always nil. *)
Definition SetFromConfig (http : Http) (config : config_Config) : Http :=
  let http :=
    if Defined_send_request config
    then set_Send_request (Protocols_http_Send_request config) http else http in
  let http :=
    if Defined_send_response config
    then set_Send_response (Protocols_http_Send_response config) http else http in
  let http :=
    if Http_Send_all_headers config
    then set_Send_all_headers true (set_Send_headers true http)
    else if 0 <? len (Http_Send_headers config)
    then set_Headers_whitelist (whitelist_loop (Http_Send_headers config) ∅)
           (set_Send_headers true http)
    else http in
  let http := set_Split_cookie (Http_Split_cookie config) http in
  set_Real_ip_header (ToLower (Http_Real_ip_header config)) http.

(** [TransactionsHashSize = 2 ^ 16]: in Go [^] is exclusive or.  The
    constant is the size hint of the table. *)
Definition TransactionsHashSize : Z := Z.lxor 2 16.

(** [Http.Init], with the configuration it takes from the globals of
    package [config] as an argument; the error it returns is always nil. *)
Definition Init (http : Http) (test_mode : bool) (config : config_Config)
    (results_chan : option (list MapStr)) : Http :=
  let http := InitDefaults http in
  let http := if negb test_mode then SetFromConfig http config else http in
  let http := set_transactionsMap ∅ http in
  set_results results_chan http.

(** ** Notions used in the statements *)

(** The message is a response that never has a body. *)
Definition bodiless_response (m : Msg.HttpMessage) : bool :=
  negb (Msg.IsRequest m)
  && (((100 <=? Msg.StatusCode m) && (Msg.StatusCode m <? 200))
      || (Msg.StatusCode m =? 204) || (Msg.StatusCode m =? 304)).

(** The value of an ASCII digit, and 0 for any other byte. *)
Definition digit_or_zero (c : ascii) : Z := default 0 (digit_val c).

(** The message after the version step of the first line. *)
Definition with_version (version : bytes) (m : Msg.HttpMessage) : Msg.HttpMessage :=
  match version with
  | c0 :: _ :: c2 :: _ =>
      Msg.set_version_minor (digit_or_zero c2) (Msg.set_version_major (digit_or_zero c0) m)
  | _ => Msg.set_version_minor 0 (Msg.set_version_major 1 m)
  end.

(** The component has a [=] in it. *)
Definition has_equals (c : string) : Prop := "="%char ∈ B c.


(** The stream is in a state that the parser sets, with its offset not
    before the start of the buffer. *)
Definition stream_ok (s : Stream.HttpStream) : Prop :=
  Stream.parseState s <> FLINE /\ 0 <= Stream.parseOffset s.

(** What a turn of the parser's loop keeps: the buffer is not touched; a
    turn that goes round again has moved the offset forward; a turn that
    asks for more input leaves the stream in order. *)
Definition step_ok (s : Stream.HttpStream) (st : step) : Prop :=
  match st with
  | Continue s' _ =>
      Stream.data s' = Stream.data s
      /\ Stream.parseOffset s < Stream.parseOffset s'
      /\ Stream.parseState s' <> FLINE
  | Return s' _ true false => Stream.data s' = Stream.data s /\ stream_ok s'
  | Return _ _ _ _ => True
  end.

(** [http'] has at most one more event on the results channel than [http]. *)
Definition one_more_at_most (http http' : Http) : Prop :=
  exists l, emitted http' = emitted http ++ l /\ (length l <= 1)%nat.

(** The stream with its buffer replaced. *)
Definition with_data (d : bytes) (s : Stream.HttpStream) : Stream.HttpStream :=
  Stream.set_data d s.

(** [messageParser]'s loop with the fuel that [messageParser] gives it. *)
Definition run (http : Http) (s : Stream.HttpStream) (m : Msg.HttpMessage)
  : result (Stream.HttpStream * Msg.HttpMessage * (bool * bool)) :=
  messageParser_loop (S (length (Stream.data s))) http s m.

(** In the chunk-length and final-CRLF states [bodyReceived] is not read
    before it is set again. *)
Definition br_dead (st : State) : bool :=
  match st with
  | BODY_CHUNKED_START | BODY_CHUNKED_WAIT_FINAL_CRLF => true
  | _ => false
  end.

(** Two streams that the parser cannot tell apart: they agree on all but the
    message pointer, which the parser has in hand, and on [bodyReceived]
    where it is still read. *)
Definition stream_sim (s1 s2 : Stream.HttpStream) : Prop :=
  Stream.tcptuple s1 = Stream.tcptuple s2
  /\ Stream.data s1 = Stream.data s2
  /\ Stream.parseOffset s1 = Stream.parseOffset s2
  /\ Stream.parseState s1 = Stream.parseState s2
  /\ (br_dead (Stream.parseState s1) = false ->
      Stream.bodyReceived s1 = Stream.bodyReceived s2).

(** In the chunk-data state the parser may have taken the first [delta]
    bytes of a chunk already: the first stream is the second one after that. *)
Definition chunk_ahead (s1 : Stream.HttpStream) (m1 : Msg.HttpMessage)
    (s2 : Stream.HttpStream) (m2 : Msg.HttpMessage) : Prop :=
  Stream.parseState s1 = BODY_CHUNKED
  /\ Stream.parseState s2 = BODY_CHUNKED
  /\ Stream.tcptuple s1 = Stream.tcptuple s2
  /\ Stream.data s1 = Stream.data s2
  /\ exists delta : Z,
       0 <= delta
       /\ 0 <= Stream.parseOffset s2
       /\ Stream.parseOffset s1 = Stream.parseOffset s2 + delta
       /\ Stream.parseOffset s1 <= len (Stream.data s1)
       /\ delta <= Msg.chunked_length m2 -! Stream.bodyReceived s2
       /\ Stream.bodyReceived s1 = Stream.bodyReceived s2 +! delta
       /\ m1 = Msg.set_chunked_body
                 (Msg.chunked_body m2
                  ++ take (Z.to_nat delta)
                       (drop (Z.to_nat (Stream.parseOffset s2)) (Stream.data s2))) m2.

(** Two waiting parsers with the same message and streams that cannot be
    told apart. *)
Definition same_wait (s1 : Stream.HttpStream) (m1 : Msg.HttpMessage)
    (s2 : Stream.HttpStream) (m2 : Msg.HttpMessage) : Prop :=
  m1 = m2 /\ stream_sim s1 s2.

(** Two waiting parsers that go on alike. *)
Definition wait_sim (s1 : Stream.HttpStream) (m1 : Msg.HttpMessage)
    (s2 : Stream.HttpStream) (m2 : Msg.HttpMessage) : Prop :=
  same_wait s1 m1 s2 m2 \/ chunk_ahead s1 m1 s2 m2.

(** Two outcomes of the parser that [Parse] cannot tell apart: the same
    verdict; for a complete message the same message in the same buffer; for
    a parser that waits, states related by [W]. *)
Definition outcome_rel
    (W : Stream.HttpStream -> Msg.HttpMessage -> Stream.HttpStream -> Msg.HttpMessage -> Prop)
    (r1 r2 : result (Stream.HttpStream * Msg.HttpMessage * (bool * bool))) : Prop :=
  match r1, r2 with
  | Ok (s1, m1, (ok1, c1)), Ok (s2, m2, (ok2, c2)) =>
      ok1 = ok2
      /\ (ok1 = true ->
          c1 = c2
          /\ if c1 then m1 = m2 /\ Stream.tcptuple s1 = Stream.tcptuple s2
                        /\ Stream.data s1 = Stream.data s2
             else W s1 m1 s2 m2)
  | Panic, Panic => True
  | OutOfFuel, OutOfFuel => True
  | _, _ => False
  end.

(** The same for one turn of the loop. *)
Definition step_sim (r1 r2 : result step) : Prop :=
  match r1, r2 with
  | Ok (Continue s1 m1), Ok (Continue s2 m2) => m1 = m2 /\ stream_sim s1 s2
  | Ok (Return s1 m1 ok1 c1), Ok (Return s2 m2 ok2 c2) =>
      outcome_rel same_wait (Ok (s1, m1, (ok1, c1))) (Ok (s2, m2, (ok2, c2)))
  | Panic, Panic => True
  | OutOfFuel, OutOfFuel => True
  | _, _ => False
  end.

(** The segments delivered as one: the payloads in order, under the time
    stamp of the first. *)
Definition joined (pkts : list Packet) : Packet :=
  {| Payload := concat (Payload <$> pkts);
     pkt_Ts := default 0 (pkt_Ts <$> head pkts) |}.

(** What an entry point returns leaves the parser of direction [dir] in the
    middle of a message. *)
Definition waiting (dir : Dir) (r : Http * result (option httpPrivateData)) : bool :=
  match snd r with
  | Ok (Some priv) =>
      match Data priv dir with
      | Some s => match Stream.message s with Some _ => true | None => false end
      | None => false
      end
  | _ => false
  end.

(** Private data of a flow that differ, if at all, in a waiting parser of
    direction [dir], and there by [wait_sim]. *)
Definition priv_sim (dir : Dir) (pX pY : httpPrivateData) : Prop :=
  set_Data dir None pX = set_Data dir None pY
  /\ match Data pX dir, Data pY dir with
     | Some sX, Some sY =>
         match Stream.message sX, Stream.message sY with
         | Some mX, Some mY => wait_sim sX mX sY mY /\ stream_ok sX
         | None, None => sX = sY
         | _, _ => False
         end
     | None, None => True
     | _, _ => False
     end.

(** Two returns of an entry point with the same protocol object and private
    data alike. *)
Definition result_sim (dir : Dir) (rX rY : Http * result (option httpPrivateData)) : Prop :=
  fst rX = fst rY
  /\ match snd rX, snd rY with
     | Ok (Some pX), Ok (Some pY) => priv_sim dir pX pY
     | Ok None, Ok None => True
     | Panic, Panic => True
     | OutOfFuel, OutOfFuel => True
     | _, _ => False
     end.

(** The stream [Parse] makes for the first segment of a direction. *)
Definition new_HttpStream (tcptuple : common_TcpTuple) (pkt : Packet) : Stream.HttpStream :=
  {| Stream.tcptuple := tcptuple; Stream.data := Payload pkt; Stream.parseOffset := 0;
     Stream.parseState := START; Stream.bodyReceived := 0;
     Stream.message := Some (new_HttpMessage (pkt_Ts pkt)) |}.

(** [msg'] is [msg] but for bytes that are stars now. *)
Definition only_stars (msg msg' : bytes) : Prop :=
  length msg' = length msg
  /\ forall j, msg' !! j = msg !! j \/ msg' !! j = Some STAR.

(** Every transaction of the table is filed under the hash of its tuple. *)
Definition table_ok (http : Http) : Prop :=
  forall key trans, transactionsMap http !! key = Some trans ->
                    Hashable (Trans.tuple trans) = key.

(** The pending request of a transaction, if there is one, has more than
    an empty record. *)
Definition has_request (trans : Trans.HttpTransaction) : bool :=
  negb (Z.of_nat (size (default ∅ (Trans.Http trans))) =? 0).

(** The body of the message goes on until the connection is closed: no
    length was given, and the connection is not kept. *)
Definition until_close (m : Msg.HttpMessage) : bool :=
  negb (Msg.hasContentLength m)
  && (String.eqb (Msg.connection m) "close"
      || ((Msg.version_major m =? 1) && (Msg.version_minor m =? 0)
          && negb (String.eqb (Msg.connection m) "keep-alive"))).

(** A body in chunks as the parser expects it: for every chunk a line with
    its size, the CRLF, the bytes of the chunk and a CRLF; then the line of
    the last chunk, of size 0, and two CRLF. *)
Definition encode_chunks (chunks : list (bytes * bytes)) (last : bytes) : bytes :=
  concat ((fun lc => fst lc ++ CRLF ++ snd lc ++ CRLF) <$> chunks) ++ last ++ CRLF ++ CRLF.

(** [line] is a size line for [n]: it has no CR, and [Sscanf] reads [n]
    from it. *)
Definition size_line (line : bytes) (n : Z) : Prop :=
  (CR ∉ line) /\ Sscanf_x (S_ line) = Some n.

(** A visible ASCII character: not a blank, not a control character. *)
Definition visible (c : ascii) : bool := (33 <=? code c) && (code c <=? 126).

(** A word of visible ASCII characters. *)
Definition word (w : bytes) : Prop := w <> [] /\ Forall (fun c => visible c = true) w.

(** ** Worked examples *)

Definition example_http (send_headers split_cookie : bool) : Http :=
  {| Send_request := true; Send_response := true; Send_headers := send_headers;
     Send_all_headers := send_headers; Headers_whitelist := ∅; Split_cookie := split_cookie;
     Real_ip_header := EmptyString; transactionsMap := ∅; results := Some [];
     warnings := [] |}.

Definition example_stream (data : bytes) (state : State) (offset : Z) (m : Msg.HttpMessage)
  : Stream.HttpStream :=
  {| Stream.tcptuple := example_tuple; Stream.data := data; Stream.parseOffset := offset;
     Stream.parseState := state; Stream.bodyReceived := 0; Stream.message := Some m |}.

(** The value of a run that went well, and [d] otherwise. *)
Definition ok_or {A} (d : A) (r : result A) : A :=
  match r with Ok a => a | _ => d end.

(** The unread buffer of direction [dir] in what an entry point returns. *)
Definition buffer_of (r : Http * result (option httpPrivateData)) (dir : Dir) : option bytes :=
  match snd r with
  | Ok (Some priv) => Stream.data <$> Data priv dir
  | _ => None
  end.

(** The request that direction [dir] of the flow has pending, by its target. *)
Definition pending_uri (http : Http) (tuple : common_TcpTuple) : option string :=
  Trans.RequestUri <$> transactionsMap http !! Hashable tuple.

(** The raw request bytes kept for the pending request. *)
Definition pending_raw (http : Http) (tuple : common_TcpTuple) : option string :=
  Trans.Request_raw <$> transactionsMap http !! Hashable tuple.

(** The message that the parser builds from [data], fed as one buffer to a
    fresh stream. *)
Definition parsed_message (http : Http) (data : bytes) : Msg.HttpMessage :=
  match messageParser http (example_stream data START 0 (new_HttpMessage 0)) with
  | Ok (s, _) => default (new_HttpMessage 0) (Stream.message s)
  | _ => new_HttpMessage 0
  end.

(** * Properties *)

(** ** Integers and slices *)

Lemma int_range (z : Z) : MinInt <= int z <= MaxInt.
Proof.
  unfold int, wrap, MinInt, MaxInt.
  pose proof (Z.mod_pos_bound (z + 2 ^ (64 - 1)) (2 ^ 64)). lia.
Qed.

Lemma int_small (z : Z) : MinInt <= z <= MaxInt -> int z = z.
Proof.
  unfold int, wrap, MinInt, MaxInt. intros Hz.
  rewrite Z.mod_small by lia. lia.
Qed.

Lemma int_congr (z : Z) : exists k, int z = z + k * 2 ^ 64.
Proof.
  unfold int, wrap. exists (- ((z + 2 ^ (64 - 1)) / 2 ^ 64)).
  pose proof (Z.div_mod (z + 2 ^ (64 - 1)) (2 ^ 64)). lia.
Qed.

Lemma int_sub_l (a b : Z) : int (int a - b) = int (a - b).
Proof.
  unfold int, wrap. f_equal.
  replace ((a + 2 ^ (64 - 1)) mod 2 ^ 64 - 2 ^ (64 - 1) - b + 2 ^ (64 - 1))
    with ((a + 2 ^ (64 - 1)) mod 2 ^ 64 - b) by lia.
  rewrite Zminus_mod_idemp_l. f_equal. lia.
Qed.

Lemma int_add_l (a b : Z) : int (int a + b) = int (a + b).
Proof.
  unfold int, wrap. f_equal.
  replace ((a + 2 ^ (64 - 1)) mod 2 ^ 64 - 2 ^ (64 - 1) + b + 2 ^ (64 - 1))
    with ((a + 2 ^ (64 - 1)) mod 2 ^ 64 + b) by lia.
  rewrite Zplus_mod_idemp_l. f_equal. lia.
Qed.

Lemma len_nonneg {A} (s : list A) : 0 <= len s.
Proof. unfold len. lia. Qed.

Lemma len_app {A} (s t : list A) : len (s ++ t) = len s + len t.
Proof. unfold len. rewrite length_app. lia. Qed.

Lemma slice_Ok {A} (s : list A) (lo hi : Z) :
  0 <= lo -> lo <= hi -> hi <= len s ->
  slice s lo hi = Ok (take (Z.to_nat (hi - lo)) (drop (Z.to_nat lo) s)).
Proof.
  intros H1 H2 H3. unfold slice.
  replace (0 <=? lo) with true by lia.
  replace (lo <=? hi) with true by lia.
  replace (hi <=? len s) with true by lia.
  reflexivity.
Qed.

Lemma slice_Panic {A} (s : list A) (lo hi : Z) :
  lo < 0 \/ hi < lo \/ len s < hi -> slice s lo hi = Panic.
Proof.
  intros Hb. unfold slice.
  destruct (0 <=? lo) eqn:E1; [|reflexivity].
  destruct (lo <=? hi) eqn:E2; [|reflexivity].
  destruct (hi <=? len s) eqn:E3; [|reflexivity].
  lia.
Qed.

Lemma slice_from_Ok {A} (s : list A) (lo : Z) :
  0 <= lo -> lo <= len s -> slice_from s lo = Ok (drop (Z.to_nat lo) s).
Proof.
  intros H1 H2. unfold slice_from. rewrite slice_Ok by lia.
  f_equal. apply take_ge. rewrite length_drop. unfold len. lia.
Qed.

Lemma len_drop {A} (s : list A) (lo : Z) :
  0 <= lo -> lo <= len s -> len (drop (Z.to_nat lo) s) = len s - lo.
Proof. intros H1 H2. unfold len in *. rewrite length_drop. lia. Qed.

(** Comparisons of integers that evaluate to a known truth value. *)
Ltac cmp :=
  try symmetry;
  match goal with
  | |- _ = true => first [apply Z.leb_le | apply Z.ltb_lt | apply Z.eqb_eq]
  | |- _ = false => first [apply Z.leb_gt | apply Z.ltb_ge | apply Z.eqb_neq]
  end;
  unfold len in *; cbn [length] in *; lia.

(** ** Chunk data *)

Ltac unwrap :=
  rewrite ?int_sub_l, ?int_add_l;
  repeat match goal with
         | |- context [int ?z] =>
             rewrite (int_small z) by (unfold MinInt, MaxInt in *; lia)
         end.

(** C7.  In the chunk-data state, with [want = chunked_length - bodyReceived]
    bytes of the chunk still to come: when the unread buffer holds at least
    [want] but fewer than [want + 2] bytes the parser returns "advance" and
    leaves stream and message as they are; when it holds [want + 2] or more,
    it appends exactly the next [want] bytes to [chunked_body], moves the
    offset past them and the two bytes behind them, adds [chunked_length] to
    [ContentLength] and goes on in the chunk-length state; and it goes on
    that way only in this case. *)
Theorem state_body_chunked_boundary (s : Stream.HttpStream) (m : Msg.HttpMessage) :
  let po := Stream.parseOffset s in
  let want := Msg.chunked_length m - Stream.bodyReceived s in
  let avail := len (Stream.data s) - po in
  0 <= po -> po <= len (Stream.data s) -> len (Stream.data s) <= MaxInt - 2 ->
  0 <= Stream.bodyReceived s -> Stream.bodyReceived s <= Msg.chunked_length m ->
  Msg.chunked_length m <= MaxInt ->
  (want <= avail -> avail < want + 2 ->
   state_body_chunked s m = Ok (Return s m true false))
  /\ (want + 2 <= avail ->
      state_body_chunked s m =
      Ok (Continue
            (Stream.set_parseState BODY_CHUNKED_START
               (Stream.set_parseOffset (po + want + 2) s))
            (Msg.set_ContentLength (Msg.ContentLength m +! Msg.chunked_length m)
               (Msg.set_chunked_body
                  (Msg.chunked_body m
                   ++ take (Z.to_nat want) (drop (Z.to_nat po) (Stream.data s))) m))))
  /\ (forall s' m', state_body_chunked s m = Ok (Continue s' m') -> want + 2 <= avail).
Proof.
  intros po want avail Hpo0 Hpo Hlen Hbr0 Hbr Hcl.
  assert (Hw : Msg.chunked_length m -! Stream.bodyReceived s = want).
  { apply int_small. unfold want, MinInt, MaxInt in *. lia. }
  assert (Hav : len (drop (Z.to_nat po) (Stream.data s)) = avail).
  { unfold avail. apply len_drop; lia. }
  unfold state_body_chunked. fold po. rewrite Hw.
  rewrite slice_from_Ok by lia. cbn [rbind]. rewrite Hav.
  repeat split.
  - intros H1 H2. unwrap.
    replace (want + 2 <=? avail) with false by lia.
    replace (want <=? avail) with true by lia. reflexivity.
  - intros H1. unfold want, avail in *. unwrap.
    replace (Msg.chunked_length m - Stream.bodyReceived s + 2 <=? len (Stream.data s) - po)
      with true by lia.
    rewrite slice_Ok by lia. cbn [rbind].
    replace (po + Msg.chunked_length m - Stream.bodyReceived s - po)
      with (Msg.chunked_length m - Stream.bodyReceived s) by lia.
    replace (po + (Msg.chunked_length m - Stream.bodyReceived s + 2))
      with (po + (Msg.chunked_length m - Stream.bodyReceived s) + 2) by lia.
    reflexivity.
  - intros s' m'. destruct (want + 2 <=? MaxInt) eqn:Ew.
    + unwrap. destruct (want + 2 <=? avail) eqn:E1; [lia|].
      destruct (want <=? avail); discriminate.
    + destruct (int (want + 2) <=? avail) eqn:E1.
      * rewrite slice_Panic; [discriminate|].
        destruct (int_congr (po + Msg.chunked_length m)) as [k1 Hk1].
        destruct (int_congr (po +! Msg.chunked_length m - Stream.bodyReceived s)) as [k2 Hk2].
        pose proof (int_range (po + Msg.chunked_length m)).
        pose proof (int_range (po +! Msg.chunked_length m - Stream.bodyReceived s)).
        unfold want, avail, MinInt, MaxInt in *. lia.
      * destruct (want <=? avail); discriminate.
Qed.

(** ** Responses without a request *)

(** C9.  A response whose flow key has no entry in the transaction table, or
    whose entry has no request record, is dropped with a warning: nothing is
    sent on the results channel and the table stays as it is. *)
Theorem receivedHttpResponse_unpaired (http : Http) (msg : Msg.HttpMessage) :
  transactionsMap http !! Hashable (Msg.TcpTuple msg) = None
  \/ (exists trans, transactionsMap http !! Hashable (Msg.TcpTuple msg) = Some trans
                    /\ Trans.Http trans = None) ->
  exists http' w,
    receivedHttpResponse http msg = (http', Ok tt)
    /\ results http' = results http
    /\ emitted http' = emitted http
    /\ transactionsMap http' = transactionsMap http
    /\ warnings http' = warnings http ++ [w].
Proof.
  unfold receivedHttpResponse.
  intros [Hnone | (trans & Hsome & Hreq)].
  - rewrite Hnone. eexists _, _. split; [reflexivity|]. repeat split.
  - rewrite Hsome, Hreq. eexists _, _. split; [reflexivity|]. repeat split.
Qed.

(** ** End of headers *)

(** C8, amended.  At the end of the headers of a message that is not a
    response with status 1xx, 204 or 304, chunked framing is entered if and
    only if the stored Transfer-Encoding value equals "chunked" byte for
    byte; with any other value the parser decides on Content-Length: the
    message is complete when the length is 0 and the message is a request or
    had a Content-Length header, and the body state is entered otherwise. *)
Theorem state_headers_end_of_headers (http : Http) (s : Stream.HttpStream)
    (m : Msg.HttpMessage) :
  let po := Stream.parseOffset s in
  let s2 := Stream.set_parseOffset (po + 2) s in
  let m2 := Msg.set_bodyOffset (po + 2) m in
  0 <= po -> po + 2 <= len (Stream.data s) -> len (Stream.data s) <= MaxInt ->
  take 2 (drop (Z.to_nat po) (Stream.data s)) = CRLF ->
  bodiless_response m = false ->
  ((exists s' m', state_headers http s m = Ok (Continue s' m')
                  /\ Stream.parseState s' = BODY_CHUNKED_START)
   <-> Msg.TransferEncoding m = "chunked"%string)
  /\ (Msg.TransferEncoding m = "chunked"%string ->
      state_headers http s m = Ok (Continue (Stream.set_parseState BODY_CHUNKED_START s2) m2))
  /\ (Msg.TransferEncoding m <> "chunked"%string ->
      state_headers http s m =
      if (Msg.ContentLength m =? 0) && (Msg.IsRequest m || Msg.hasContentLength m)
      then Ok (Return s2 (Msg.set_end_ (po + 2) m2) true true)
      else Ok (Continue (Stream.set_parseState BODY s2) m2)).
Proof.
  intros po s2 m2 Hpo0 Hpo Hlen Hcrlf Hbody.
  assert (Hstep : state_headers http s m =
    if String.eqb (Msg.TransferEncoding m) "chunked"
    then Ok (Continue (Stream.set_parseState BODY_CHUNKED_START s2) m2)
    else if (Msg.ContentLength m =? 0) && (Msg.IsRequest m || Msg.hasContentLength m)
         then Ok (Return s2 (Msg.set_end_ (po + 2) m2) true true)
         else Ok (Continue (Stream.set_parseState BODY s2) m2)).
  { unfold state_headers. fold po. unwrap.
    replace (2 <=? len (Stream.data s) - po) with true by lia.
    rewrite slice_Ok by lia. cbn [rbind].
    replace (po + 2 - po) with 2 by lia. change (Z.to_nat 2) with 2%nat.
    rewrite Hcrlf. unfold Equal. rewrite bool_decide_eq_true_2 by reflexivity.
    unfold bodiless_response in Hbody.
    destruct m; cbn in *. rewrite Hbody. reflexivity. }
  rewrite Hstep. destruct (String.eqb_spec (Msg.TransferEncoding m) "chunked") as [Heq | Hne].
  - repeat split.
    + intros _. exact Heq.
    + intros _. eexists _, _. split; reflexivity.
    + intros Hne. contradiction.
  - repeat split.
    + intros (s' & m' & Hres & Hst).
      destruct ((Msg.ContentLength m =? 0) && (Msg.IsRequest m || Msg.hasContentLength m));
        [discriminate|].
      injection Hres as <- <-. discriminate Hst.
    + intros Heq. contradiction.
    + intros Heq. contradiction.
Qed.

(** ** The HTTP version *)

Lemma Atoi_string_of_byte (c : ascii) : Atoi (string_of_byte c) = digit_or_zero c.
Proof. destruct c as [[] [] [] [] [] [] [] []]; vm_compute; reflexivity. Qed.

Lemma uint8_digit_or_zero (c : ascii) : uint8 (digit_or_zero c) = digit_or_zero c.
Proof. destruct c as [[] [] [] [] [] [] [] []]; vm_compute; reflexivity. Qed.

Lemma set_version_spec (version : bytes) (m : Msg.HttpMessage) :
  set_version version m = Ok (with_version version m).
Proof.
  unfold set_version, parseVersion, with_version.
  destruct version as [|c0 [|c1 [|c2 r]]]; try (destruct m; reflexivity).
  replace (len (c0 :: c1 :: c2 :: r) <? 3) with false by cmp.
  unfold index.
  replace (2 <? len (c0 :: c1 :: c2 :: r)) with true by cmp.
  replace (0 <? len (c0 :: c1 :: c2 :: r)) with true by cmp.
  change (Z.to_nat 0) with 0%nat. change (Z.to_nat 2) with 2%nat.
  cbn -[Atoi string_of_byte uint8].
  rewrite !Atoi_string_of_byte, !uint8_digit_or_zero. reflexivity.
Qed.

(** ** Searching *)

Lemma find_sub_unfold (s sep : bytes) :
  find_sub s sep =
  if HasPrefix s sep then Some O
  else match s with [] => None | _ :: s' => S <$> find_sub s' sep end.
Proof. destruct s; reflexivity. Qed.

Lemma HasPrefix_app (p r : bytes) : HasPrefix (p ++ r) p = true.
Proof.
  induction p as [|a p IH]; [destruct r; reflexivity|].
  cbn. rewrite Ascii.eqb_refl. exact IH.
Qed.

Lemma HasPrefix_true (s p : bytes) :
  HasPrefix s p = true -> s = p ++ drop (length p) s.
Proof.
  revert s. induction p as [|a p IH]; intros s Hp; [reflexivity|].
  destruct s as [|b s]; [discriminate|].
  cbn in Hp. apply andb_true_iff in Hp as [Hab Hp].
  apply Ascii.eqb_eq in Hab. subst b. cbn. f_equal. apply IH, Hp.
Qed.

Lemma find_sub_Some (s sep : bytes) (n : nat) :
  find_sub s sep = Some n ->
  HasPrefix (drop n s) sep = true /\ (n + length sep <= length s)%nat.
Proof.
  revert n. induction s as [|a s IH]; intros n; rewrite find_sub_unfold.
  - destruct (HasPrefix [] sep) eqn:Hp; [|discriminate].
    intros [= <-]. split; [exact Hp|].
    apply HasPrefix_true in Hp. destruct sep; [cbn; lia|discriminate].
  - destruct (HasPrefix (a :: s) sep) eqn:Hp.
    + intros [= <-]. split; [exact Hp|].
      apply HasPrefix_true in Hp. apply (f_equal length) in Hp.
      rewrite length_app in Hp. cbn in *. lia.
    + destruct (find_sub s sep) as [k|] eqn:Hk; [|discriminate].
      intros [= <-]. destruct (IH k eq_refl) as [H1 H2].
      split; [exact H1|cbn; lia].
Qed.

Lemma find_sub_first (s sep : bytes) (n k : nat) :
  find_sub s sep = Some n -> (k < n)%nat -> HasPrefix (drop k s) sep = false.
Proof.
  revert n k. induction s as [|a s IH]; intros n k; rewrite find_sub_unfold.
  - destruct (HasPrefix [] sep); [intros [= <-]; lia|discriminate].
  - destruct (HasPrefix (a :: s) sep) eqn:Hp; [intros [= <-]; lia|].
    destruct (find_sub s sep) as [j|] eqn:Hj; [|discriminate].
    intros [= <-] Hk. destruct k as [|k]; [exact Hp|].
    cbn. apply (IH j); [reflexivity|lia].
Qed.

Lemma find_sub_intro (s sep : bytes) (n : nat) :
  HasPrefix (drop n s) sep = true -> (n <= length s)%nat ->
  (forall k, (k < n)%nat -> HasPrefix (drop k s) sep = false) ->
  find_sub s sep = Some n.
Proof.
  revert n. induction s as [|a s IH]; intros n Hp Hn Hfirst; rewrite find_sub_unfold.
  - cbn in Hn. assert (n = O) by lia. subst n. rewrite drop_0 in Hp.
    rewrite Hp. reflexivity.
  - destruct n as [|n].
    + rewrite drop_0 in Hp. rewrite Hp. reflexivity.
    + pose proof (Hfirst O ltac:(lia)) as H0. rewrite drop_0 in H0. rewrite H0.
      rewrite (IH n); [reflexivity|exact Hp|cbn in Hn; lia|].
      intros k Hk. apply (Hfirst (S k)). lia.
Qed.

Lemma Index_find (s sep : bytes) (n : nat) :
  find_sub s sep = Some n -> Index s sep = Z.of_nat n.
Proof. unfold Index. intros ->. reflexivity. Qed.

Lemma Index_none (s sep : bytes) : find_sub s sep = None -> Index s sep = -1.
Proof. unfold Index. intros ->. reflexivity. Qed.

Lemma Index_range (s sep : bytes) : -1 <= Index s sep <= len s.
Proof.
  unfold Index. destruct (find_sub s sep) as [n|] eqn:Hn; cbn.
  - apply find_sub_Some in Hn as [_ Hn]. unfold len. lia.
  - pose proof (len_nonneg s). lia.
Qed.

(** C5, amended.  When the first line is understood, the parser goes on in
    the headers state whatever the version bytes are.  The message carries
    version 1.0 by default exactly when fewer than three version bytes are
    there; with three or more, major and minor are the digits at positions 0
    and 2, a byte that is not a digit counting as 0. *)
Theorem state_start_version (s : Stream.HttpStream) (m m1 : Msg.HttpMessage)
    (n : nat) (version : bytes) :
  Stream.parseOffset s = 0 ->
  find_sub (Stream.data s) CRLF = Some n ->
  (8 <= n)%nat ->
  len (Stream.data s) <= MaxInt - 2 ->
  first_line (take n (Stream.data s)) (Msg.set_start 0 m) = Ok (inl (m1, version)) ->
  exists m',
    state_start s m =
      Ok (Continue (Stream.set_parseState HEADERS (Stream.set_parseOffset (Z.of_nat n + 2) s))
                   (Msg.set_headerOffset (Z.of_nat n + 2) m'))
    /\ m' = with_version version m1
    /\ (len version < 3 -> Msg.version_major m' = 1 /\ Msg.version_minor m' = 0)
    /\ (forall c0 c1 c2 r, version = c0 :: c1 :: c2 :: r ->
          Msg.version_major m' = digit_or_zero c0 /\ Msg.version_minor m' = digit_or_zero c2).
Proof.
  intros Hpo Hfind Hn Hlen Hline.
  pose proof (find_sub_Some _ _ _ Hfind) as [_ Hbound]. cbn [length CRLF] in Hbound.
  exists (with_version version m1). split; [|split; [reflexivity|split]].
  - unfold state_start. rewrite Hpo.
    rewrite slice_from_Ok by (pose proof (len_nonneg (Stream.data s)); lia).
    cbn [rbind]. change (Z.to_nat 0) with 0%nat. rewrite drop_0.
    rewrite (Index_find _ _ _ Hfind).
    replace (Z.of_nat n =? -1) with false by cmp.
    rewrite slice_Ok by (unfold len; lia). cbn [rbind].
    rewrite drop_0. replace (Z.to_nat (Z.of_nat n - 0)) with n by lia.
    replace (len (take n (Stream.data s)) <? 8) with false
      by (symmetry; apply Z.ltb_ge; unfold len; rewrite length_take; lia).
    rewrite Hline. cbn [rbind]. rewrite set_version_spec. cbn [rbind].
    unfold len in Hlen. unwrap. reflexivity.
  - intros Hshort.
    destruct version as [|c0 [|c1 [|c2 r]]]; destruct m1; cbn; try (split; reflexivity).
    unfold len in Hshort; cbn [length] in Hshort; lia.
  - intros c0 c1 c2 r ->. destruct m1; cbn. split; reflexivity.
Qed.

(** ** Cookies *)

Lemma split_byte_nonempty (s : bytes) (sep : ascii) (cur : bytes) :
  (1 <= length (split_byte s sep cur))%nat.
Proof.
  revert cur. induction s as [|a s IH]; intros cur; cbn; [lia|].
  destruct (Ascii.eqb a sep); [cbn; lia|apply IH].
Qed.

Lemma split_byte_two (s : bytes) (sep : ascii) (cur : bytes) :
  (2 <= length (split_byte s sep cur))%nat <-> sep ∈ s.
Proof.
  revert cur. induction s as [|a s IH]; intros cur; cbn.
  - split; [lia|]. intros Hin. inversion Hin.
  - destruct (Ascii.eqb_spec a sep) as [-> | Hne].
    + pose proof (split_byte_nonempty s sep []). cbn. split; [|lia].
      intros _. left.
    + rewrite IH. split; [intros Hin; right; exact Hin|].
      intros Hin. inversion Hin; subst; [contradiction|assumption].
Qed.

Lemma index_Ok {A} (l : list A) (i : nat) (a : A) :
  l !! i = Some a -> index l (Z.of_nat i) = Ok a.
Proof.
  intros Hl. unfold index. pose proof (lookup_lt_Some _ _ _ Hl).
  replace (0 <=? Z.of_nat i) with true by cmp.
  replace (Z.of_nat i <? len l) with true by cmp.
  cbn. rewrite Nat2Z.id, Hl. reflexivity.
Qed.

Lemma index_Panic {A} (l : list A) (i : Z) : len l <= i -> index l i = Panic.
Proof.
  intros Hi. unfold index. replace (i <? len l) with false by cmp.
  rewrite andb_false_r. reflexivity.
Qed.

Lemma Split_second (c : string) :
  (has_equals c -> exists name value rest, Split c "=" = name :: value :: rest)
  /\ (~ has_equals c -> exists name, Split c "=" = [name]).
Proof.
  unfold has_equals, Split.
  pose proof (split_byte_two (B c) "=" []) as Htwo.
  pose proof (split_byte_nonempty (B c) "=" []) as Hone.
  destruct (split_byte (B c) "=" []) as [|name [|value rest]]; cbn in *.
  - lia.
  - split; [intros Hin; apply Htwo in Hin; lia|]. intros _. eexists. reflexivity.
  - split; [intros _; eexists _, _, _; reflexivity|].
    intros Hn. exfalso. apply Hn, Htwo. lia.
Qed.

Lemma splitCookies_loop_Ok (cstring : list string) (cookies : gmap string string) :
  Forall has_equals cstring -> exists m, splitCookies_loop cstring cookies = Ok m.
Proof.
  intros Hall. revert cookies.
  induction Hall as [|c cstring Hc _ IH]; intros cookies; cbn.
  - eexists. reflexivity.
  - destruct (proj1 (Split_second c) Hc) as (name & value & rest & ->).
    change 0 with (Z.of_nat 0). rewrite (index_Ok _ 0 name) by reflexivity.
    change 1 with (Z.of_nat 1). rewrite (index_Ok _ 1 value) by reflexivity.
    cbn [rbind]. apply IH.
Qed.

Lemma splitCookies_loop_Panic (cstring : list string) (cookies : gmap string string) :
  ~ Forall has_equals cstring -> splitCookies_loop cstring cookies = Panic.
Proof.
  revert cookies. induction cstring as [|c cstring IH]; intros cookies Hnot.
  - exfalso. apply Hnot. constructor.
  - cbn. destruct (decide (has_equals c)) as [Hc | Hc].
    + destruct (proj1 (Split_second c) Hc) as (name & value & rest & ->).
      change 0 with (Z.of_nat 0). rewrite (index_Ok _ 0 name) by reflexivity.
      change 1 with (Z.of_nat 1). rewrite (index_Ok _ 1 value) by reflexivity.
      cbn [rbind]. apply IH. intros Hall. apply Hnot. constructor; assumption.
    + destruct (proj2 (Split_second c) Hc) as (name & ->).
      change 0 with (Z.of_nat 0). rewrite (index_Ok _ 0 name) by reflexivity.
      cbn [rbind]. rewrite index_Panic by (unfold len; cbn; lia). reflexivity.
Qed.

Lemma slice_no_fuel {A} (s : list A) (lo hi : Z) : slice s lo hi <> OutOfFuel.
Proof. unfold slice. destruct (_ && _); discriminate. Qed.

Lemma cutMessageBody_no_fuel (m : Msg.HttpMessage) : cutMessageBody m <> OutOfFuel.
Proof.
  unfold cutMessageBody, slice_to, slice_from.
  pose proof (slice_no_fuel (Msg.Raw m) 0 (Msg.bodyOffset m)).
  pose proof (slice_no_fuel (Msg.Raw m) (Msg.bodyOffset m) (len (Msg.Raw m))).
  destruct (slice (Msg.Raw m) 0 (Msg.bodyOffset m)); [|discriminate|contradiction].
  cbn [rbind]. destruct (Msg.Headers m !! "content-type"); [|discriminate].
  destruct (_ || _); [|discriminate]. destruct (0 <? _); [discriminate|].
  destruct (slice (Msg.Raw m) (Msg.bodyOffset m) (len (Msg.Raw m)));
    [discriminate|discriminate|contradiction].
Qed.

(** C10.  [splitCookiesHeader] yields a map exactly when every component
    between the semicolons has a [=] in it; otherwise the read of
    [cookie[1]] is out of range and the call panics, as it does for the
    values "a" and "x=1; flag".  With headers and cookie splitting switched
    on, the panic reaches the record builders: a request with such a Cookie
    header, and a response with such a Set-Cookie header that meets its
    pending request. *)
Theorem splitCookiesHeader_partial :
  (forall v, (exists cookies, splitCookiesHeader v = Ok cookies)
             <-> Forall has_equals (Split v ";"))
  /\ (forall v, ~ Forall has_equals (Split v ";") -> splitCookiesHeader v = Panic)
  /\ splitCookiesHeader "a" = Panic
  /\ splitCookiesHeader "x=1; flag" = Panic
  /\ (forall http msg v,
        Send_headers http = true -> Split_cookie http = true ->
        Msg.Headers msg !! "cookie" = Some v ->
        ~ Forall has_equals (Split v ";") ->
        snd (receivedHttpRequest http msg) = Panic)
  /\ (forall http msg v trans record,
        Send_headers http = true -> Split_cookie http = true ->
        transactionsMap http !! Hashable (Msg.TcpTuple msg) = Some trans ->
        Trans.Http trans = Some record ->
        Msg.Headers msg !! "set-cookie" = Some v ->
        ~ Forall has_equals (Split v ";") ->
        snd (receivedHttpResponse http msg) = Panic).
Proof.
  split; [|split; [|split; [|split; [|split]]]].
  - intros v. unfold splitCookiesHeader. split.
    + intros [cookies Hok].
      destruct (decide (Forall has_equals (Split v ";"))) as [Hall | Hnot]; [exact Hall|].
      rewrite (splitCookies_loop_Panic _ _ Hnot) in Hok. discriminate.
    + apply splitCookies_loop_Ok.
  - intros v. apply splitCookies_loop_Panic.
  - reflexivity.
  - reflexivity.
  - intros http msg v Hsend Hsplit Hcookie Hbad.
    unfold receivedHttpRequest.
    pose proof (cutMessageBody_no_fuel msg) as Hcut.
    destruct (transactionsMap http !! Hashable (Msg.TcpTuple msg)) as [trans|];
      [destruct (negb (Z.of_nat (size (default ∅ (Trans.Http trans))) =? 0))|];
      (destruct (Msg.CmdlineTuple msg) as [cmdline|]; [|reflexivity]);
      cbn [Send_headers Send_request Split_cookie Warn put set_transactionsMap];
      rewrite Hsend; unfold record_headers;
      cbn [Send_headers Send_request Split_cookie Warn put set_transactionsMap];
      rewrite Hsplit, Hcookie;
      unfold splitCookiesHeader; rewrite (splitCookies_loop_Panic _ _ Hbad);
      (destruct (Send_request http); [destruct (cutMessageBody msg)|]);
      first [reflexivity | contradiction].
  - intros http msg v trans record Hsend Hsplit Hpending Hrecord Hcookie Hbad.
    unfold receivedHttpResponse. rewrite Hpending, Hrecord, Hsend.
    unfold record_headers. rewrite Hsplit, Hcookie.
    unfold splitCookiesHeader. rewrite (splitCookies_loop_Panic _ _ Hbad). reflexivity.
Qed.

(** ** Scrubbing *)












(** ** One message per call *)

Lemma one_more_refl (http http' : Http) :
  results http' = results http -> one_more_at_most http http'.
Proof.
  intros Hres. exists []. unfold emitted. rewrite Hres, app_nil_r. split; [reflexivity|cbn; lia].
Qed.

Lemma PublishTransaction_one (http : Http) (t : Trans.HttpTransaction) :
  one_more_at_most http (fst (PublishTransaction http t)).
Proof.
  unfold PublishTransaction.
  destruct (results http) as [sent|] eqn:Hres; [|apply one_more_refl; reflexivity].
  destruct (Trans.Http t ≫= _) as [[]|]; try (apply one_more_refl; reflexivity).
  eexists [_]. unfold emitted. cbn. rewrite Hres. split; [reflexivity|cbn; lia].
Qed.

Lemma receivedHttpRequest_results (http : Http) (msg : Msg.HttpMessage) :
  results (fst (receivedHttpRequest http msg)) = results http.
Proof.
  unfold receivedHttpRequest, try.
  repeat case_match; simplify_eq; reflexivity.
Qed.

Lemma receivedHttpResponse_one (http : Http) (msg : Msg.HttpMessage) :
  one_more_at_most http (fst (receivedHttpResponse http msg)).
Proof.
  unfold receivedHttpResponse.
  destruct (transactionsMap http !! _) as [trans|]; [|apply one_more_refl; reflexivity].
  destruct (Trans.Http trans) as [record|]; [|apply one_more_refl; reflexivity].
  destruct (if Send_headers http then _ else _) as [response| |]; cbn [try];
    try (apply one_more_refl; reflexivity).
  destruct (if Send_response http then _ else _) as [trans1| |]; cbn [try];
    try (apply one_more_refl; reflexivity).
  match goal with
  | |- context [PublishTransaction ?h ?t] =>
      pose proof (PublishTransaction_one h t) as Hpub;
      destruct (PublishTransaction h t) as [http1 [[]| |]]
  end; cbn [try fst] in *; destruct Hpub as (l & Hl & Hlen); exists l; split; assumption.
Qed.

Lemma handleHttp_one (http : Http) (m : Msg.HttpMessage) (tcptuple : common_TcpTuple)
    (dir : Dir) (raw_msg : bytes) :
  one_more_at_most http (fst (handleHttp http m tcptuple dir raw_msg)).
Proof.
  unfold handleHttp. destruct (Msg.IsRequest _).
  - apply one_more_refl, receivedHttpRequest_results.
  - apply receivedHttpResponse_one.
Qed.

Lemma parse_stream_one (http : Http) (tcptuple : common_TcpTuple) (dir : Dir)
    (priv : httpPrivateData) (stream : Stream.HttpStream) :
  one_more_at_most http (fst (parse_stream http tcptuple dir priv stream))
  /\ snd (parse_stream http tcptuple dir priv stream) <> Panic.
Proof.
  unfold parse_stream.
  destruct (messageParser http stream) as [[stream1 [ok complete]]| |];
    try (split; [apply one_more_refl; reflexivity|discriminate]).
  destruct ok; cbn [negb]; [|split; [apply one_more_refl; reflexivity|discriminate]].
  destruct complete; [|split; [apply one_more_refl; reflexivity|discriminate]].
  destruct (Stream.message stream1) as [m|];
    [|split; [apply one_more_refl; reflexivity|discriminate]].
  destruct (do msg <- _; censorPasswords m msg) as [[m1 msg1]| |];
    try (split; [apply one_more_refl; reflexivity|discriminate]).
  pose proof (handleHttp_one http m1 tcptuple dir msg1) as Hone.
  destruct (handleHttp http m1 tcptuple dir msg1) as [http1 [u| |]]; cbn [fst] in Hone;
    try (split; [exact Hone|discriminate]).
  destruct (PrepareForNewMessage _); split; first [exact Hone | discriminate].
Qed.

(** Taking apart a successful run, one bind at a time. *)
Ltac unbind :=
  repeat match goal with
         | H : rbind ?r _ = Ok _ |- _ =>
             let E := fresh "E" in
             destruct r eqn:E; cbn [rbind] in H; [|discriminate H|discriminate H]
         | H : (if ?b then _ else _) = Ok _ |- _ =>
             let E := fresh "E" in destruct b eqn:E
         | H : Ok _ = Ok _ |- _ => injection H as H
         | H : (_, _) = (_, _) |- _ => injection H as ? ?
         end.

Lemma store_length {A} (l l' : list A) (i : Z) (a : A) :
  store l i a = Ok l' -> length l' = length l.
Proof.
  unfold store. destruct (_ && _); [|discriminate].
  intros [= <-]. apply length_insert.
Qed.

Lemma star_loop_length (n : nat) (i : Z) (msg msg' : bytes) :
  star_loop n i msg = Ok msg' -> length msg' = length msg.
Proof.
  revert i msg. induction n as [|n IH]; intros i msg Hrun; cbn in Hrun.
  - injection Hrun as <-. reflexivity.
  - unbind. apply IH in Hrun. apply store_length in E. congruence.
Qed.

Lemma censorAuthorization_keeps (m m' : Msg.HttpMessage) (msg msg' : bytes) :
  censorAuthorization m msg = Ok (m', msg') ->
  length msg' = length msg /\ Msg.start m' = Msg.start m /\ Msg.end_ m' = Msg.end_ m
  /\ Msg.bodyOffset m' = Msg.bodyOffset m /\ Msg.IsRequest m' = Msg.IsRequest m.
Proof.
  unfold censorAuthorization, stars. intros Hrun. unbind; subst;
    try (apply star_loop_length in E1); cbn; auto.
Qed.

Lemma censorKeyword_length (m : Msg.HttpMessage) (msg msg' : bytes) (keyword : string) :
  censorKeyword m msg keyword = Ok msg' -> length msg' = length msg.
Proof.
  unfold censorKeyword, stars. intros Hrun. unbind; subst;
    try (apply star_loop_length in Hrun); auto.
Qed.

Lemma censorKeywords_length (m : Msg.HttpMessage) (keywords : list string)
    (msg msg' : bytes) :
  censorKeywords m msg keywords = Ok msg' -> length msg' = length msg.
Proof.
  revert msg. induction keywords as [|keyword rest IH]; intros msg Hrun; cbn in Hrun.
  - injection Hrun as <-. reflexivity.
  - unbind. apply IH in Hrun. apply censorKeyword_length in E. congruence.
Qed.

Lemma censorPasswords_keeps (m m' : Msg.HttpMessage) (msg msg' : bytes) :
  censorPasswords m msg = Ok (m', msg') ->
  length msg' = length msg /\ Msg.start m' = Msg.start m /\ Msg.end_ m' = Msg.end_ m.
Proof.
  unfold censorPasswords, censorBody. intros Hrun.
  destruct (Msg.IsRequest m); [|injection Hrun as <- <-; auto].
  destruct (censorAuthorization m msg) as [[m1 msg1]| |] eqn:Hauth; cbn [rbind] in Hrun;
    try discriminate.
  apply censorAuthorization_keeps in Hauth as (Hl & Hs & He & _).
  unbind; subst; try (apply censorKeywords_length in E); repeat split; congruence.
Qed.

Lemma drop_write_back (data msg msg' : bytes) (lo hi : Z) :
  slice data lo hi = Ok msg -> length msg' = length msg ->
  drop (Z.to_nat hi) (write_back data lo msg') = drop (Z.to_nat hi) data.
Proof.
  unfold slice, write_back. destruct (_ && _) eqn:Hb; [|discriminate].
  intros [= <-] Hl.
  apply andb_true_iff in Hb as [Hb H3]. apply andb_true_iff in Hb as [H1 H2].
  apply Z.leb_le in H1, H2, H3. unfold len in H3.
  rewrite length_take, length_drop in Hl.
  rewrite app_assoc, drop_app_length'.
  - rewrite Hl. f_equal. lia.
  - rewrite length_app, length_take, Hl. lia.
Qed.

(** C1, amended.  A call of [Parse] runs the message parser once and hands
    over at most one message: at most one event is added to the results
    channel, and the call returns without a panic.  When the parser reports
    a complete message, the bytes behind the end of that message stay in the
    stream's buffer, now the whole buffer, with the parse state back at
    START, offset 0, nothing received and no message: they are parsed by the
    next call for that direction, not by this one. *)
Theorem Parse_one_message_per_call (http : Http) (tcptuple : common_TcpTuple) (dir : Dir) :
  (forall pkt private,
     one_more_at_most http (fst (Parse http pkt tcptuple dir private))
     /\ snd (Parse http pkt tcptuple dir private) <> Panic)
  /\ (forall priv stream stream1 priv',
        messageParser http stream = Ok (stream1, (true, true)) ->
        snd (parse_stream http tcptuple dir priv stream) = Ok (Some priv') ->
        exists m rest,
          Stream.message stream1 = Some m
          /\ Data priv' dir = Some rest
          /\ Stream.data rest = drop (Z.to_nat (Msg.end_ m)) (Stream.data stream1)
          /\ Stream.parseState rest = START
          /\ Stream.parseOffset rest = 0
          /\ Stream.bodyReceived rest = 0
          /\ Stream.message rest = None).
Proof.
  split.
  - intros pkt private. unfold Parse.
    destruct (Data _ dir) as [stream|]; [|apply parse_stream_one].
    destruct (TCP_MAX_DATA_IN_STREAM <? _); [|apply parse_stream_one].
    split; [apply one_more_refl; reflexivity|discriminate].
  - intros priv stream stream1 priv' Hparse Hrun.
    unfold parse_stream in Hrun. rewrite Hparse in Hrun. cbn [negb] in Hrun.
    destruct (Stream.message stream1) as [m|] eqn:Hm; [|discriminate].
    destruct (slice (Stream.data stream1) (Msg.start m) (Msg.end_ m)) as [msg| |] eqn:Hslice;
      cbn [rbind] in Hrun; try discriminate.
    destruct (censorPasswords m msg) as [[m1 msg1]| |] eqn:Hcensor; try discriminate.
    apply censorPasswords_keeps in Hcensor as (Hl & Hs & He).
    destruct (handleHttp http m1 tcptuple dir msg1) as [http1 [u| |]]; try discriminate.
    unfold PrepareForNewMessage in Hrun. cbn in Hrun.
    destruct (slice_from _ (Msg.end_ m1)) as [rest| |] eqn:Hrest; cbn in Hrun;
      try discriminate.
    injection Hrun as <-.
    exists m. eexists. split; [reflexivity|].
    split; [destruct dir; reflexivity|]. cbn.
    repeat split.
    unfold slice_from, slice in Hrest. destruct (_ && _) eqn:Hb; [|discriminate].
    injection Hrest as <-.
    apply andb_true_iff in Hb as [Hb H3]. apply andb_true_iff in Hb as [H1 H2].
    apply Z.leb_le in H1, H2, H3.
    rewrite take_ge by (rewrite length_drop; unfold len in *; lia).
    rewrite He, Hs. apply (drop_write_back _ msg); assumption.
Qed.

(** ** Header lines *)

Lemma crlf_at (s : bytes) (n : nat) :
  HasPrefix (drop n s) CRLF = true -> s !! n = Some CR /\ s !! S n = Some LF.
Proof.
  intros Hp. apply HasPrefix_true in Hp. cbn [length CRLF app] in Hp.
  split.
  - replace n with (n + 0)%nat by lia. rewrite <- lookup_drop, Hp. reflexivity.
  - replace (S n) with (n + 1)%nat by lia. rewrite <- lookup_drop, Hp. reflexivity.
Qed.

(** The value of a header always ends at the first CRLF behind the colon,
    whatever byte follows that CRLF: the loop of [parseHeader] never goes
    round a second time. *)
Lemma parseHeader_never_folds (http : Http) (m : Msg.HttpMessage) (data : bytes)
    (i q : nat) :
  find_sub data (B ":") = Some i ->
  find_sub (drop (S i) data) CRLF = Some q ->
  len data <= MaxInt - 2 ->
  parseHeader http m data = store_header http m data (Z.of_nat i) (Z.of_nat (S i + q)).
Proof.
  intros Hi Hq Hlen.
  pose proof (find_sub_Some _ _ _ Hq) as [Hcrlf Hbound].
  rewrite length_drop in Hbound. cbn [length CRLF] in Hbound.
  rewrite drop_drop in Hcrlf. apply crlf_at in Hcrlf as [_ Hlf].
  unfold parseHeader. rewrite (Index_find _ _ _ Hi).
  replace (Z.of_nat i =? -1) with false by cmp.
  cbn [parseHeader_loop]. unfold len in Hlen. unwrap.
  replace (Z.of_nat i + 1 <? len data) with true by cmp. cbn [negb].
  rewrite slice_from_Ok by (unfold len; lia). cbn [rbind].
  replace (Z.to_nat (Z.of_nat i + 1)) with (S i) by lia.
  rewrite (Index_find _ _ _ Hq).
  replace (Z.of_nat q =? -1) with false by cmp. unwrap.
  replace (Z.of_nat i + 1 + Z.of_nat q <? len data) with true by cmp.
  replace (Z.of_nat i + 1 + Z.of_nat q + 1) with (Z.of_nat (S (S i + q))) by lia.
  rewrite (index_Ok _ _ _ Hlf). cbn [rbind].
  change (Ascii.eqb LF SP) with false. cbn [rbind].
  change (Ascii.eqb LF HT) with false. cbn iota.
  f_equal. lia.
Qed.

(** ** Status lines *)

Lemma find_last_sub_bound (s sep : bytes) (k : nat) :
  find_last_sub s sep = Some k -> (k + length sep <= length s)%nat.
Proof.
  revert k. induction s as [|a s IH]; intros k; cbn [find_last_sub].
  - destruct (HasPrefix [] sep) eqn:Hp; [|discriminate]. intros [= <-].
    apply HasPrefix_true in Hp. destruct sep; [cbn; lia|discriminate].
  - destruct (find_last_sub s sep) as [j|].
    + intros [= <-]. specialize (IH j eq_refl). cbn. lia.
    + destruct (HasPrefix (a :: s) sep) eqn:Hp; [|discriminate]. intros [= <-].
      apply HasPrefix_true in Hp. apply (f_equal length) in Hp.
      rewrite length_app in Hp. cbn in *. lia.
Qed.

Lemma find_last_sub_none (s sep : bytes) :
  find_last_sub s sep = None -> find_sub s sep = None.
Proof.
  induction s as [|a s IH]; cbn [find_last_sub]; rewrite find_sub_unfold.
  - destruct (HasPrefix [] sep); [discriminate|reflexivity].
  - destruct (find_last_sub s sep); [discriminate|].
    destruct (HasPrefix (a :: s) sep); [discriminate|].
    intros _. rewrite IH by reflexivity. reflexivity.
Qed.

Lemma find_last_sub_of_find_sub (s sep : bytes) (n : nat) :
  find_sub s sep = Some n ->
  exists k, find_last_sub s sep = Some k /\ (k + length sep <= length s)%nat.
Proof.
  intros Hn. destruct (find_last_sub s sep) as [k|] eqn:Hk.
  - exists k. split; [reflexivity|]. apply find_last_sub_bound, Hk.
  - apply find_last_sub_none in Hk. congruence.
Qed.

(** A first line of nine bytes or more that starts with "HTTP/" is read
    without a panic: the stream is given up when the bytes from position 9
    on have no SP, and otherwise the status code is what [Atoi] makes of the
    bytes before the first SP and the phrase is what follows the last SP. *)
Lemma first_line_response (fline : bytes) (m : Msg.HttpMessage) :
  9 <= len fline -> len fline <= MaxInt -> take 5 fline = B "HTTP/" ->
  let status_line := drop 9 fline in
  (find_sub status_line (B " ") = None ->
   exists m', first_line fline m = Ok (inr m'))
  /\ (forall n, find_sub status_line (B " ") = Some n ->
       exists m' k,
         first_line fline m = Ok (inl (m', take 3 (drop 5 fline)))
         /\ find_last_sub status_line (B " ") = Some k
         /\ Msg.IsRequest m' = false
         /\ Msg.StatusCode m' = uint16 (Atoi (S_ (take n status_line)))
         /\ Msg.StatusPhrase m' = S_ (drop (S k) status_line)).
Proof.
  intros Hlen Hmax Hhead status_line.
  assert (Hstatus : len status_line = len fline - 9) by (apply (len_drop fline 9); lia).
  assert (Hstart : first_line fline m =
    do st <- parseResponseStatus status_line;
    let '(status_code, status_phrase, err) := st in
    let m := Msg.set_StatusPhrase status_phrase
               (Msg.set_StatusCode status_code (Msg.set_IsRequest false m)) in
    if err : bool then Ok (inr m) else Ok (inl (m, take 3 (drop 5 fline)))).
  { unfold first_line. rewrite slice_Ok by lia. cbn [rbind].
    change (Z.to_nat (5 - 0)) with 5%nat. change (Z.to_nat 0) with 0%nat.
    rewrite drop_0, Hhead. unfold Equal. rewrite bool_decide_eq_true_2 by reflexivity.
    rewrite slice_Ok by lia. cbn [rbind].
    rewrite slice_from_Ok by lia. cbn [rbind]. reflexivity. }
  rewrite Hstart. unfold parseResponseStatus. split.
  - intros Hnone. rewrite (Index_none _ _ Hnone). cbn. eexists. reflexivity.
  - intros n Hn. rewrite (Index_find _ _ _ Hn).
    replace (Z.of_nat n =? -1) with false by cmp.
    pose proof (find_sub_Some _ _ _ Hn) as [_ Hb]. cbn [length B list_ascii_of_string] in Hb.
    rewrite slice_Ok by (unfold len; lia). cbn [rbind].
    destruct (find_last_sub_of_find_sub _ _ _ Hn) as (k & Hk & Hkb).
    cbn [length B list_ascii_of_string] in Hkb.
    unfold LastIndex. rewrite Hk. cbn [pos_or_minus1].
    replace (Z.of_nat k =? -1) with false by cmp.
    unfold len in Hstatus, Hmax. unwrap.
    rewrite slice_from_Ok by (unfold len; lia). cbn [rbind].
    eexists _, k. split; [reflexivity|]. cbn.
    rewrite drop_0. replace (Z.to_nat (Z.of_nat n - 0)) with n by lia.
    replace (Z.to_nat (Z.of_nat k + 1)) with (S k) by lia. auto.
Qed.

(** ** Termination *)

Lemma int_add_r (a b : Z) : int (a + int b) = int (a + b).
Proof. rewrite Z.add_comm, int_add_l. f_equal. lia. Qed.

Lemma slice_inv {A} (s x : list A) (lo hi : Z) :
  slice s lo hi = Ok x -> 0 <= lo /\ lo <= hi /\ hi <= len s.
Proof.
  unfold slice. destruct (_ && _) eqn:Hb; [|discriminate]. intros _.
  apply andb_true_iff in Hb as [Hb H3]. apply andb_true_iff in Hb as [H1 H2].
  apply Z.leb_le in H1, H2, H3. auto.
Qed.

Lemma slice_from_inv {A} (s x : list A) (lo : Z) :
  slice_from s lo = Ok x -> 0 <= lo /\ lo <= len s /\ x = drop (Z.to_nat lo) s.
Proof.
  intros Hs. pose proof (slice_inv _ _ _ _ Hs) as (H1 & H2 & _).
  rewrite slice_from_Ok in Hs by lia. injection Hs as <-. auto.
Qed.

Lemma index_no_fuel {A} (s : list A) (i : Z) : index s i <> OutOfFuel.
Proof. unfold index. destruct (_ && _); [destruct (s !! _)|]; discriminate. Qed.

Lemma store_header_result (http : Http) (m : Msg.HttpMessage) (data : bytes) (i p : Z) :
  store_header http m data i p = Panic
  \/ exists m', store_header http m data i p = Ok (m', (true, true, p +! 2)).
Proof.
  unfold store_header, slice_to.
  pose proof (slice_no_fuel data 0 i). pose proof (slice_no_fuel data (i +! 1) p).
  destruct (slice data 0 i); [|left; reflexivity|contradiction]. cbn [rbind].
  destruct (slice data (i +! 1) p); [|left; reflexivity|contradiction]. cbn [rbind].
  right. repeat case_match; eexists; reflexivity.
Qed.

(** What [parseHeader] returns: a panic, "incomplete", or a header stored
    with an offset that moves on inside the buffer. *)
Lemma parseHeader_result (http : Http) (m : Msg.HttpMessage) (data : bytes) :
  len data <= MaxInt - 2 ->
  parseHeader http m data = Panic
  \/ (exists off, parseHeader http m data = Ok (m, (true, false, off)))
  \/ (exists m' off, parseHeader http m data = Ok (m', (true, true, off))
                      /\ 2 <= off /\ off <= len data).
Proof.
  intros Hlen. destruct (find_sub data (B ":")) as [i|] eqn:Hi.
  2:{ right. left. exists 0. unfold parseHeader. rewrite (Index_none _ _ Hi). reflexivity. }
  pose proof (find_sub_Some _ _ _ Hi) as [_ Hib]. cbn [length B list_ascii_of_string] in Hib.
  destruct (find_sub (drop (S i) data) CRLF) as [q|] eqn:Hq.
  - rewrite (parseHeader_never_folds http m data i q Hi Hq Hlen).
    pose proof (find_sub_Some _ _ _ Hq) as [_ Hqb].
    rewrite length_drop in Hqb. cbn [length CRLF] in Hqb.
    destruct (store_header_result http m data (Z.of_nat i) (Z.of_nat (S i + q)))
      as [-> | [m' ->]]; [left; reflexivity|].
    right. right. exists m'. eexists. split; [reflexivity|].
    unfold len in *. unwrap. lia.
  - right. left. unfold parseHeader. rewrite (Index_find _ _ _ Hi).
    replace (Z.of_nat i =? -1) with false by cmp.
    cbn [parseHeader_loop]. unfold len in Hlen. unwrap.
    destruct (Z.of_nat i + 1 <? len data) eqn:Hp; cbn [negb]; [|eexists; reflexivity].
    apply Z.ltb_lt in Hp.
    rewrite slice_from_Ok by (unfold len in *; lia). cbn [rbind].
    replace (Z.to_nat (Z.of_nat i + 1)) with (S i) by lia.
    rewrite (Index_none _ _ Hq). eexists. reflexivity.
Qed.

Lemma store_no_fuel {A} (s : list A) (i : Z) (a : A) : store s i a <> OutOfFuel.
Proof. unfold store. destruct (_ && _); discriminate. Qed.

Create HintDb no_fuel.

(** A run made of binds, tests and case analyses over parts that are never
    cut off is never cut off. *)
Ltac no_fuel :=
  lazymatch goal with
  | |- Ok _ <> OutOfFuel => discriminate
  | |- Panic <> OutOfFuel => discriminate
  | |- slice _ _ _ <> OutOfFuel => apply slice_no_fuel
  | |- slice_from _ _ <> OutOfFuel => apply slice_no_fuel
  | |- slice_to _ _ <> OutOfFuel => apply slice_no_fuel
  | |- index _ _ <> OutOfFuel => apply index_no_fuel
  | |- store _ _ _ <> OutOfFuel => apply store_no_fuel
  | |- rbind ?r _ <> OutOfFuel =>
      let E := fresh "E" in
      assert (E : r <> OutOfFuel) by no_fuel;
      destruct r; cbn [rbind]; [no_fuel | discriminate | congruence]
  | |- (if ?b then _ else _) <> OutOfFuel => destruct b; no_fuel
  | |- (match ?x with _ => _ end) <> OutOfFuel => destruct x; no_fuel
  | |- _ => solve [eauto with no_fuel]
  end.

Lemma parseResponseStatus_no_fuel (s : bytes) : parseResponseStatus s <> OutOfFuel.
Proof. unfold parseResponseStatus. no_fuel. Qed.
#[local] Hint Resolve parseResponseStatus_no_fuel : no_fuel.

Lemma first_line_no_fuel (fline : bytes) (m : Msg.HttpMessage) :
  first_line fline m <> OutOfFuel.
Proof. unfold first_line. no_fuel. Qed.
#[local] Hint Resolve first_line_no_fuel : no_fuel.

Lemma set_version_no_fuel (version : bytes) (m : Msg.HttpMessage) :
  set_version version m <> OutOfFuel.
Proof. rewrite set_version_spec. discriminate. Qed.
#[local] Hint Resolve set_version_no_fuel : no_fuel.

Lemma state_start_no_fuel (s : Stream.HttpStream) (m : Msg.HttpMessage) :
  state_start s m <> OutOfFuel.
Proof. unfold state_start. no_fuel. Qed.

Lemma state_body_no_fuel (s : Stream.HttpStream) (m : Msg.HttpMessage) :
  state_body s m <> OutOfFuel.
Proof. unfold state_body. no_fuel. Qed.

Lemma state_body_chunked_start_no_fuel (s : Stream.HttpStream) (m : Msg.HttpMessage) :
  state_body_chunked_start s m <> OutOfFuel.
Proof. unfold state_body_chunked_start. no_fuel. Qed.

Lemma state_body_chunked_no_fuel (s : Stream.HttpStream) (m : Msg.HttpMessage) :
  state_body_chunked s m <> OutOfFuel.
Proof. unfold state_body_chunked. no_fuel. Qed.

Lemma state_body_chunked_wait_final_crlf_no_fuel (s : Stream.HttpStream)
    (m : Msg.HttpMessage) :
  state_body_chunked_wait_final_crlf s m <> OutOfFuel.
Proof. unfold state_body_chunked_wait_final_crlf. no_fuel. Qed.

Lemma state_headers_no_fuel (http : Http) (s : Stream.HttpStream) (m : Msg.HttpMessage) :
  len (Stream.data s) <= MaxInt - 2 -> state_headers http s m <> OutOfFuel.
Proof.
  intros Hlen. unfold state_headers.
  assert (Hheader : forall rest, slice_from (Stream.data s) (Stream.parseOffset s) = Ok rest ->
                                 parseHeader http m rest <> OutOfFuel).
  { intros rest Hrest. apply slice_from_inv in Hrest as (H0 & H1 & ->).
    destruct (parseHeader_result http m (drop (Z.to_nat (Stream.parseOffset s)) (Stream.data s)))
      as [-> | [[off ->] | (m' & off & -> & _)]]; try discriminate.
    rewrite len_drop by lia. lia. }
  assert (Hrest : forall rest,
            slice_from (Stream.data s) (Stream.parseOffset s) = Ok rest ->
            (do r <- parseHeader http m rest;
             let '(m, (ok, hfcomplete, offset)) := r in
             if negb ok then Ok (Return s m false false)
             else if negb hfcomplete then Ok (Return s m true false)
             else Ok (Continue
                        (Stream.set_parseOffset (Stream.parseOffset s +! offset) s) m))
            <> OutOfFuel).
  { intros rest Hr. specialize (Hheader rest Hr).
    destruct (parseHeader http m rest) as [[m1 [[ok c] off]]| |]; cbn [rbind];
      [|discriminate|congruence].
    destruct ok, c; discriminate. }
  destruct (2 <=? _).
  - destruct (slice _ _ _) as [two| |] eqn:Etwo; cbn [rbind]; [|discriminate|].
    + destruct (Equal two CRLF); [no_fuel|].
      destruct (slice_from _ _) as [rest| |] eqn:Er; cbn [rbind];
        [apply Hrest; reflexivity|discriminate|].
      exfalso. revert Er. apply slice_no_fuel.
    + exfalso. revert Etwo. apply slice_no_fuel.
  - cbn [rbind].
    destruct (slice_from _ _) as [rest| |] eqn:Er; cbn [rbind];
      [apply Hrest; reflexivity|discriminate|].
    exfalso. revert Er. apply slice_no_fuel.
Qed.

Lemma parser_step_no_fuel (http : Http) (s : Stream.HttpStream) (m : Msg.HttpMessage) :
  len (Stream.data s) <= MaxInt - 2 -> parser_step http s m <> OutOfFuel.
Proof.
  intros Hlen. unfold parser_step. destruct (Stream.parseState s).
  - apply state_start_no_fuel.
  - discriminate.
  - apply state_headers_no_fuel, Hlen.
  - apply state_body_no_fuel.
  - apply state_body_chunked_start_no_fuel.
  - apply state_body_chunked_no_fuel.
  - apply state_body_chunked_wait_final_crlf_no_fuel.
Qed.

Lemma state_start_ok (s : Stream.HttpStream) (m : Msg.HttpMessage) (st : step) :
  stream_ok s -> len (Stream.data s) <= MaxInt - 2 ->
  state_start s m = Ok st -> step_ok s st.
Proof.
  intros [Hst Hpo] Hlen Hrun. unfold state_start in Hrun.
  destruct (slice_from _ _) as [rest| |] eqn:E1; cbn [rbind] in Hrun; try discriminate.
  destruct (Index rest CRLF =? -1).
  { injection Hrun as <-. cbn. split; [reflexivity|split; assumption]. }
  destruct (slice _ _ _) as [fline| |] eqn:E2; cbn [rbind] in Hrun; try discriminate.
  destruct (len fline <? 8); [injection Hrun as <-; exact I|].
  destruct (first_line _ _) as [[[m1 v]|m1]| |]; cbn [rbind] in Hrun; try discriminate.
  - destruct (set_version v m1) as [m2| |]; cbn [rbind] in Hrun; try discriminate.
    injection Hrun as <-. cbn. apply slice_inv in E2. unwrap.
    split; [reflexivity|]. split; [lia|discriminate].
  - injection Hrun as <-. exact I.
Qed.

Lemma state_headers_ok (http : Http) (s : Stream.HttpStream) (m : Msg.HttpMessage)
    (st : step) :
  stream_ok s -> len (Stream.data s) <= MaxInt - 2 ->
  state_headers http s m = Ok st -> step_ok s st.
Proof.
  intros [Hst Hpo] Hlen Hrun. unfold state_headers in Hrun.
  destruct (if 2 <=? _ then _ else _) as [eoh| |] eqn:Eeoh; cbn [rbind] in Hrun;
    try discriminate.
  destruct eoh.
  - assert (Hb : Stream.parseOffset s + 2 <= len (Stream.data s)).
    { destruct (2 <=? _); [|discriminate].
      destruct (slice _ _ _) as [two| |] eqn:E; try discriminate.
      apply slice_inv in E as (_ & E1 & E2).
      destruct (Z.le_gt_cases (Stream.parseOffset s) (MaxInt - 2)) as [Hs | Hs]; [|lia].
      revert E2. unwrap. lia. }
    repeat match type of Hrun with
           | (if ?b then _ else _) = _ => destruct b
           end; injection Hrun as <-; cbn; try exact I; unwrap;
      (split; [reflexivity|]; split; [lia|discriminate]).
  - destruct (slice_from _ _) as [rest| |] eqn:E1; cbn [rbind] in Hrun; try discriminate.
    apply slice_from_inv in E1 as (H0 & H1 & ->).
    pose proof (parseHeader_result http m
                  (drop (Z.to_nat (Stream.parseOffset s)) (Stream.data s))) as Hres.
    rewrite len_drop in Hres by lia. specialize (Hres ltac:(lia)).
    destruct (parseHeader _ _ _) as [[m1 [[ok c] off]]| |]; cbn [rbind] in Hrun;
      try discriminate.
    destruct ok; cbn [negb] in Hrun; [|injection Hrun as <-; exact I].
    destruct c; cbn [negb] in Hrun.
    + injection Hrun as <-. cbn.
      destruct Hres as [Hres | [[off' Hres] | (m' & off' & Hres & Hlo & Hhi)]];
        try discriminate.
      injection Hres as _ <-. unwrap. split; [reflexivity|]. split; [lia|exact Hst].
    + injection Hrun as <-. cbn. split; [reflexivity|split; assumption].
Qed.

Lemma state_body_ok (s : Stream.HttpStream) (m : Msg.HttpMessage) (st : step) :
  stream_ok s -> state_body s m = Ok st -> step_ok s st.
Proof.
  intros [Hst Hpo] Hrun. unfold state_body in Hrun.
  pose proof (len_nonneg (Stream.data s)).
  destruct (negb _ && _).
  - injection Hrun as <-. cbn. split; [reflexivity|split; assumption].
  - destruct (slice_from _ _) as [rest| |]; cbn [rbind] in Hrun; try discriminate.
    destruct (_ <=? _); injection Hrun as <-; cbn; [exact I|].
    split; [reflexivity|split; assumption].
Qed.

Lemma state_body_chunked_start_ok (s : Stream.HttpStream) (m : Msg.HttpMessage)
    (st : step) :
  stream_ok s -> len (Stream.data s) <= MaxInt - 2 ->
  state_body_chunked_start s m = Ok st -> step_ok s st.
Proof.
  intros [Hst Hpo] Hlen Hrun. unfold state_body_chunked_start in Hrun.
  destruct (slice_from _ _) as [rest| |] eqn:E1; cbn [rbind] in Hrun; try discriminate.
  apply slice_from_inv in E1 as (H0 & H1 & ->).
  pose proof (Index_range (drop (Z.to_nat (Stream.parseOffset s)) (Stream.data s)) CRLF)
    as Hi.
  rewrite len_drop in Hi by lia.
  destruct (Index _ CRLF =? -1) eqn:Ei.
  { injection Hrun as <-. cbn. split; [reflexivity|split; assumption]. }
  apply Z.eqb_neq in Ei.
  destruct (slice _ _ _) as [line| |]; cbn [rbind] in Hrun; try discriminate.
  destruct (Sscanf_x _) as [n|]; [|injection Hrun as <-; exact I].
  cbn [Msg.chunked_length Msg.set_chunked_length] in Hrun.
  destruct (n =? 0).
  - destruct (slice_from _ _) as [rest| |] eqn:E3; cbn [rbind] in Hrun; try discriminate.
    apply slice_from_inv in E3 as (H3 & _ & _). cbn in H3.
    destruct (len rest <? 2).
    + injection Hrun as <-. cbn. split; [reflexivity|]. split; [discriminate|exact H3].
    + destruct (index _ _); cbn [rbind] in Hrun; try discriminate.
      destruct (if negb _ then _ else _) as [[]| |]; cbn [rbind] in Hrun; try discriminate;
        injection Hrun as <-; exact I.
  - injection Hrun as <-. cbn. unwrap. split; [reflexivity|]. split; [lia|discriminate].
Qed.

Lemma state_body_chunked_ok (s : Stream.HttpStream) (m : Msg.HttpMessage) (st : step) :
  stream_ok s -> len (Stream.data s) <= MaxInt - 2 ->
  state_body_chunked s m = Ok st -> step_ok s st.
Proof.
  intros [Hst Hpo] Hlen Hrun. unfold state_body_chunked in Hrun.
  pose proof (len_nonneg (Stream.data s)).
  destruct (slice_from _ _) as [rest| |] eqn:E1; cbn [rbind] in Hrun; try discriminate.
  destruct (_ <=? len rest).
  - destruct (slice _ _ _) as [chunk| |] eqn:E2; cbn [rbind] in Hrun; try discriminate.
    injection Hrun as <-. cbn. split; [reflexivity|]. split; [|discriminate].
    apply slice_inv in E2 as (_ & Hlo & Hhi).
    rewrite int_sub_l in Hlo, Hhi.
    rewrite int_add_r.
    replace (Stream.parseOffset s + (Msg.chunked_length m -! Stream.bodyReceived s + 2))
      with (Stream.parseOffset s + 2 + (Msg.chunked_length m -! Stream.bodyReceived s))
      by lia.
    rewrite int_add_r.
    replace (Stream.parseOffset s + 2 + (Msg.chunked_length m - Stream.bodyReceived s))
      with (Stream.parseOffset s + Msg.chunked_length m - Stream.bodyReceived s + 2) by lia.
    rewrite <- int_add_l.
    rewrite (int_small (_ + 2)) by (unfold MinInt, MaxInt in *; lia). lia.
  - cbn [rbind] in Hrun.
    destruct (_ <=? len rest).
    + injection Hrun as <-. cbn. split; [reflexivity|split; assumption].
    + injection Hrun as <-. cbn. split; [reflexivity|split; assumption].
Qed.

Lemma state_body_chunked_wait_final_crlf_ok (s : Stream.HttpStream) (m : Msg.HttpMessage)
    (st : step) :
  stream_ok s -> state_body_chunked_wait_final_crlf s m = Ok st -> step_ok s st.
Proof.
  intros [Hst Hpo] Hrun. unfold state_body_chunked_wait_final_crlf in Hrun.
  destruct (slice_from _ _) as [rest| |]; cbn [rbind] in Hrun; try discriminate.
  destruct (len rest <? 2).
  { injection Hrun as <-. cbn. split; [reflexivity|split; assumption]. }
  destruct (index _ _); cbn [rbind] in Hrun; try discriminate.
  destruct (if negb _ then _ else _) as [[]| |]; cbn [rbind] in Hrun; try discriminate;
    injection Hrun as <-; exact I.
Qed.

Lemma parser_step_ok (http : Http) (s : Stream.HttpStream) (m : Msg.HttpMessage) (st : step) :
  stream_ok s -> len (Stream.data s) <= MaxInt - 2 ->
  parser_step http s m = Ok st -> step_ok s st.
Proof.
  intros Hok Hlen. unfold parser_step.
  destruct (Stream.parseState s) eqn:Hstate.
  - apply state_start_ok; assumption.
  - destruct Hok as [Hst _]. congruence.
  - apply state_headers_ok; assumption.
  - apply state_body_ok; assumption.
  - apply state_body_chunked_start_ok; assumption.
  - apply state_body_chunked_ok; assumption.
  - apply state_body_chunked_wait_final_crlf_ok; assumption.
Qed.

(** The loop of [messageParser] ends within the fuel it is given, and a
    stream it leaves waiting for more input is in order. *)
Lemma messageParser_loop_returns (fuel : nat) (http : Http) (s : Stream.HttpStream)
    (m : Msg.HttpMessage) :
  stream_ok s -> len (Stream.data s) <= MaxInt - 2 ->
  len (Stream.data s) - Stream.parseOffset s < Z.of_nat fuel ->
  messageParser_loop fuel http s m <> OutOfFuel
  /\ forall s' m', messageParser_loop fuel http s m = Ok (s', m', (true, false)) ->
                   Stream.data s' = Stream.data s /\ stream_ok s'.
Proof.
  revert s m. induction fuel as [|fuel IH]; intros s m Hok Hlen Hfuel;
    cbn [messageParser_loop];
    destruct (Stream.parseOffset s <? len (Stream.data s)) eqn:Hpo; cbn [negb];
    try (split; [discriminate|]; intros s' m' [= <- <-]; split; [reflexivity|exact Hok]).
  - apply Z.ltb_lt in Hpo. lia.
  - apply Z.ltb_lt in Hpo.
    pose proof (parser_step_no_fuel http s m Hlen) as Hnf.
    pose proof (parser_step_ok http s m) as Hstep.
    destruct (parser_step http s m) as [st| |]; cbn [rbind]; [|split; discriminate|congruence].
    specialize (Hstep st Hok Hlen eq_refl).
    destruct st as [s1 m1 | s1 m1 ok complete]; cbn in Hstep.
    + destruct Hstep as (Hdata & Hmove & Hstate). destruct Hok as [_ Hpo0].
      destruct (IH s1 m1) as [Hnf1 Hwait1].
      * split; [exact Hstate|lia].
      * rewrite Hdata. exact Hlen.
      * rewrite Hdata. lia.
      * split; [exact Hnf1|]. intros s' m' Hrun.
        destruct (Hwait1 s' m' Hrun) as [Hd Hs]. split; [congruence|exact Hs].
    + split; [discriminate|]. intros s' m' [= <- <- -> ->]. exact Hstep.
Qed.

Lemma messageParser_returns (http : Http) (s : Stream.HttpStream) :
  stream_ok s -> len (Stream.data s) <= MaxInt - 2 ->
  messageParser http s <> OutOfFuel
  /\ forall s', messageParser http s = Ok (s', (true, false)) -> stream_ok s'.
Proof.
  intros Hok Hlen. unfold messageParser.
  destruct (Stream.message s) as [m|].
  - destruct (messageParser_loop_returns (S (length (Stream.data s))) http s m Hok Hlen)
      as [Hnf Hwait].
    { destruct Hok as [_ Hpo]. unfold len. lia. }
    destruct (messageParser_loop _ http s m) as [[[s1 m1] [ok c]]| |]; cbn [rbind];
      [|split; discriminate|congruence].
    split; [discriminate|]. intros s' [= <- -> ->].
    destruct (Hwait s1 m1 eq_refl) as [_ [Hst Hpo]]. split; cbn; assumption.
  - destruct (_ <? _); split; try discriminate. intros s' [= <-]. exact Hok.
Qed.

Lemma star_loop_no_fuel (n : nat) (i : Z) (msg : bytes) : star_loop n i msg <> OutOfFuel.
Proof.
  revert i msg. induction n as [|n IH]; intros i msg; cbn [star_loop]; no_fuel.
Qed.
#[local] Hint Resolve star_loop_no_fuel : no_fuel.

Lemma stars_no_fuel (msg : bytes) (a b : Z) : stars msg a b <> OutOfFuel.
Proof. apply star_loop_no_fuel. Qed.
#[local] Hint Resolve stars_no_fuel : no_fuel.

Lemma censorAuthorization_no_fuel (m : Msg.HttpMessage) (msg : bytes) :
  censorAuthorization m msg <> OutOfFuel.
Proof. unfold censorAuthorization. no_fuel. Qed.
#[local] Hint Resolve censorAuthorization_no_fuel : no_fuel.

Lemma censorKeyword_no_fuel (m : Msg.HttpMessage) (msg : bytes) (keyword : string) :
  censorKeyword m msg keyword <> OutOfFuel.
Proof. unfold censorKeyword. no_fuel. Qed.
#[local] Hint Resolve censorKeyword_no_fuel : no_fuel.

Lemma censorKeywords_no_fuel (m : Msg.HttpMessage) (keywords : list string) (msg : bytes) :
  censorKeywords m msg keywords <> OutOfFuel.
Proof.
  revert msg. induction keywords as [|keyword rest IH]; intros msg; cbn [censorKeywords];
    no_fuel.
Qed.
#[local] Hint Resolve censorKeywords_no_fuel : no_fuel.

Lemma censorPasswords_no_fuel (m : Msg.HttpMessage) (msg : bytes) :
  censorPasswords m msg <> OutOfFuel.
Proof. unfold censorPasswords, censorBody. no_fuel. Qed.
#[local] Hint Resolve censorPasswords_no_fuel : no_fuel.

Lemma splitCookies_loop_no_fuel (cstring : list string) (cookies : gmap string string) :
  splitCookies_loop cstring cookies <> OutOfFuel.
Proof.
  revert cookies. induction cstring as [|c rest IH]; intros cookies;
    cbn [splitCookies_loop]; no_fuel.
Qed.
#[local] Hint Resolve splitCookies_loop_no_fuel : no_fuel.

Lemma record_headers_no_fuel (http : Http) (name : string) (headers : gmap string string) :
  record_headers http name headers <> OutOfFuel.
Proof. unfold record_headers, splitCookiesHeader. no_fuel. Qed.
#[local] Hint Resolve record_headers_no_fuel cutMessageBody_no_fuel : no_fuel.

Lemma try_no_fuel {A} (http : Http) (r : result A) (k : A -> Http * result unit) :
  r <> OutOfFuel -> (forall a, snd (k a) <> OutOfFuel) -> snd (try http r k) <> OutOfFuel.
Proof. intros Hr Hk. destruct r; cbn; [apply Hk|discriminate|congruence]. Qed.

Lemma PublishTransaction_no_fuel (http : Http) (t : Trans.HttpTransaction) :
  snd (PublishTransaction http t) <> OutOfFuel.
Proof. unfold PublishTransaction. repeat case_match; cbn; discriminate. Qed.

Lemma receivedHttpRequest_no_fuel (http : Http) (msg : Msg.HttpMessage) :
  snd (receivedHttpRequest http msg) <> OutOfFuel.
Proof.
  unfold receivedHttpRequest.
  destruct (transactionsMap http !! _); (destruct (Msg.CmdlineTuple msg); [|discriminate]);
    (apply try_no_fuel; [no_fuel|]; intros trans1;
     apply try_no_fuel; [no_fuel|]; intros trans2; discriminate).
Qed.

Lemma receivedHttpResponse_no_fuel (http : Http) (msg : Msg.HttpMessage) :
  snd (receivedHttpResponse http msg) <> OutOfFuel.
Proof.
  unfold receivedHttpResponse.
  destruct (transactionsMap http !! _) as [trans|]; [|discriminate].
  destruct (Trans.Http trans); [|discriminate].
  apply try_no_fuel; [no_fuel|]. intros response.
  apply try_no_fuel; [no_fuel|]. intros trans1.
  match goal with
  | |- context [PublishTransaction ?h ?t] =>
      pose proof (PublishTransaction_no_fuel h t) as Hpub;
      destruct (PublishTransaction h t) as [http1 r]
  end.
  cbn [snd] in Hpub. apply try_no_fuel; [exact Hpub|]. intros _. discriminate.
Qed.

Lemma handleHttp_no_fuel (http : Http) (m : Msg.HttpMessage) (tcptuple : common_TcpTuple)
    (dir : Dir) (raw_msg : bytes) :
  snd (handleHttp http m tcptuple dir raw_msg) <> OutOfFuel.
Proof.
  unfold handleHttp. destruct (Msg.IsRequest _).
  - apply receivedHttpRequest_no_fuel.
  - apply receivedHttpResponse_no_fuel.
Qed.

Lemma PrepareForNewMessage_result (stream : Stream.HttpStream) :
  PrepareForNewMessage stream = Panic
  \/ exists s', PrepareForNewMessage stream = Ok s' /\ stream_ok s'.
Proof.
  unfold PrepareForNewMessage. destruct (Stream.message stream) as [m|]; [|left; reflexivity].
  pose proof (slice_no_fuel (Stream.data stream) (Msg.end_ m) (len (Stream.data stream))).
  unfold slice_from. destruct (slice _ _ _); cbn [rbind]; [|left; reflexivity|congruence].
  right. eexists. split; [reflexivity|]. split; cbn; [discriminate|lia].
Qed.

(** [parse_stream] returns, and the stream it leaves for the direction is in
    order. *)
Lemma parse_stream_returns (http : Http) (tcptuple : common_TcpTuple) (dir : Dir)
    (priv : httpPrivateData) (stream : Stream.HttpStream) :
  stream_ok stream -> len (Stream.data stream) <= MaxInt - 2 ->
  exists r, snd (parse_stream http tcptuple dir priv stream) = Ok r
    /\ forall priv' s', r = Some priv' -> Data priv' dir = Some s' -> stream_ok s'.
Proof.
  intros Hok Hlen. unfold parse_stream.
  assert (Hnone : forall h : Http, exists r : option httpPrivateData,
             snd (h, Ok (@None httpPrivateData)) = Ok r
             /\ forall priv' s', r = Some priv' -> Data priv' dir = Some s' -> stream_ok s').
  { intros h. exists None. split; [reflexivity|]. intros priv' s' [=]. }
  assert (Hdrop : forall h : Http, exists r : option httpPrivateData,
             snd (h, Ok (Some (set_Data dir None priv))) = Ok r
             /\ forall priv' s', r = Some priv' -> Data priv' dir = Some s' -> stream_ok s').
  { intros h. eexists. split; [reflexivity|]. intros priv' s' [= <-].
    destruct dir; discriminate. }
  assert (Hkeep : forall (h : Http) s1, stream_ok s1 -> exists r : option httpPrivateData,
             snd (h, Ok (Some (set_Data dir (Some s1) priv))) = Ok r
             /\ forall priv' s', r = Some priv' -> Data priv' dir = Some s' -> stream_ok s').
  { intros h s1 Hs1. eexists. split; [reflexivity|]. intros priv' s' [= <-].
    destruct dir; intros [= <-]; exact Hs1. }
  destruct (messageParser_returns http stream Hok Hlen) as [Hnf Hwait].
  destruct (messageParser http stream) as [[stream1 [ok complete]]| |];
    [|apply Hnone|congruence].
  destruct ok; cbn [negb]; [|apply Hdrop].
  destruct complete; [|apply Hkeep, Hwait; reflexivity].
  destruct (Stream.message stream1) as [m|]; [|apply Hnone].
  pose proof (slice_no_fuel (Stream.data stream1) (Msg.start m) (Msg.end_ m)) as Hsl.
  destruct (slice _ _ _) as [msg| |]; cbn [rbind]; [|apply Hnone|congruence].
  pose proof (censorPasswords_no_fuel m msg) as Hc.
  destruct (censorPasswords m msg) as [[m1 msg1]| |]; [|apply Hnone|congruence].
  pose proof (handleHttp_no_fuel http m1 tcptuple dir msg1) as Hh.
  destruct (handleHttp http m1 tcptuple dir msg1) as [http1 [u| |]]; cbn [snd] in Hh;
    [|apply Hnone|congruence].
  destruct (PrepareForNewMessage_result
              (Stream.set_message (Some m1)
                 (Stream.set_data (write_back (Stream.data stream1) (Msg.start m1) msg1)
                    stream1))) as [-> | (s' & -> & Hs')].
  - apply Hnone.
  - apply Hkeep, Hs'.
Qed.

(** [Parse] returns: under the buffer bound no loop of the parser is cut
    off, and a panic is recovered.  The stream it leaves for the direction
    is in order again, so the same holds for the next call. *)
Lemma Parse_returns (http : Http) (pkt : Packet) (tcptuple : common_TcpTuple) (dir : Dir)
    (private : option httpPrivateData) :
  let priv := default {| Data0 := None; Data1 := None |} private in
  (forall s, Data priv dir = Some s -> stream_ok s) ->
  len (Payload pkt) + from_option (fun s => len (Stream.data s)) 0 (Data priv dir)
    <= MaxInt - 2 ->
  exists r, snd (Parse http pkt tcptuple dir private) = Ok r
    /\ forall priv' s', r = Some priv' -> Data priv' dir = Some s' -> stream_ok s'.
Proof.
  intros priv Hok Hlen. unfold Parse. fold priv.
  destruct (Data priv dir) as [stream|] eqn:Hdata; cbn [from_option] in Hlen.
  - specialize (Hok stream eq_refl).
    cbn [Stream.data Stream.set_data].
    destruct (TCP_MAX_DATA_IN_STREAM <? _).
    + eexists. split; [reflexivity|]. intros priv' s' [= <-]. destruct dir; discriminate.
    + apply parse_stream_returns.
      * destruct (Stream.message _); exact Hok.
      * destruct (Stream.message _); cbn; rewrite len_app; lia.
  - apply parse_stream_returns.
    + split; cbn; [discriminate|lia].
    + cbn. lia.
Qed.

(** ** Segments *)

Lemma messageParser_loop_fuel (fuel fuel' : nat) (http : Http) (s : Stream.HttpStream)
    (m : Msg.HttpMessage) :
  messageParser_loop fuel http s m <> OutOfFuel -> (fuel <= fuel')%nat ->
  messageParser_loop fuel' http s m = messageParser_loop fuel http s m.
Proof.
  revert fuel' s m. induction fuel as [|fuel IH]; intros fuel' s m Hnf Hle.
  - destruct fuel'; [reflexivity|]. cbn [messageParser_loop] in *.
    destruct (negb _); [reflexivity|congruence].
  - destruct fuel' as [|fuel']; [lia|]. cbn [messageParser_loop] in *.
    destruct (negb _); [reflexivity|].
    destruct (parser_step http s m) as [[s1 m1|s1 m1 ok c]| |]; cbn [rbind] in *;
      try reflexivity.
    apply IH; [exact Hnf|lia].
Qed.

Lemma run_exit (http : Http) (s : Stream.HttpStream) (m : Msg.HttpMessage) :
  len (Stream.data s) <= Stream.parseOffset s -> run http s m = Ok (s, m, (true, false)).
Proof.
  intros Hpo. unfold run. cbn [messageParser_loop].
  replace (Stream.parseOffset s <? len (Stream.data s)) with false by cmp. reflexivity.
Qed.

Lemma run_unfold (http : Http) (s : Stream.HttpStream) (m : Msg.HttpMessage) :
  stream_ok s -> len (Stream.data s) <= MaxInt - 2 ->
  Stream.parseOffset s < len (Stream.data s) ->
  run http s m =
  do st <- parser_step http s m;
  match st with
  | Continue s' m' => run http s' m'
  | Return s' m' ok complete => Ok (s', m', (ok, complete))
  end.
Proof.
  intros Hok Hlen Hpo. unfold run at 1. cbn [messageParser_loop].
  replace (Stream.parseOffset s <? len (Stream.data s)) with true by cmp. cbn [negb].
  pose proof (parser_step_ok http s m) as Hstep.
  destruct (parser_step http s m) as [[s1 m1|s1 m1 ok c]| |]; cbn [rbind]; try reflexivity.
  destruct (Hstep _ Hok Hlen eq_refl) as (Hdata & Hmove & Hstate).
  unfold run. rewrite Hdata. symmetry. apply messageParser_loop_fuel; [|lia].
  apply messageParser_loop_returns.
  - split; [exact Hstate|]. destruct Hok. lia.
  - rewrite Hdata. exact Hlen.
  - rewrite Hdata. destruct Hok. unfold len in *. lia.
Qed.

Lemma stream_sim_refl (s : Stream.HttpStream) : stream_sim s s.
Proof. unfold stream_sim. auto. Qed.

Lemma same_wait_refl s m : same_wait s m s m.
Proof. split; [reflexivity|apply stream_sim_refl]. Qed.

Lemma outcome_rel_refl W r : (forall s m, W s m s m) -> outcome_rel W r r.
Proof.
  intros HW. destruct r as [[[s m] [ok c]]| |]; cbn; auto.
  split; [reflexivity|]. intros _. split; [reflexivity|].
  destruct c; [auto|apply HW].
Qed.

Lemma outcome_rel_weaken (W W' : _ -> _ -> _ -> _ -> Prop) r1 r2 :
  (forall s1 m1 s2 m2, W s1 m1 s2 m2 -> W' s1 m1 s2 m2) ->
  outcome_rel W r1 r2 -> outcome_rel W' r1 r2.
Proof.
  intros HW. destruct r1 as [[[s1 m1] [ok1 c1]]| |], r2 as [[[s2 m2] [ok2 c2]]| |];
    cbn; try tauto.
  intros [-> Hr]. split; [reflexivity|]. intros Hok. destruct (Hr Hok) as [-> H'].
  split; [reflexivity|]. destruct c2; [exact H'|apply HW, H'].
Qed.

Lemma outcome_rel_trans W r1 r2 r3 :
  (forall s1 m1 s2 m2 s3 m3, W s1 m1 s2 m2 -> W s2 m2 s3 m3 -> W s1 m1 s3 m3) ->
  outcome_rel W r1 r2 -> outcome_rel W r2 r3 -> outcome_rel W r1 r3.
Proof.
  intros HW.
  destruct r1 as [[[s1 m1] [ok1 c1]]| |], r2 as [[[s2 m2] [ok2 c2]]| |],
           r3 as [[[s3 m3] [ok3 c3]]| |]; cbn; try tauto.
  intros [-> H12] [-> H23]. split; [reflexivity|]. intros Hok.
  destruct (H12 Hok) as (-> & H12'), (H23 Hok) as (-> & H23').
  split; [reflexivity|].
  destruct c3; [|eapply HW; eassumption].
  destruct H12' as (-> & -> & ->), H23' as (-> & -> & ->). auto.
Qed.

Lemma outcome_rel_Panic W r1 r2 : outcome_rel W r1 r2 -> r2 <> Panic -> r1 <> Panic.
Proof. destruct r1 as [[[? ?] [? ?]]| |], r2 as [[[? ?] [? ?]]| |]; cbn; congruence. Qed.

Lemma stream_sim_trans (a b c : Stream.HttpStream) :
  stream_sim a b -> stream_sim b c -> stream_sim a c.
Proof.
  unfold stream_sim. intros (A1 & A2 & A3 & A4 & A5) (B1 & B2 & B3 & B4 & B5).
  repeat split; try congruence. intros Hd. rewrite A5 by exact Hd. apply B5. congruence.
Qed.


Ltac stream_cbn :=
  cbn [Stream.tcptuple Stream.data Stream.parseOffset Stream.parseState Stream.bodyReceived
       Stream.message Stream.set_data Stream.set_parseOffset Stream.set_parseState
       Stream.set_bodyReceived Stream.set_message with_data rbind br_dead].

Ltac stream_cbn_all :=
  cbv zeta in *;
  cbn [Stream.tcptuple Stream.data Stream.parseOffset Stream.parseState Stream.bodyReceived
       Stream.message Stream.set_data Stream.set_parseOffset Stream.set_parseState
       Stream.set_bodyReceived Stream.set_message with_data rbind br_dead] in *.

Ltac step_cases :=
  repeat (stream_cbn; cbv zeta;
          match goal with
          | |- step_sim (rbind ?r _) _ => destruct r
          | |- step_sim (if ?b then _ else _) _ => destruct b
          | |- step_sim (match ?x with _ => _ end) _ => destruct x
          end);
  stream_cbn; cbn [step_sim outcome_rel]; unfold same_wait, stream_sim; stream_cbn;
  try solve [intuition (auto; congruence)].

Lemma parser_step_sim (http : Http) (sA sB : Stream.HttpStream) (m : Msg.HttpMessage) :
  stream_sim sA sB -> step_sim (parser_step http sA m) (parser_step http sB m).
Proof.
  destruct sA as [tA dA pA stA bA mA], sB as [tB dB pB stB bB mB].
  unfold stream_sim. stream_cbn. intros (-> & -> & -> & -> & Hbr).
  unfold parser_step. stream_cbn. destruct stB; cbn [br_dead] in Hbr;
    try (specialize (Hbr eq_refl); subst bB).
  - unfold state_start. step_cases.
  - step_cases.
  - unfold state_headers. step_cases.
  - unfold state_body. step_cases.
  - unfold state_body_chunked_start. step_cases.
  - unfold state_body_chunked. step_cases.
  - unfold state_body_chunked_wait_final_crlf. step_cases.
Qed.

Lemma stream_sim_ok (sA sB : Stream.HttpStream) :
  stream_sim sA sB -> stream_ok sA -> stream_ok sB.
Proof.
  unfold stream_sim, stream_ok. intros (_ & _ & Hpo & Hst & _) [H1 H2].
  rewrite <- Hpo, <- Hst. auto.
Qed.

(** The parser gives the same outcome on streams it cannot tell apart. *)
Lemma run_sim (http : Http) (sA sB : Stream.HttpStream) (m : Msg.HttpMessage) :
  stream_sim sA sB -> stream_ok sA -> len (Stream.data sA) <= MaxInt - 2 ->
  outcome_rel same_wait (run http sA m) (run http sB m).
Proof.
  remember (Z.to_nat (len (Stream.data sA) - Stream.parseOffset sA)) as n eqn:Hn.
  revert sA sB m Hn. induction n as [n IH] using lt_wf_ind.
  intros sA sB m Hn Hsim Hok Hlen.
  pose proof (stream_sim_ok _ _ Hsim Hok) as HokB.
  pose proof Hsim as (_ & Hdata & Hpo & _).
  destruct (Z_lt_le_dec (Stream.parseOffset sA) (len (Stream.data sA))) as [Hlt|Hge].
  - rewrite (run_unfold http sA m Hok Hlen Hlt).
    rewrite (run_unfold http sB m HokB) by (rewrite <- ?Hdata, <- ?Hpo; assumption).
    pose proof (parser_step_sim http sA sB m Hsim) as Hstep.
    pose proof (parser_step_ok http sA m) as HstepA.
    destruct (parser_step http sA m) as [[sA' mA'|sA' mA' okA cA]| |],
             (parser_step http sB m) as [[sB' mB'|sB' mB' okB cB]| |];
      cbn [step_sim] in Hstep; try contradiction; cbn [rbind]; try exact Hstep.
    destruct Hstep as [-> Hsim'].
    destruct (HstepA _ Hok Hlen eq_refl) as (Hd & Hmove & Hst).
    eapply (IH _ _ sA' sB' mB' eq_refl Hsim').
    + split; [exact Hst|]. destruct Hok. lia.
    + rewrite Hd. exact Hlen.
  - rewrite (run_exit http sA m Hge).
    rewrite (run_exit http sB m) by (rewrite <- Hdata, <- Hpo; exact Hge).
    cbn. split; [reflexivity|]. intros _. split; [reflexivity|]. split; auto.
  Unshelve. rewrite Hd. subst n. destruct Hok. lia.
Qed.


(** *** More bytes behind the buffer *)

Lemma HasPrefix_app_l (x y p : bytes) :
  HasPrefix x p = true -> HasPrefix (x ++ y) p = true.
Proof.
  revert x. induction p as [|b p IH]; intros x Hx.
  - destruct (x ++ y); reflexivity.
  - destruct x as [|a x]; [discriminate|]. cbn in *.
    apply andb_true_iff in Hx as [-> Hx]. cbn. apply IH, Hx.
Qed.

Lemma HasPrefix_app_false (x y p : bytes) :
  HasPrefix x p = false -> (length p <= length x)%nat -> HasPrefix (x ++ y) p = false.
Proof.
  revert x. induction p as [|b p IH]; intros x Hx Hl.
  - destruct x; discriminate.
  - destruct x as [|a x]; [cbn in Hl; lia|]. cbn in *.
    destruct (Ascii.eqb a b); [|reflexivity]. cbn in *. apply IH; [exact Hx|lia].
Qed.

Lemma find_sub_app (a b sep : bytes) (n : nat) :
  find_sub a sep = Some n -> find_sub (a ++ b) sep = Some n.
Proof.
  intros Hn. pose proof (find_sub_Some _ _ _ Hn) as [Hp Hb].
  apply find_sub_intro.
  - rewrite drop_app_le by lia. apply HasPrefix_app_l, Hp.
  - rewrite length_app. lia.
  - intros k Hk. rewrite drop_app_le by lia. apply HasPrefix_app_false.
    + exact (find_sub_first _ _ _ _ Hn Hk).
    + rewrite length_drop. lia.
Qed.

Lemma slice_app {A} (d e x : list A) (lo hi : Z) :
  slice d lo hi = Ok x -> slice (d ++ e) lo hi = Ok x.
Proof.
  intros Hs. pose proof (slice_inv _ _ _ _ Hs) as (H1 & H2 & H3).
  rewrite slice_Ok in Hs by assumption.
  rewrite slice_Ok by (rewrite ?len_app; pose proof (len_nonneg e); lia).
  rewrite <- Hs. f_equal. unfold len in *.
  rewrite drop_app_le by lia. apply take_app_le. rewrite length_drop. lia.
Qed.

Lemma index_app {A} (d e : list A) (i : Z) (a : A) :
  index d i = Ok a -> index (d ++ e) i = Ok a.
Proof.
  unfold index. destruct (_ && _) eqn:Hb; [|discriminate].
  apply andb_true_iff in Hb as [H1 H2]. apply Z.leb_le in H1. apply Z.ltb_lt in H2.
  intros Ha. replace ((0 <=? i) && (i <? len (d ++ e))) with true.
  - rewrite lookup_app_l by (unfold len in *; lia). exact Ha.
  - symmetry. apply andb_true_iff. split; [apply Z.leb_le; lia|].
    apply Z.ltb_lt. rewrite len_app. pose proof (len_nonneg e). lia.
Qed.

Lemma store_header_app (http : Http) (m : Msg.HttpMessage) (d e : bytes) (i p : Z) r :
  store_header http m d i p = Ok r -> store_header http m (d ++ e) i p = Ok r.
Proof.
  unfold store_header, slice_to. intros Hr.
  destruct (slice d 0 i) as [name| |] eqn:E1; try discriminate.
  rewrite (slice_app _ e _ _ _ E1).
  destruct (slice d (i +! 1) p) as [val| |] eqn:E2; try discriminate.
  rewrite (slice_app _ e _ _ _ E2). exact Hr.
Qed.

Lemma parseHeader_app (http : Http) (m m' : Msg.HttpMessage) (d e : bytes) (off : Z) :
  len (d ++ e) <= MaxInt - 2 ->
  parseHeader http m d = Ok (m', (true, true, off)) ->
  parseHeader http m (d ++ e) = Ok (m', (true, true, off)).
Proof.
  intros Hlen Hd. rewrite len_app in Hlen. pose proof (len_nonneg e).
  destruct (find_sub d (B ":")) as [i|] eqn:Hi.
  2:{ unfold parseHeader in Hd. rewrite (Index_none _ _ Hi) in Hd. discriminate. }
  pose proof (find_sub_Some _ _ _ Hi) as [_ Hib]. cbn [length B list_ascii_of_string] in Hib.
  destruct (find_sub (drop (S i) d) CRLF) as [q|] eqn:Hq.
  - rewrite (parseHeader_never_folds http m d i q Hi Hq) in Hd by lia.
    rewrite (parseHeader_never_folds http m (d ++ e) i q).
    + apply store_header_app, Hd.
    + apply find_sub_app, Hi.
    + rewrite drop_app_le by lia. apply find_sub_app, Hq.
    + rewrite len_app. lia.
  - exfalso. unfold parseHeader in Hd. rewrite (Index_find _ _ _ Hi) in Hd.
    replace (Z.of_nat i =? -1) with false in Hd by cmp.
    cbn [parseHeader_loop] in Hd. unfold len in Hlen.
    rewrite (int_small (Z.of_nat i + 1)) in Hd by (unfold MinInt, MaxInt in *; lia).
    destruct (Z.of_nat i + 1 <? len d) eqn:Hp; cbn [negb] in Hd; [|discriminate].
    apply Z.ltb_lt in Hp.
    rewrite slice_from_Ok in Hd by (unfold len in *; lia). cbn [rbind] in Hd.
    replace (Z.to_nat (Z.of_nat i + 1)) with (S i) in Hd by lia.
    rewrite (Index_none _ _ Hq) in Hd. discriminate.
Qed.

Ltac all_return H :=
  repeat match type of H with
         | rbind ?r _ = _ => destruct r; cbn [rbind] in H
         | (if ?b then _ else _) = _ => destruct b
         | match ?x with _ => _ end = _ => destruct x
         end;
  discriminate H.

(** A turn of the loop that goes round again does not look behind the
    bytes it consumes: with more bytes behind the buffer it is the same. *)
Lemma parser_step_more (http : Http) (s s' : Stream.HttpStream) (m m' : Msg.HttpMessage)
    (e : bytes) :
  stream_ok s -> len (Stream.data s ++ e) <= MaxInt - 2 ->
  Stream.parseOffset s < len (Stream.data s) ->
  parser_step http s m = Ok (Continue s' m') ->
  parser_step http (with_data (Stream.data s ++ e) s) m
  = Ok (Continue (with_data (Stream.data s ++ e) s') m').
Proof.
  intros [Hst Hpo] Hlen Hlt Hrun.
  pose proof (len_nonneg e) as He. pose proof (len_app (Stream.data s) e) as Happ.
  assert (Hdrop : (Z.to_nat (Stream.parseOffset s) <= length (Stream.data s))%nat)
    by (unfold len in *; lia).
  unfold parser_step in *. stream_cbn.
  destruct (Stream.parseState s) eqn:Est; [| congruence | | | | |].
  - (* START *)
    unfold state_start in *. stream_cbn_all.
    rewrite slice_from_Ok in Hrun by lia. rewrite slice_from_Ok by (rewrite ?len_app; lia).
    cbn [rbind] in *. rewrite drop_app_le by exact Hdrop.
    destruct (find_sub (drop (Z.to_nat (Stream.parseOffset s)) (Stream.data s)) CRLF)
      as [i|] eqn:Ei.
    2:{ rewrite (Index_none _ _ Ei) in Hrun. discriminate. }
    rewrite (Index_find _ _ _ (find_sub_app _ e _ _ Ei)).
    rewrite (Index_find _ _ _ Ei) in Hrun.
    destruct (Z.of_nat i =? -1); [discriminate|].
    destruct (slice (Stream.data s) _ _) as [fl| |] eqn:Efl; try discriminate.
    rewrite (slice_app _ e _ _ _ Efl). cbn [rbind] in *.
    destruct (len fl <? 8); [discriminate|].
    destruct (first_line fl _) as [[[m1 v]|m1]| |]; cbn [rbind] in *; try discriminate.
    destruct (set_version v m1); cbn [rbind] in *; try discriminate.
    injection Hrun as <- <-. reflexivity.
  - (* HEADERS *)
    unfold state_headers in *. stream_cbn_all.
    rewrite (int_small (len (Stream.data s) - _)) in Hrun
      by (unfold MinInt, MaxInt in *; lia).
    rewrite (int_small (len (Stream.data s ++ e) - _))
      by (unfold MinInt, MaxInt in *; lia).
    destruct (2 <=? len (Stream.data s) - Stream.parseOffset s) eqn:E2.
    + replace (2 <=? len (Stream.data s ++ e) - Stream.parseOffset s) with true by cmp.
      destruct (slice (Stream.data s) _ _) as [two| |] eqn:Etwo; try discriminate.
      rewrite (slice_app _ e _ _ _ Etwo). cbn [rbind] in *.
      destruct (Equal two CRLF).
      * repeat match type of Hrun with
               | (if ?b then _ else _) = _ => destruct b
               end; try discriminate; injection Hrun as <- <-; reflexivity.
      * rewrite slice_from_Ok in Hrun by lia. rewrite slice_from_Ok by (rewrite ?len_app; lia).
        cbn [rbind] in *. rewrite drop_app_le by exact Hdrop.
        destruct (parseHeader http m (drop _ (Stream.data s)))
          as [[m1 [[ok c] off]]| |] eqn:Eh; cbn [rbind] in Hrun; try discriminate.
        destruct ok; [|discriminate]. destruct c; [|discriminate]. cbn [negb] in Hrun.
        rewrite (parseHeader_app http m m1 _ e off); [|  | exact Eh].
        -- cbn [rbind negb]. injection Hrun as <- <-. reflexivity.
        -- rewrite len_app, len_drop by lia. lia.
    + exfalso. cbn [rbind] in Hrun. apply Z.leb_gt in E2.
      rewrite slice_from_Ok in Hrun by lia. cbn [rbind] in Hrun.
      pose proof (parseHeader_result http m
                    (drop (Z.to_nat (Stream.parseOffset s)) (Stream.data s))) as Hres.
      rewrite len_drop in Hres by lia. specialize (Hres ltac:(lia)).
      destruct Hres as [Hres | [[off' Hres] | (m1 & off' & Hres & Hlo & Hhi)]];
        [rewrite Hres in Hrun; discriminate | rewrite Hres in Hrun; discriminate | lia].
  - (* BODY *)
    unfold state_body in Hrun. cbv zeta in Hrun. all_return Hrun.
  - (* BODY_CHUNKED_START *)
    unfold state_body_chunked_start in *. stream_cbn_all.
    rewrite slice_from_Ok in Hrun by lia. rewrite slice_from_Ok by (rewrite ?len_app; lia).
    cbn [rbind] in *. rewrite drop_app_le by exact Hdrop.
    destruct (find_sub (drop (Z.to_nat (Stream.parseOffset s)) (Stream.data s)) CRLF)
      as [i|] eqn:Ei.
    2:{ rewrite (Index_none _ _ Ei) in Hrun. discriminate. }
    rewrite (Index_find _ _ _ (find_sub_app _ e _ _ Ei)).
    rewrite (Index_find _ _ _ Ei) in Hrun.
    destruct (Z.of_nat i =? -1); [discriminate|].
    destruct (slice (Stream.data s) _ _) as [line| |] eqn:Eline; try discriminate.
    rewrite (slice_app _ e _ _ _ Eline). cbn [rbind] in *.
    destruct (Sscanf_x (S_ line)) as [n|]; [|discriminate].
    destruct (Msg.chunked_length (Msg.set_chunked_length n m) =? 0).
    + all_return Hrun.
    + injection Hrun as <- <-. reflexivity.
  - (* BODY_CHUNKED *)
    unfold state_body_chunked in *. stream_cbn_all.
    rewrite !slice_from_Ok in Hrun by lia. rewrite !slice_from_Ok by (rewrite ?len_app; lia).
    cbn [rbind] in *. rewrite drop_app_le by exact Hdrop.
    destruct (_ <=? len (drop _ (Stream.data s))) eqn:Ew in Hrun.
    + apply Z.leb_le in Ew.
      match goal with
      | |- (if ?b then _ else _) = _ => replace b with true
      end.
      2:{ symmetry. apply Z.leb_le. rewrite len_app. lia. }
      destruct (slice (Stream.data s) _ _) as [chunk| |] eqn:Ec; try discriminate.
      rewrite (slice_app _ e _ _ _ Ec). cbn [rbind] in *.
      injection Hrun as <- <-. reflexivity.
    + all_return Hrun.
  - (* BODY_CHUNKED_WAIT_FINAL_CRLF *)
    unfold state_body_chunked_wait_final_crlf in Hrun. all_return Hrun.
Qed.


(** *** Arithmetic of [int] *)

Ltac int_facts :=
  repeat match goal with
         | |- context [int ?z] =>
             let k := fresh "k" in
             let Hk := fresh "Hk" in
             let Hr := fresh "Hr" in
             pose proof (int_range z) as Hr; destruct (int_congr z) as [k Hk];
             rewrite Hk in *; clear Hk
         | H : context [int ?z] |- _ =>
             let k := fresh "k" in
             let Hk := fresh "Hk" in
             let Hr := fresh "Hr" in
             pose proof (int_range z) as Hr; destruct (int_congr z) as [k Hk];
             rewrite Hk in *; clear Hk
         end.

Ltac int_lia := int_facts; unfold MinInt, MaxInt, len in *; lia.

Ltac msg_cbn :=
  cbn [Msg.chunked_length Msg.chunked_body Msg.ContentLength Msg.set_chunked_body
       Msg.set_ContentLength Msg.set_chunked_length Msg.hasContentLength Msg.connection
       Msg.version_major Msg.version_minor Msg.set_end_ Msg.set_start] in *.

(** *** A chunk taken in two parts *)

Lemma set_chunked_body_twice (x y : bytes) (m : Msg.HttpMessage) :
  Msg.set_chunked_body x (Msg.set_chunked_body y m) = Msg.set_chunked_body x m.
Proof. reflexivity. Qed.

Lemma take_drop_two {A} (l : list A) (p a b : Z) :
  0 <= p -> 0 <= a -> 0 <= b ->
  take (Z.to_nat a) (drop (Z.to_nat p) l)
  ++ take (Z.to_nat b) (drop (Z.to_nat (p + a)) l)
  = take (Z.to_nat (a + b)) (drop (Z.to_nat p) l).
Proof.
  intros Hp Ha Hb.
  replace (Z.to_nat (p + a)) with (Z.to_nat p + Z.to_nat a)%nat by lia.
  rewrite <- drop_drop, take_take_drop. f_equal. lia.
Qed.

Lemma take_drop_rest {A} (l : list A) (p a : Z) :
  0 <= p -> 0 <= a ->
  take (Z.to_nat a) (drop (Z.to_nat p) l) ++ drop (Z.to_nat (p + a)) l
  = drop (Z.to_nat p) l.
Proof.
  intros Hp Ha.
  replace (Z.to_nat (p + a)) with (Z.to_nat p + Z.to_nat a)%nat by lia.
  rewrite <- drop_drop. apply take_drop.
Qed.

Lemma chunk_ahead_run (http : Http) (s1 s2 : Stream.HttpStream) (m1 m2 : Msg.HttpMessage) :
  chunk_ahead s1 m1 s2 m2 ->
  len (Stream.data s1) <= MaxInt - 2 ->
  Stream.parseOffset s1 < len (Stream.data s1) ->
  run http s2 m2 <> Panic ->
  outcome_rel wait_sim (run http s1 m1) (run http s2 m2).
Proof.
  intros (St1 & St2 & Ht & Hd & delta & Hdelta & Hp2 & Hp1 & Hp1l & Hw & Hbr & Hm)
         Hlen Hlt HnP.
  rewrite (run_unfold http s2 m2) in *
    by (try split; rewrite <- ?Hd, ?St2; try discriminate; lia).
  rewrite (run_unfold http s1 m1)
    by (try split; rewrite ?St1; try discriminate; lia).
  unfold parser_step in *. rewrite St1, St2 in *.
  unfold state_body_chunked in *. cbv zeta in *.
  rewrite <- Hd in *.
  rewrite !slice_from_Ok in * by lia. cbn [rbind] in *.
  rewrite !len_drop in * by lia.
  subst m1. msg_cbn. rewrite Hbr, Hp1 in *.
  set (D := Stream.data s1) in *. set (p2 := Stream.parseOffset s2) in *.
  set (cl := Msg.chunked_length m2) in *. set (br2 := Stream.bodyReceived s2) in *.
  stream_cbn_all.
  assert (Hok1 : stream_ok s1) by (split; [rewrite St1; discriminate|lia]).
  destruct (cl -! br2 +! 2 <=? len D - p2) eqn:A2.
  - (* the rest of the chunk and its CRLF are there *)
    pose proof (slice_no_fuel D p2 (p2 +! cl -! br2)) as Hnf.
    destruct (slice D p2 (p2 +! cl -! br2)) as [chunk2| |] eqn:Ec2; cbn [rbind] in *;
      [|congruence|congruence].
    clear HnP Hnf. pose proof (slice_inv _ _ _ _ Ec2) as (_ & Hlo & Hhi).
    apply Z.leb_le in A2.
    assert (Hhi2 : p2 +! cl -! br2 = p2 + (cl -! br2)) by (clear Ec2; int_lia).
    assert (Hhi1 : p2 + delta +! cl -! (br2 +! delta) = p2 + (cl -! br2))
      by (clear Ec2; int_lia).
    assert (Hw1 : cl -! (br2 +! delta) = (cl -! br2) - delta) by (clear Ec2; int_lia).
    rewrite Hhi2 in *. rewrite Hhi1, Hw1.
    set (W := cl -! br2) in *.
    replace (W - delta +! 2 <=? len D - (p2 + delta)) with true
      by (symmetry; apply Z.leb_le; int_lia).
    rewrite slice_Ok in Ec2 by lia. injection Ec2 as <-.
    rewrite slice_Ok by lia. cbn [rbind].
    replace (p2 + delta +! (W - delta +! 2)) with (p2 +! (W +! 2)) by int_lia.
    match goal with
    | |- outcome_rel _ (run _ _ ?a) (run _ _ ?b) => replace a with b
    end.
    + eapply outcome_rel_weaken; [intros; left; eassumption|].
      apply run_sim.
      * unfold stream_sim. stream_cbn. repeat split; auto. discriminate.
      * split; [discriminate|]. stream_cbn. int_lia.
      * exact Hlen.
    + rewrite set_chunked_body_twice. do 2 f_equal. rewrite <- app_assoc. f_equal.
      rewrite take_drop_two by lia. f_equal. lia.
  - apply Z.leb_gt in A2.
    destruct (cl -! br2 <=? len D - p2) eqn:B2.
    + (* the rest of the chunk is there, its CRLF is not *)
      apply Z.leb_le in B2. clear HnP.
      replace (cl -! (br2 +! delta) +! 2 <=? len D - (p2 + delta)) with false
        by (symmetry; apply Z.leb_gt; int_lia).
      replace (cl -! (br2 +! delta) <=? len D - (p2 + delta)) with true
        by (symmetry; apply Z.leb_le; int_lia).
      cbn. split; [reflexivity|]. intros _. split; [reflexivity|]. right.
      unfold chunk_ahead. repeat (split; [assumption|]).
      exists delta. rewrite Hbr, Hp1. fold p2 cl br2. rewrite <- Hd. auto 10.
    + (* the chunk goes on behind the buffer *)
      apply Z.leb_gt in B2. clear HnP.
      replace (cl -! (br2 +! delta) +! 2 <=? len D - (p2 + delta)) with false
        by (symmetry; apply Z.leb_gt; int_lia).
      replace (cl -! (br2 +! delta) <=? len D - (p2 + delta)) with false
        by (symmetry; apply Z.leb_gt; int_lia).
      cbn [rbind outcome_rel]. split; [reflexivity|]. intros _. split; [reflexivity|].
      left. split.
      * rewrite set_chunked_body_twice. f_equal. rewrite <- app_assoc. f_equal.
        apply take_drop_rest; lia.
      * unfold stream_sim. stream_cbn. fold D. rewrite <- Hd.
        split; [exact Ht|]. split; [reflexivity|]. split; [reflexivity|].
        split; [congruence|]. intros _. int_lia.
Qed.


(** *** Waiting parsers that go on alike *)

Lemma wait_sim_refl s m : wait_sim s m s m.
Proof. left. apply same_wait_refl. Qed.

Lemma wait_sim_trans s1 m1 s2 m2 s3 m3 :
  wait_sim s1 m1 s2 m2 -> wait_sim s2 m2 s3 m3 -> wait_sim s1 m1 s3 m3.
Proof.
  intros [[Hm12 H12] | H12] [[Hm23 H23] | H23].
  - left. split; [congruence|]. eapply stream_sim_trans; eassumption.
  - right. subst m2. destruct H12 as (Ht & Hd & Hp & Hs & Hb).
    destruct H23 as (St2 & St3 & Ht' & Hd' & delta & H0 & H1 & H2 & H3 & H4 & H5 & H6).
    rewrite St2 in Hs. rewrite Hs in Hb. specialize (Hb eq_refl).
    unfold chunk_ahead. rewrite Hs, Ht, Hd, Hp, Hb.
    repeat (split; [first [assumption|reflexivity|congruence]|]). exists delta. auto 10.
  - right. subst m3. destruct H23 as (Ht & Hd & Hp & Hs & Hb).
    destruct H12 as (St1 & St2 & Ht' & Hd' & delta & H0 & H1 & H2 & H3 & H4 & H5 & H6).
    rewrite St2 in Hb. specialize (Hb eq_refl).
    unfold chunk_ahead. rewrite <- Hs, <- Ht, <- Hd, <- Hp, <- Hb.
    repeat (split; [first [assumption|reflexivity|congruence]|]). exists delta. auto 10.
  - right.
    destruct H12 as (St1 & St2 & Ht & Hd & d12 & A0 & A1 & A2 & A3 & A4 & A5 & A6).
    destruct H23 as (_ & St3 & Ht' & Hd' & d23 & B0 & B1 & B2 & B3 & B4 & B5 & B6).
    unfold chunk_ahead. repeat (split; [congruence|]).
    exists (d23 + d12).
    assert (Hcl : Msg.chunked_length m2 = Msg.chunked_length m3) by (subst m2; reflexivity).
    rewrite Hcl, B5 in A4. rewrite B5 in A5.
    split; [lia|]. split; [assumption|]. split; [lia|]. split; [assumption|].
    split; [int_lia|]. split; [rewrite A5; int_lia|].
    subst m1 m2. rewrite set_chunked_body_twice. f_equal. msg_cbn.
    rewrite <- app_assoc. f_equal. rewrite B2, <- Hd'.
    apply take_drop_two; lia.
Qed.

Lemma wait_sim_message s1 m1 s2 m2 x y :
  wait_sim s1 m1 s2 m2 -> wait_sim (Stream.set_message x s1) m1 (Stream.set_message y s2) m2.
Proof. intros [H1 | H1]; [left|right]; exact H1. Qed.

Lemma stream_ok_with_data (d : bytes) (s : Stream.HttpStream) :
  stream_ok s -> stream_ok (with_data d s).
Proof. intros Hok. exact Hok. Qed.

(** Two waiting parsers that go on alike do so when more bytes come. *)
Lemma run_wait_sim (http : Http) (s1 s2 : Stream.HttpStream) (m1 m2 : Msg.HttpMessage)
    (e : bytes) :
  wait_sim s1 m1 s2 m2 -> stream_ok s1 -> e <> [] ->
  len (Stream.data s1 ++ e) <= MaxInt - 2 ->
  run http (with_data (Stream.data s1 ++ e) s2) m2 <> Panic ->
  outcome_rel wait_sim (run http (with_data (Stream.data s1 ++ e) s1) m1)
                       (run http (with_data (Stream.data s1 ++ e) s2) m2).
Proof.
  intros [[-> Hsim] | Hahead] Hok He Hlen HnP.
  - eapply outcome_rel_weaken; [intros; left; eassumption|].
    apply run_sim; [|exact Hok|exact Hlen].
    destruct Hsim as (Ht & Hd & Hp & Hs & Hb). unfold stream_sim. stream_cbn. auto.
  - apply chunk_ahead_run; [|exact Hlen| |exact HnP].
    + destruct Hahead as (St1 & St2 & Ht & Hd & delta & H0 & H1 & H2 & H3 & H4 & H5 & H6).
      unfold chunk_ahead. stream_cbn. repeat (split; [assumption || reflexivity|]).
      exists delta. rewrite len_app. pose proof (len_nonneg e).
      split; [assumption|]. split; [assumption|]. split; [assumption|]. split; [lia|].
      split; [assumption|]. split; [assumption|].
      rewrite H6. do 2 f_equal. rewrite Hd.
      rewrite drop_app_le by (unfold len in *; rewrite <- Hd; lia).
      rewrite take_app_le; [reflexivity|].
      rewrite length_drop. unfold len in *. rewrite <- Hd. lia.
    + destruct Hahead as (_ & _ & _ & _ & delta & _ & _ & _ & H3 & _).
      stream_cbn. rewrite len_app. destruct e; [congruence|]. unfold len in *. cbn. lia.
Qed.


(** *** A parser that waited, with more bytes *)

Lemma set_ContentLength_twice (x y : Z) (m : Msg.HttpMessage) :
  Msg.set_ContentLength x (Msg.set_ContentLength y m) = Msg.set_ContentLength x m.
Proof. reflexivity. Qed.

Ltac outcome_cases :=
  repeat (stream_cbn; cbv zeta;
          match goal with
          | |- outcome_rel _ (rbind (rbind ?r _) _) _ => destruct r
          | |- outcome_rel _ (rbind (if ?b then _ else _) _) _ => destruct b
          | |- outcome_rel _ (rbind (match ?x with _ => _ end) _) _ => destruct x
          end);
  stream_cbn; cbn [outcome_rel]; unfold wait_sim, same_wait, stream_sim; stream_cbn;
  try solve [intuition (auto; congruence)].

Ltac run_side :=
  stream_cbn; unfold stream_ok; stream_cbn;
  repeat match goal with H : Stream.parseState _ = _ |- _ => rewrite H end;
  first [split; [discriminate | lia] | lia | assumption].

(** The turn at which the parser stopped to wait is taken again, with the
    bytes that came since, to the same end as a turn on the whole buffer
    from the state before. *)
Lemma parser_step_resume (http : Http) (s s1 : Stream.HttpStream) (m m1 : Msg.HttpMessage)
    (e : bytes) :
  stream_ok s -> len (Stream.data s ++ e) <= MaxInt - 2 ->
  Stream.parseOffset s < len (Stream.data s) -> e <> [] ->
  parser_step http s m = Ok (Return s1 m1 true false) ->
  run http (with_data (Stream.data s ++ e) s) m <> Panic ->
  outcome_rel wait_sim (run http (with_data (Stream.data s ++ e) s1) m1)
                       (run http (with_data (Stream.data s ++ e) s) m).
Proof.
  intros [Hst Hpo] Hlen Hlt He Hrun HnP.
  assert (Hle : 0 < len e) by (destruct e; [congruence|unfold len; cbn; lia]).
  pose proof (len_app (Stream.data s) e) as Happ.
  pose proof (len_nonneg (Stream.data s)) as Hd0.
  assert (Hdrop : (Z.to_nat (Stream.parseOffset s) <= length (Stream.data s))%nat)
    by (unfold len in *; lia).
  assert (Hrefl : forall r, outcome_rel wait_sim r r)
    by (intros r; apply outcome_rel_refl, wait_sim_refl).
  assert (Hok' : stream_ok (with_data (Stream.data s ++ e) s)) by (split; assumption).
  unfold parser_step in Hrun.
  destruct (Stream.parseState s) eqn:Est; [| congruence | | | | |].
  - (* START *)
    unfold state_start in Hrun. cbv zeta in Hrun.
    rewrite slice_from_Ok in Hrun by lia. cbn [rbind] in Hrun.
    destruct (find_sub (drop (Z.to_nat (Stream.parseOffset s)) (Stream.data s)) CRLF)
      as [i|] eqn:Ei.
    { rewrite (Index_find _ _ _ Ei) in Hrun.
      replace (Z.of_nat i =? -1) with false in Hrun by cmp. all_return Hrun. }
    rewrite (Index_none _ _ Ei) in Hrun. cbn in Hrun. injection Hrun as <- <-.
    replace (run http (with_data (Stream.data s ++ e) s)
               (Msg.set_start (Stream.parseOffset s) m))
      with (run http (with_data (Stream.data s ++ e) s) m); [apply Hrefl|].
    rewrite !(run_unfold http (with_data (Stream.data s ++ e) s))
      by run_side.
    unfold parser_step. stream_cbn. rewrite Est. reflexivity.
  - (* HEADERS *)
    unfold state_headers in Hrun. cbv zeta in Hrun.
    destruct (if 2 <=? _ then _ else _) as [eoh| |]; cbn [rbind] in Hrun; try discriminate.
    destruct eoh; [all_return Hrun|].
    rewrite slice_from_Ok in Hrun by lia. cbn [rbind] in Hrun.
    pose proof (parseHeader_result http m
                  (drop (Z.to_nat (Stream.parseOffset s)) (Stream.data s))) as Hres.
    rewrite len_drop in Hres by lia. specialize (Hres ltac:(lia)).
    destruct Hres as [Hres | [[off' Hres] | (m' & off' & Hres & _)]];
      rewrite Hres in Hrun; cbn in Hrun; try discriminate.
    injection Hrun as <- <-. apply Hrefl.
  - (* BODY *)
    unfold state_body in Hrun. cbv zeta in Hrun.
    destruct (negb (Msg.hasContentLength m) && _) eqn:Ec.
    + (* the body goes on until the connection is closed *)
      injection Hrun as <- <-.
      rewrite !run_unfold by run_side.
      unfold parser_step. stream_cbn. rewrite Est.
      unfold state_body. stream_cbn. msg_cbn. rewrite Ec. cbn [rbind outcome_rel].
      split; [reflexivity|]. intros _. split; [reflexivity|]. left. split.
      * rewrite set_ContentLength_twice. f_equal. int_lia.
      * unfold stream_sim. stream_cbn. repeat split; auto. intros _. int_lia.
    + rewrite slice_from_Ok in Hrun by lia. cbn [rbind] in Hrun.
      rewrite len_drop in Hrun by lia.
      destruct (_ <=? _) eqn:E3 in Hrun; [discriminate|]. apply Z.leb_gt in E3.
      injection Hrun as <- <-.
      rewrite !run_unfold by run_side.
      unfold parser_step. stream_cbn. rewrite Est.
      unfold state_body. stream_cbn. rewrite Ec.
      rewrite !slice_from_Ok by lia. cbn [rbind]. rewrite !len_drop by lia.
      destruct (Msg.ContentLength m -! Stream.bodyReceived s
                <=? len (Stream.data s ++ e) - Stream.parseOffset s) eqn:E4.
      * apply Z.leb_le in E4.
        match goal with
        | |- context [if ?b then _ else _] => replace b with true
        end.
        2:{ symmetry. apply Z.leb_le. int_lia. }
        cbn [rbind outcome_rel]. split; [reflexivity|]. intros _. split; [reflexivity|].
        split; [|split; reflexivity]. f_equal. int_lia.
      * apply Z.leb_gt in E4.
        match goal with
        | |- context [if ?b then _ else _] => replace b with false
        end.
        2:{ symmetry. apply Z.leb_gt. int_lia. }
        cbn [rbind outcome_rel]. split; [reflexivity|]. intros _. split; [reflexivity|].
        left. split; [reflexivity|].
        unfold stream_sim. stream_cbn. repeat split; auto. intros _. int_lia.
  - (* BODY_CHUNKED_START *)
    unfold state_body_chunked_start in Hrun. cbv zeta in Hrun.
    rewrite slice_from_Ok in Hrun by lia. cbn [rbind] in Hrun.
    destruct (find_sub (drop (Z.to_nat (Stream.parseOffset s)) (Stream.data s)) CRLF)
      as [i|] eqn:Ei.
    2:{ rewrite (Index_none _ _ Ei) in Hrun. cbn in Hrun. injection Hrun as <- <-.
        apply Hrefl. }
    rewrite (Index_find _ _ _ Ei) in Hrun.
    replace (Z.of_nat i =? -1) with false in Hrun by cmp.
    destruct (slice (Stream.data s) _ _) as [line| |] eqn:Eline; try discriminate.
    cbn [rbind] in Hrun.
    destruct (Sscanf_x (S_ line)) as [n|] eqn:En; [|discriminate].
    destruct (Msg.chunked_length (Msg.set_chunked_length n m) =? 0) eqn:E0;
      [|discriminate].
    stream_cbn_all.
    destruct (slice_from (Stream.data s) _) as [rest| |] eqn:Erest; try discriminate.
    cbn [rbind] in Hrun. apply slice_from_inv in Erest as (Hp0 & Hp1 & ->).
    destruct (len _ <? 2) eqn:E2; [|all_return Hrun].
    injection Hrun as <- <-.
    rewrite !run_unfold
      by run_side.
    unfold parser_step. stream_cbn. rewrite Est.
    unfold state_body_chunked_start, state_body_chunked_wait_final_crlf. stream_cbn.
    rewrite !slice_from_Ok by lia. cbn [rbind].
    rewrite (drop_app_le _ _ (Z.to_nat (Stream.parseOffset s))) by exact Hdrop.
    rewrite (Index_find _ _ _ (find_sub_app _ e _ _ Ei)).
    replace (Z.of_nat i =? -1) with false by cmp.
    rewrite (slice_app _ e _ _ _ Eline). cbn [rbind]. rewrite En, E0. stream_cbn.
    rewrite !slice_from_Ok by lia. cbn [rbind].
    outcome_cases.
  - (* BODY_CHUNKED *)
    unfold state_body_chunked in Hrun. cbv zeta in Hrun.
    rewrite !slice_from_Ok in Hrun by lia. cbn [rbind] in Hrun.
    rewrite !len_drop in Hrun by lia.
    destruct (_ <=? _) eqn:A in Hrun; [all_return Hrun|].
    destruct (_ <=? _) eqn:B in Hrun; [injection Hrun as <- <-; apply Hrefl|].
    apply Z.leb_gt in B. injection Hrun as <- <-.
    apply chunk_ahead_run; [|exact Hlen|stream_cbn; lia|exact HnP].
    unfold chunk_ahead. stream_cbn. repeat (split; [first [assumption|reflexivity]|]).
    exists (len (Stream.data s) - Stream.parseOffset s).
    split; [lia|]. split; [assumption|]. split; [lia|]. split; [lia|].
    split; [lia|]. split; [int_lia|].
    do 2 f_equal. rewrite drop_app_le by exact Hdrop.
    symmetry. apply take_app_length'. rewrite length_drop. unfold len. lia.
  - (* BODY_CHUNKED_WAIT_FINAL_CRLF *)
    unfold state_body_chunked_wait_final_crlf in Hrun.
    rewrite slice_from_Ok in Hrun by lia. cbn [rbind] in Hrun.
    destruct (len _ <? 2); [|all_return Hrun].
    injection Hrun as <- <-. apply Hrefl.
Qed.

(** A parser that waited goes on, when more bytes come, to the same end as
    a parser that is given all the bytes at once. *)
Lemma run_more (http : Http) (e : bytes) (s s1 : Stream.HttpStream) (m m1 : Msg.HttpMessage) :
  stream_ok s -> len (Stream.data s ++ e) <= MaxInt - 2 -> e <> [] ->
  run http s m = Ok (s1, m1, (true, false)) ->
  run http (with_data (Stream.data s ++ e) s) m <> Panic ->
  outcome_rel wait_sim (run http (with_data (Stream.data s ++ e) s1) m1)
                       (run http (with_data (Stream.data s ++ e) s) m).
Proof.
  remember (Z.to_nat (len (Stream.data s) - Stream.parseOffset s)) as n eqn:Hn.
  revert s m Hn. induction n as [n IH] using lt_wf_ind.
  intros s m Hn Hok Hlen He Hrun HnP.
  pose proof (len_app (Stream.data s) e) as Happ. pose proof (len_nonneg e) as Hle.
  destruct (Z_lt_le_dec (Stream.parseOffset s) (len (Stream.data s))) as [Hlt|Hge].
  - rewrite (run_unfold http s m Hok) in Hrun by lia.
    destruct (parser_step http s m) as [[s' m'|s' m' ok c]| |] eqn:Estep;
      cbn [rbind] in Hrun; try discriminate.
    + (* the turn went round again *)
      pose proof (parser_step_ok http s m _ Hok ltac:(lia) Estep) as (Hd & Hmove & Hst').
      pose proof (parser_step_more http s s' m m' e Hok Hlen Hlt Estep) as Hmore.
      assert (Hnext : run http (with_data (Stream.data s ++ e) s) m
                      = run http (with_data (Stream.data s ++ e) s') m').
      { rewrite (run_unfold http (with_data (Stream.data s ++ e) s))
          by first [exact Hok | stream_cbn; lia].
        rewrite Hmore. reflexivity. }
      rewrite Hnext in *. rewrite <- Hd in *.
      apply (IH (Z.to_nat (len (Stream.data s') - Stream.parseOffset s'))); auto.
      * subst n. destruct Hok. lia.
      * split; [exact Hst'|]. destruct Hok. lia.
    + injection Hrun as -> -> -> ->.
      apply parser_step_resume; assumption.
  - rewrite (run_exit http s m Hge) in Hrun. injection Hrun as <- <-.
    apply outcome_rel_refl, wait_sim_refl.
Qed.


(** *** Segments through [Parse] *)

Lemma Data_set_Data (dir : Dir) (v : option Stream.HttpStream) (priv : httpPrivateData) :
  Data (set_Data dir v priv) dir = v.
Proof. destruct dir; reflexivity. Qed.

Lemma set_Data_twice (dir : Dir) (v w : option Stream.HttpStream) (priv : httpPrivateData) :
  set_Data dir v (set_Data dir w priv) = set_Data dir v priv.
Proof. destruct dir; reflexivity. Qed.

Lemma run_waits (http : Http) (s s' : Stream.HttpStream) (m m' : Msg.HttpMessage) :
  stream_ok s -> len (Stream.data s) <= MaxInt - 2 ->
  run http s m = Ok (s', m', (true, false)) ->
  Stream.data s' = Stream.data s /\ stream_ok s'.
Proof.
  intros Hok Hlen Hrun.
  destruct (messageParser_loop_returns (S (length (Stream.data s))) http s m Hok Hlen)
    as [_ Hwait]; [destruct Hok; unfold len; lia|].
  apply (Hwait s' m'), Hrun.
Qed.

Lemma messageParser_run (http : Http) (s : Stream.HttpStream) (m : Msg.HttpMessage) :
  Stream.message s = Some m ->
  messageParser http s =
  do r <- run http s m;
  let '(s, m, oc) := r in Ok (Stream.set_message (Some m) s, oc).
Proof. intros Hm. unfold messageParser, run. rewrite Hm. reflexivity. Qed.

(** A parser is left waiting only by a run that stopped for more bytes;
    nothing has been handed over then. *)
Lemma parse_stream_waiting (http : Http) (tcptuple : common_TcpTuple) (dir : Dir)
    (priv : httpPrivateData) (s : Stream.HttpStream) (m : Msg.HttpMessage) :
  Stream.message s = Some m ->
  waiting dir (parse_stream http tcptuple dir priv s) = true ->
  exists s1 m1,
    run http s m = Ok (s1, m1, (true, false))
    /\ parse_stream http tcptuple dir priv s
       = (http, Ok (Some (set_Data dir (Some (Stream.set_message (Some m1) s1)) priv))).
Proof.
  intros Hm. unfold parse_stream. rewrite (messageParser_run http s m Hm).
  destruct (run http s m) as [[[s1 m1] [ok c]]| |]; cbn [rbind];
    [|intros [=]|intros [=]].
  destruct ok; cbn [negb].
  2:{ unfold waiting. cbn [snd]. rewrite Data_set_Data. intros [=]. }
  destruct c; [|intros _; exists s1, m1; split; reflexivity].
  cbn [Stream.message Stream.set_message].
  destruct (do msg <- slice _ _ _; censorPasswords m1 msg) as [[m2 msg]| |];
    [|intros [=]|intros [=]].
  destruct (handleHttp http m2 tcptuple dir msg) as [http1 [u| |]];
    [|intros [=]|intros [=]].
  unfold PrepareForNewMessage. cbn [Stream.message Stream.set_message].
  destruct (slice_from _ _) as [rest| |]; cbn [rbind]; [|intros [=]|intros [=]].
  unfold waiting. cbn [snd]. rewrite Data_set_Data. cbn. intros [=].
Qed.

(** [parse_stream] does not tell apart what the parser's outcomes do not. *)
Lemma parse_stream_sim (http : Http) (tcptuple : common_TcpTuple) (dir : Dir)
    (privX privY : httpPrivateData) (sX sY : Stream.HttpStream) (mX mY : Msg.HttpMessage) :
  Stream.message sX = Some mX -> Stream.message sY = Some mY ->
  stream_ok sX -> len (Stream.data sX) <= MaxInt - 2 ->
  set_Data dir None privX = set_Data dir None privY ->
  outcome_rel wait_sim (run http sX mX) (run http sY mY) ->
  result_sim dir (parse_stream http tcptuple dir privX sX)
                 (parse_stream http tcptuple dir privY sY).
Proof.
  intros HmX HmY Hok Hlen Hpriv Hrel. unfold parse_stream.
  rewrite (messageParser_run http sX mX HmX), (messageParser_run http sY mY HmY).
  pose proof (fun s' m' => run_waits http sX s' mX m' Hok Hlen) as Hwaits.
  destruct (run http sX mX) as [[[s1 m1] [ok1 c1]]| |],
           (run http sY mY) as [[[s2 m2] [ok2 c2]]| |];
    cbn [outcome_rel] in Hrel; try contradiction; cbn [rbind];
    try (split; [reflexivity|exact I]).
  destruct Hrel as [<- Hrel]. destruct ok1; cbn [negb].
  2:{ split; [reflexivity|]. cbn [snd]. unfold priv_sim.
      rewrite !Data_set_Data, !set_Data_twice. auto. }
  destruct (Hrel eq_refl) as [<- Hrel']. destruct c1.
  - destruct Hrel' as (<- & Ht & Hd).
    cbn [Stream.message Stream.set_message Stream.data Stream.set_data].
    rewrite <- Hd.
    destruct (do msg <- slice _ _ _; censorPasswords m1 msg) as [[m3 msg]| |];
      try (split; [reflexivity|exact I]).
    destruct (handleHttp http m3 tcptuple dir msg) as [http1 [u| |]];
      try (split; [reflexivity|exact I]).
    unfold PrepareForNewMessage.
    cbn [Stream.message Stream.set_message Stream.data Stream.set_data].
    destruct (slice_from _ _) as [rest| |]; cbn [rbind];
      try (split; [reflexivity|exact I]).
    split; [reflexivity|]. cbn [snd]. unfold priv_sim.
    rewrite !Data_set_Data, !set_Data_twice. split; [exact Hpriv|].
    cbv [Stream.set_message Stream.set_bodyReceived Stream.set_parseOffset
         Stream.set_parseState Stream.set_data Stream.message Stream.tcptuple
         Stream.data Stream.parseOffset Stream.parseState Stream.bodyReceived].
    destruct s1, s2. cbn in Ht. rewrite Ht. reflexivity.
  - split; [reflexivity|]. cbn [snd]. unfold priv_sim.
    rewrite !Data_set_Data, !set_Data_twice. split; [exact Hpriv|].
    cbn [Stream.message Stream.set_message]. split.
    + apply wait_sim_message, Hrel'.
    + apply (Hwaits s1 m1 eq_refl).
Qed.


Lemma Parse_first (http : Http) (pkt : Packet) (tcptuple : common_TcpTuple) (dir : Dir)
    (private : option httpPrivateData) :
  let priv := default {| Data0 := None; Data1 := None |} private in
  Data priv dir = None ->
  Parse http pkt tcptuple dir private
  = parse_stream http tcptuple dir
      (set_Data dir (Some (new_HttpStream tcptuple pkt)) priv) (new_HttpStream tcptuple pkt).
Proof. intros priv Hnone. unfold Parse. fold priv. rewrite Hnone. reflexivity. Qed.

Lemma wait_sim_data s1 m1 s2 m2 : wait_sim s1 m1 s2 m2 -> Stream.data s1 = Stream.data s2.
Proof. intros [[_ (_ & Hd & _)] | (_ & _ & _ & Hd & _)]; exact Hd. Qed.

(** One more segment for a parser that waits, against the delivery of all
    the bytes at once. *)
Lemma Parse_more (http : Http) (tcptuple : common_TcpTuple) (dir : Dir)
    (private : option httpPrivateData) (d e : bytes) (ts ts' : Z)
    (rX : Http * result (option httpPrivateData)) (pX : option httpPrivateData) :
  Data (default {| Data0 := None; Data1 := None |} private) dir = None ->
  waiting dir (Parse http (segment d ts) tcptuple dir private) = true ->
  result_sim dir rX (Parse http (segment d ts) tcptuple dir private) ->
  snd rX = Ok pX ->
  e <> [] -> len (d ++ e) <= TCP_MAX_DATA_IN_STREAM -> len (d ++ e) <= MaxInt - 2 ->
  snd (Parse http (segment (d ++ e) ts) tcptuple dir private) <> Ok None ->
  result_sim dir (Parse (fst rX) (segment e ts') tcptuple dir pX)
                 (Parse http (segment (d ++ e) ts) tcptuple dir private).
Proof.
  intros Hnone Hwait Hsim HpX He Hmax Hlen HnP.
  pose proof (len_app d e) as Happ. pose proof (len_nonneg e) as Hle.
  rewrite (Parse_first http (segment d ts)) in Hwait, Hsim by exact Hnone.
  rewrite (Parse_first http (segment (d ++ e) ts)) in HnP |- * by exact Hnone.
  set (priv0 := default {| Data0 := None; Data1 := None |} private) in *.
  set (s0 := new_HttpStream tcptuple (segment d ts)) in *.
  assert (Hok0 : stream_ok s0) by (split; cbn; [discriminate|lia]).
  destruct (parse_stream_waiting _ _ _ _ s0 (new_HttpMessage ts) eq_refl Hwait)
    as (s1 & m1 & Hrun & HY).
  rewrite HY in Hsim. destruct rX as [httpX rXs]. unfold result_sim in Hsim.
  cbn [fst snd] in *. subst rXs. destruct Hsim as [-> Hsim].
  destruct pX as [pX|]; [|contradiction].
  destruct Hsim as [Hpriv Hsim]. rewrite Data_set_Data in Hsim.
  destruct (Data pX dir) as [sX|] eqn:HsX; [|contradiction].
  cbn [Stream.message Stream.set_message] in Hsim.
  destruct (Stream.message sX) as [mX|] eqn:HmX; [|contradiction].
  destruct Hsim as [Hws HokX].
  assert (Hws1 : wait_sim sX mX s1 m1).
  { destruct Hws as [Hw | Hw]; [left|right]; exact Hw. }
  destruct (run_waits http s0 s1 _ m1 Hok0 ltac:(cbn; lia) Hrun) as [Hd1 Hok1].
  assert (HdX : Stream.data sX = d) by (rewrite (wait_sim_data _ _ _ _ Hws1), Hd1; reflexivity).
  unfold Parse. cbn [default from_option]. unfold id. rewrite HsX. cbn [Payload pkt_Ts segment Stream.data Stream.set_data].
  rewrite HdX.
  replace (TCP_MAX_DATA_IN_STREAM <? len (d ++ e)) with false by cmp.
  cbn [Stream.message Stream.set_data]. rewrite HmX.
  apply (parse_stream_sim http tcptuple dir _ _ _ _ mX (new_HttpMessage ts)).
  - exact HmX.
  - reflexivity.
  - exact HokX.
  - exact Hlen.
  - rewrite !set_Data_twice. rewrite !set_Data_twice in Hpriv. exact Hpriv.
  - assert (HnP' : run http (with_data (Stream.data s0 ++ e) s0) (new_HttpMessage ts) <> Panic).
    { intros Hp. apply HnP. unfold parse_stream.
      rewrite (messageParser_run http (new_HttpStream tcptuple (segment (d ++ e) ts))
                 (new_HttpMessage ts) eq_refl).
      change (new_HttpStream tcptuple (segment (d ++ e) ts))
        with (with_data (Stream.data s0 ++ e) s0).
      rewrite Hp. reflexivity. }
    pose proof (run_more http e s0 s1 _ m1 Hok0 Hlen He Hrun HnP') as Hmore.
    eapply outcome_rel_trans; [apply wait_sim_trans| |exact Hmore].
    rewrite <- HdX. change (Stream.data s0) with d. rewrite <- HdX.
    apply run_wait_sim; try assumption.
    + rewrite HdX. exact Hlen.
    + rewrite HdX. eapply outcome_rel_Panic; [exact Hmore|exact HnP'].
Qed.


Lemma feed_snoc (http : Http) (tcptuple : common_TcpTuple) (dir : Dir)
    (private : option httpPrivateData) (pkts : list Packet) (pkt : Packet) :
  feed http tcptuple dir private (pkts ++ [pkt])
  = match feed http tcptuple dir private pkts with
    | (http', Ok private') => Parse http' pkt tcptuple dir private'
    | other => other
    end.
Proof.
  revert http private. induction pkts as [|p pkts IH]; intros http private.
  - cbn [app feed]. destruct (Parse http pkt tcptuple dir private) as [h [r| |]]; reflexivity.
  - cbn [app feed]. destruct (Parse http p tcptuple dir private) as [h [r| |]];
      [apply IH|reflexivity|reflexivity].
Qed.

Lemma joined_single (pkt : Packet) : joined [pkt] = pkt.
Proof. destruct pkt. unfold joined. cbn. rewrite app_nil_r. reflexivity. Qed.

Lemma joined_snoc (pkts : list Packet) (pkt : Packet) :
  pkts <> [] ->
  joined (pkts ++ [pkt])
  = segment (Payload (joined pkts) ++ Payload pkt) (pkt_Ts (joined pkts)).
Proof.
  intros Hne. unfold joined, segment. cbn [Payload pkt_Ts].
  rewrite fmap_app, concat_app. cbn. rewrite app_nil_r.
  destruct pkts; [congruence|reflexivity].
Qed.

(** Segments against one delivery, as long as no part of the bytes that
    ends with a segment, delivered at once, ends the message. *)
Lemma feed_joined (http : Http) (tcptuple : common_TcpTuple) (dir : Dir)
    (private : option httpPrivateData) (pkts : list Packet) :
  Data (default {| Data0 := None; Data1 := None |} private) dir = None ->
  pkts <> [] ->
  Forall (fun pkt => Payload pkt <> []) pkts ->
  len (Payload (joined pkts)) <= TCP_MAX_DATA_IN_STREAM ->
  len (Payload (joined pkts)) <= MaxInt - 2 ->
  (forall k, (0 < k < length pkts)%nat ->
             waiting dir (Parse http (joined (take k pkts)) tcptuple dir private) = true) ->
  snd (Parse http (joined pkts) tcptuple dir private) <> Ok None ->
  result_sim dir (feed http tcptuple dir private pkts)
                 (Parse http (joined pkts) tcptuple dir private).
Proof.
  intros Hnone. induction pkts as [|pkt pkts IH] using rev_ind; [congruence|].
  intros _ Hall Hmax Hlen Hwait HnP.
  destruct (decide (pkts = [])) as [-> | Hne].
  - cbn [app] in *. rewrite joined_single in *. cbn [feed].
    replace (match Parse http pkt tcptuple dir private with
             | (http0, Ok private0) => (http0, Ok private0)
             | (http0, Panic) => (http0, Panic)
             | (http0, OutOfFuel) => (http0, OutOfFuel)
             end) with (Parse http pkt tcptuple dir private)
      by (destruct (Parse http pkt tcptuple dir private) as [h [r| |]]; reflexivity).
    rewrite (Parse_first http pkt) by exact Hnone.
    apply (parse_stream_sim http tcptuple dir _ _ _ _ (new_HttpMessage (pkt_Ts pkt))
             (new_HttpMessage (pkt_Ts pkt))); try reflexivity.
    + split; cbn; [discriminate|lia].
    + exact Hlen.
    + apply outcome_rel_refl, wait_sim_refl.
  - apply Forall_app in Hall as [Hall Hpkt]. apply Forall_inv in Hpkt.
    rewrite (joined_snoc pkts pkt Hne) in *. cbn [Payload segment] in Hmax, Hlen.
    pose proof (len_app (Payload (joined pkts)) (Payload pkt)) as Happ.
    pose proof (len_nonneg (Payload pkt)) as Hle.
    assert (HwaitY : waiting dir (Parse http (joined pkts) tcptuple dir private) = true).
    { specialize (Hwait (length pkts)). rewrite take_app_length in Hwait.
      apply Hwait. rewrite length_app. cbn. destruct pkts; [congruence|cbn; lia]. }
    assert (IH' : result_sim dir (feed http tcptuple dir private pkts)
                    (Parse http (joined pkts) tcptuple dir private)).
    { apply IH; try assumption; try lia.
      - intros k Hk. specialize (Hwait k). rewrite take_app_le in Hwait by lia.
        apply Hwait. rewrite length_app. cbn. lia.
      - intros Hp. unfold waiting in HwaitY. rewrite Hp in HwaitY. discriminate. }
    rewrite feed_snoc.
    destruct (feed http tcptuple dir private pkts) as [hX [pX| |]] eqn:HX.
    + destruct pkt as [e ts']. cbn [Payload] in Hpkt, Hmax, Hlen, HnP.
      apply (Parse_more http tcptuple dir private (Payload (joined pkts)) e
               (pkt_Ts (joined pkts)) ts' (hX, Ok pX) pX); try assumption; reflexivity.
    + exfalso. destruct IH' as [_ IH']. cbn [snd] in IH'. unfold waiting in HwaitY.
      destruct (snd (Parse http (joined pkts) tcptuple dir private)) as [[?|]| |];
        first [contradiction | discriminate].
    + exfalso. destruct IH' as [_ IH']. cbn [snd] in IH'. unfold waiting in HwaitY.
      destruct (snd (Parse http (joined pkts) tcptuple dir private)) as [[?|]| |];
        first [contradiction | discriminate].
Qed.

(** X1.  Segmentation within one message.  The bytes of a direction that
    is new to [Parse] come in segments, none of them empty, no longer in
    all than the buffer bound.  If no part of the bytes that ends where a
    segment ends would, delivered at once, end the message (complete it,
    have the stream dropped, or panic the parser), and the delivery of all
    the bytes at once is not ended by a panic, then the segments fed in
    order leave the protocol object, with the events sent and the pending
    transactions, as the one delivery of all the bytes leaves it, and they
    leave the same bytes in the direction's buffer. *)
Theorem Parse_segments (http : Http) (tcptuple : common_TcpTuple) (dir : Dir)
    (private : option httpPrivateData) (pkts : list Packet) :
  Data (default {| Data0 := None; Data1 := None |} private) dir = None ->
  pkts <> [] ->
  Forall (fun pkt => Payload pkt <> []) pkts ->
  len (Payload (joined pkts)) <= TCP_MAX_DATA_IN_STREAM ->
  len (Payload (joined pkts)) <= MaxInt - 2 ->
  (forall k, (0 < k < length pkts)%nat ->
             waiting dir (Parse http (joined (take k pkts)) tcptuple dir private) = true) ->
  snd (Parse http (joined pkts) tcptuple dir private) <> Ok None ->
  fst (feed http tcptuple dir private pkts)
  = fst (Parse http (joined pkts) tcptuple dir private)
  /\ buffer_of (feed http tcptuple dir private pkts) dir
     = buffer_of (Parse http (joined pkts) tcptuple dir private) dir.
Proof.
  intros Hnone Hne Hall Hmax Hlen Hwait HnP.
  destruct (feed_joined http tcptuple dir private pkts Hnone Hne Hall Hmax Hlen Hwait HnP)
    as [Hfst Hsnd].
  split; [exact Hfst|]. unfold buffer_of.
  destruct (snd (feed http tcptuple dir private pkts)) as [[pX|]| |],
           (snd (Parse http (joined pkts) tcptuple dir private)) as [[pY|]| |];
    try contradiction; try reflexivity.
  destruct Hsnd as [_ Hsnd].
  destruct (Data pX dir) as [sX|], (Data pY dir) as [sY|]; try contradiction;
    [|reflexivity].
  cbn. f_equal.
  destruct (Stream.message sX) as [mX|], (Stream.message sY) as [mY|];
    try contradiction.
  - destruct Hsnd as [Hw _]. exact (wait_sim_data _ _ _ _ Hw).
  - rewrite Hsnd. reflexivity.
Qed.


(** ** Further properties of the code *)

(** X2.  The loop of [messageParser] ends.  A turn that goes round again
    has moved the offset forward, so on a stream in order whose buffer is
    within the bound, more turns than there are unread bytes are never
    needed: with that many the loop is not cut off, and with more it gives
    the same outcome. *)
Theorem messageParser_loop_terminates (http : Http) (s : Stream.HttpStream)
    (m : Msg.HttpMessage) (fuel fuel' : nat) :
  stream_ok s -> len (Stream.data s) <= MaxInt - 2 ->
  len (Stream.data s) - Stream.parseOffset s < Z.of_nat fuel -> (fuel <= fuel')%nat ->
  messageParser_loop fuel http s m <> OutOfFuel
  /\ messageParser_loop fuel' http s m = messageParser_loop fuel http s m.
Proof.
  intros Hok Hlen Hfuel Hle.
  destruct (messageParser_loop_returns fuel http s m Hok Hlen Hfuel) as [Hnf _].
  split; [exact Hnf|]. apply messageParser_loop_fuel; assumption.
Qed.

(** *** Scrubbing writes stars only *)

Lemma only_stars_refl (msg : bytes) : only_stars msg msg.
Proof. split; [reflexivity|]. intros j. left. reflexivity. Qed.

Lemma only_stars_trans (a b c : bytes) : only_stars a b -> only_stars b c -> only_stars a c.
Proof.
  intros [Hl1 H1] [Hl2 H2]. split; [congruence|]. intros j.
  destruct (H2 j) as [Hj | Hj]; [|right; exact Hj]. rewrite Hj. apply H1.
Qed.

Lemma store_only_stars (msg msg' : bytes) (i : Z) :
  store msg i STAR = Ok msg' -> only_stars msg msg'.
Proof.
  unfold store. destruct (_ && _) eqn:Hb; [|discriminate]. intros [= <-].
  apply andb_true_iff in Hb as [H1 H2]. apply Z.leb_le in H1. apply Z.ltb_lt in H2.
  split; [apply length_insert|]. intros j.
  destruct (decide (j = Z.to_nat i)) as [-> | Hne].
  - right. apply list_lookup_insert_eq. unfold len in H2. lia.
  - left. apply list_lookup_insert_ne. congruence.
Qed.

Lemma star_loop_only_stars (n : nat) (i : Z) (msg msg' : bytes) :
  star_loop n i msg = Ok msg' -> only_stars msg msg'.
Proof.
  revert i msg. induction n as [|n IH]; intros i msg Hrun; cbn in Hrun.
  - injection Hrun as <-. apply only_stars_refl.
  - unbind. apply IH in Hrun. apply store_only_stars in E.
    eapply only_stars_trans; eassumption.
Qed.

Lemma censorAuthorization_only_stars (m m' : Msg.HttpMessage) (msg msg' : bytes) :
  censorAuthorization m msg = Ok (m', msg') ->
  only_stars msg msg'
  /\ (forall k, k <> "authorization"%string -> Msg.Headers m' !! k = Msg.Headers m !! k).
Proof.
  unfold censorAuthorization, stars. intros Hrun. unbind; subst;
    try (apply star_loop_only_stars in E1);
    (split; [first [assumption | apply only_stars_refl]|]);
    intros k Hk; cbn; rewrite ?lookup_insert_ne by congruence; reflexivity.
Qed.

Lemma censorKeyword_only_stars (m : Msg.HttpMessage) (msg msg' : bytes) (keyword : string) :
  censorKeyword m msg keyword = Ok msg' -> only_stars msg msg'.
Proof.
  unfold censorKeyword, stars. intros Hrun. unbind; subst;
    try (apply star_loop_only_stars in Hrun); first [assumption | apply only_stars_refl].
Qed.

Lemma censorKeywords_only_stars (m : Msg.HttpMessage) (keywords : list string)
    (msg msg' : bytes) :
  censorKeywords m msg keywords = Ok msg' -> only_stars msg msg'.
Proof.
  revert msg. induction keywords as [|keyword rest IH]; intros msg Hrun; cbn in Hrun.
  - injection Hrun as <-. apply only_stars_refl.
  - unbind. apply IH in Hrun. apply censorKeyword_only_stars in E.
    eapply only_stars_trans; eassumption.
Qed.

(** X3.  Scrubbing overwrites and nothing else.  When [censorPasswords]
    returns, the bytes have the length they had and every byte is the byte it
    was or a star; the header map is the one it was but for the entry of
    [authorization]; and a response is not touched at all. *)
Theorem censorPasswords_only_stars (m m' : Msg.HttpMessage) (msg msg' : bytes) :
  censorPasswords m msg = Ok (m', msg') ->
  only_stars msg msg'
  /\ (forall k, k <> "authorization"%string -> Msg.Headers m' !! k = Msg.Headers m !! k)
  /\ (Msg.IsRequest m = false -> m' = m /\ msg' = msg).
Proof.
  unfold censorPasswords, censorBody. intros Hrun.
  destruct (Msg.IsRequest m).
  2:{ injection Hrun as <- <-. split; [apply only_stars_refl|]. auto. }
  destruct (censorAuthorization m msg) as [[m1 msg1]| |] eqn:Hauth; cbn [rbind] in Hrun;
    try discriminate.
  apply censorAuthorization_only_stars in Hauth as [Hs Hh].
  assert (Hbody : only_stars msg1 msg' /\ m' = m1).
  { unbind; subst; try (apply censorKeywords_only_stars in E);
      (split; [first [assumption | apply only_stars_refl]|reflexivity]). }
  destruct Hbody as [Hb ->].
  split; [eapply only_stars_trans; eassumption|]. split; [exact Hh|discriminate].
Qed.


(** *** Header lines *)

(** X4.  A header line.  For bytes with a colon and a CRLF somewhere behind
    it, [parseHeader] reads one header and does not panic: the name is the
    lower-cased text before the first colon, the value the text from there
    to the first CRLF behind it without blanks and tabs at its ends, and the
    next header starts right behind that CRLF.  A header that is sent on is
    entered in the header map, joined to the value the map has for the name
    with a comma and a blank; one that is not sent on leaves the map as it
    is.  [Content-Length] sets the length to what [Atoi] makes of the value
    and marks it as given. *)
Theorem parseHeader_records (http : Http) (m : Msg.HttpMessage) (data : bytes) (i q : nat) :
  find_sub data (B ":") = Some i ->
  find_sub (drop (S i) data) CRLF = Some q ->
  len data <= MaxInt - 2 ->
  let name := ToLower (S_ (take i data)) in
  let val := S_ (Trim (take q (drop (S i) data)) (String SP (String HT EmptyString))) in
  let sent := Send_headers http
              && (Send_all_headers http
                  || bool_decide (is_Some (Headers_whitelist http !! name))) in
  exists m',
    parseHeader http m data = Ok (m', (true, true, Z.of_nat (i + q + 3)))
    /\ Msg.Headers m'
       = (if sent
          then <[name := match Msg.Headers m !! name with
                         | Some old => (old +:+ ", " +:+ val)%string
                         | None => val
                         end]> (Msg.Headers m)
          else Msg.Headers m)
    /\ (name = "content-length"%string ->
        Msg.hasContentLength m' = true /\ Msg.ContentLength m' = Atoi val).
Proof.
  intros Hi Hq Hlen name val sent.
  rewrite (parseHeader_never_folds http m data i q Hi Hq Hlen).
  pose proof (find_sub_Some _ _ _ Hi) as [_ Hib]. cbn [length B list_ascii_of_string] in Hib.
  pose proof (find_sub_Some _ _ _ Hq) as [_ Hqb].
  rewrite length_drop in Hqb. cbn [length CRLF] in Hqb.
  unfold store_header, slice_to. unfold len in Hlen.
  rewrite slice_Ok by (unfold len; lia). cbn [rbind].
  rewrite (int_small (Z.of_nat i + 1)) by (unfold MinInt, MaxInt in *; lia).
  rewrite slice_Ok by (unfold len; lia). cbn [rbind].
  rewrite (int_small (Z.of_nat (S i + q) + 2)) by (unfold MinInt, MaxInt in *; lia).
  replace (Z.to_nat (Z.of_nat i - 0)) with i by lia.
  change (Z.to_nat 0) with 0%nat. rewrite drop_0.
  replace (Z.to_nat (Z.of_nat (S i + q) - (Z.of_nat i + 1))) with q by lia.
  replace (Z.to_nat (Z.of_nat i + 1)) with (S i) by lia.
  replace (Z.of_nat (S i + q) + 2) with (Z.of_nat (i + q + 3)) by lia.
  fold name. fold val.
  set (m0 := if (name =? "content-length")%string then _ else _).
  set (m1 := if (0 <? _) && _ then Msg.set_Real_ip val m0 else m0).
  assert (Hh : Msg.Headers m1 = Msg.Headers m)
    by (subst m1 m0; repeat case_match; reflexivity).
  assert (Hc : name = "content-length"%string ->
               Msg.hasContentLength m1 = true /\ Msg.ContentLength m1 = Atoi val).
  { intros Hn. apply (proj2 (String.eqb_eq _ _)) in Hn. subst m1 m0. rewrite Hn.
    case_match; split; reflexivity. }
  clearbody m1. clear m0. unfold sent.
  destruct (Send_headers http); cbn [andb]; [|exists m1; auto].
  destruct (Send_all_headers http); cbn [negb andb orb].
  - rewrite <- Hh. destruct (Msg.Headers m1 !! name); eexists; (split; [reflexivity|]);
      cbn; auto.
  - destruct (bool_decide _); cbn [negb]; [|exists m1; auto].
    rewrite <- Hh. destruct (Msg.Headers m1 !! name); eexists; (split; [reflexivity|]);
      cbn; auto.
Qed.


(** *** Transactions *)

Ltac http_cbn :=
  cbn [transactionsMap results warnings Send_request Send_response Send_headers
       Send_all_headers Headers_whitelist Split_cookie Real_ip_header
       set_transactionsMap set_results Warn put fst snd].

Ltac trans_cbn :=
  cbn [Trans.Type_ Trans.tuple Trans.Src Trans.Dst Trans.Real_ip Trans.ResponseTime Trans.Ts
       Trans.JsTs Trans.ts Trans.cmdline Trans.Method Trans.RequestUri Trans.Http
       Trans.Request_raw Trans.Response_raw Trans.timer
       Trans.set_ts Trans.set_Ts Trans.set_JsTs Trans.set_Src Trans.set_Dst Trans.set_Real_ip
       Trans.set_ResponseTime Trans.set_Method Trans.set_RequestUri Trans.set_Http
       Trans.set_Request_raw Trans.set_Response_raw Trans.set_timer new_HttpTransaction].

Tactic Notation "http_cbn" "in" hyp(H) :=
  cbn [transactionsMap results warnings Send_request Send_response Send_headers
       Send_all_headers Headers_whitelist Split_cookie Real_ip_header
       set_transactionsMap set_results Warn put fst snd] in H.

Tactic Notation "trans_cbn" "in" hyp(H) :=
  cbn [Trans.Type_ Trans.tuple Trans.Src Trans.Dst Trans.Real_ip Trans.ResponseTime Trans.Ts
       Trans.JsTs Trans.ts Trans.cmdline Trans.Method Trans.RequestUri Trans.Http
       Trans.Request_raw Trans.Response_raw Trans.timer
       Trans.set_ts Trans.set_Ts Trans.set_JsTs Trans.set_Src Trans.set_Dst Trans.set_Real_ip
       Trans.set_ResponseTime Trans.set_Method Trans.set_RequestUri Trans.set_Http
       Trans.set_Request_raw Trans.set_Response_raw Trans.set_timer new_HttpTransaction] in H.

(** What a request that went through leaves in the table. *)
Lemma receivedHttpRequest_stores (http http1 : Http) (msg : Msg.HttpMessage) :
  receivedHttpRequest http msg = (http1, Ok tt) ->
  let key := Hashable (Msg.TcpTuple msg) in
  exists trans,
    transactionsMap http1 !! key = Some trans
    /\ (forall k, k <> key -> transactionsMap http1 !! k = transactionsMap http !! k)
    /\ Trans.Method trans = Msg.Method msg
    /\ Trans.RequestUri trans = Msg.RequestUri msg
    /\ Trans.ts trans = Msg.Ts msg
    /\ Trans.Real_ip trans = Msg.Real_ip msg
    /\ (exists h, Trans.Http trans = Some h /\ h !! "code" = None)
    /\ Trans.tuple trans = match transactionsMap http !! key with
                           | Some old => Trans.tuple old
                           | None => Msg.TcpTuple msg
                           end
    /\ results http1 = results http
    /\ warnings http1 = match transactionsMap http !! key with
                        | Some old =>
                            if has_request old
                            then warnings http
                                 ++ ["Two requests without a response. Dropping old request"%string]
                            else warnings http
                        | None => warnings http
                        end.
Proof.
  intros Hrun key. unfold receivedHttpRequest in Hrun. fold key in Hrun. cbv zeta in Hrun.
  destruct (transactionsMap http !! key) as [old|] eqn:Hold.
  - set (http0 := if negb _ then Warn _ http else http) in Hrun.
    assert (Hmap : transactionsMap http0 = transactionsMap http)
      by (unfold http0; destruct (negb _); reflexivity).
    assert (Hres : results http0 = results http)
      by (unfold http0; destruct (negb _); reflexivity).
    assert (Hwarn : warnings http0
                    = if has_request old
                      then warnings http
                           ++ ["Two requests without a response. Dropping old request"%string]
                      else warnings http)
      by (unfold http0, has_request; destruct (negb _); reflexivity).
    clearbody http0.
    destruct (Msg.CmdlineTuple msg) as [cmdline|]; [|discriminate].
    unfold try in Hrun. destruct (Msg.Direction msg =? dir_code TcpDirectionReverse).
    all: repeat match type of Hrun with
           | context [match (if ?b then _ else _) with _ => _ end] => destruct b
           | context [match rbind ?r _ with _ => _ end] => destruct r; cbn [rbind] in Hrun
           end; try discriminate;
      injection Hrun as <-; eexists; http_cbn; trans_cbn;
      (split; [apply lookup_insert_eq|]);
      (split; [intros k Hk; rewrite lookup_insert_ne by congruence; rewrite Hmap; reflexivity|]);
      repeat (split; [reflexivity|]);
      (split; [eexists; split; [reflexivity|];
               rewrite ?lookup_insert_ne by discriminate; apply lookup_empty|]);
      repeat (split; [first [reflexivity|assumption]|]); assumption.
  - set (http0 := put key _ http) in Hrun.
    assert (Hmap : forall k, k <> key -> transactionsMap http0 !! k = transactionsMap http !! k)
      by (intros k Hk; subst http0; http_cbn; apply lookup_insert_ne; congruence).
    assert (Hres : results http0 = results http) by reflexivity.
    assert (Hwarn : warnings http0 = warnings http) by reflexivity.
    clearbody http0.
    destruct (Msg.CmdlineTuple msg) as [cmdline|]; [|discriminate].
    unfold try in Hrun. destruct (Msg.Direction msg =? dir_code TcpDirectionReverse).
    all: repeat match type of Hrun with
           | context [match (if ?b then _ else _) with _ => _ end] => destruct b
           | context [match rbind ?r _ with _ => _ end] => destruct r; cbn [rbind] in Hrun
           end; try discriminate;
      injection Hrun as <-; eexists; http_cbn; trans_cbn;
      (split; [apply lookup_insert_eq|]);
      (split; [intros k Hk; rewrite lookup_insert_ne by congruence; apply Hmap, Hk|]);
      repeat (split; [reflexivity|]);
      (split; [eexists; split; [reflexivity|];
               rewrite ?lookup_insert_ne by discriminate; apply lookup_empty|]);
      repeat (split; [first [reflexivity|assumption]|]); assumption.
Qed.


(** X5.  A request and its response.  On a table in order, a request that
    went through and then a response on the same flow that went through
    send one event: it has the method and the path of the request, "OK" for
    a status code under 400 and "ERROR" otherwise, and the time between the
    two messages in milliseconds; the flow has no entry in the table
    afterwards, and the other flows have the entries they had. *)
Theorem request_then_response (http http1 http2 : Http) (req resp : Msg.HttpMessage)
    (sent : list MapStr) :
  table_ok http -> results http = Some sent ->
  Hashable (Msg.TcpTuple resp) = Hashable (Msg.TcpTuple req) ->
  receivedHttpRequest http req = (http1, Ok tt) ->
  receivedHttpResponse http1 resp = (http2, Ok tt) ->
  exists event : MapStr,
    results http2 = Some (sent ++ [event])
    /\ event !! "type" = Some (VString "http")
    /\ event !! "method" = Some (VString (Msg.Method req))
    /\ event !! "path" = Some (VString (Msg.RequestUri req))
    /\ event !! "status"
       = Some (VString (if Msg.StatusCode resp <? 400 then OK_STATUS else ERROR_STATUS))
    /\ event !! "responsetime"
       = Some (VInt32 (int32 (Z.quot (time_Sub (Msg.Ts resp) (Msg.Ts req)) 1000000)))
    /\ transactionsMap http2 !! Hashable (Msg.TcpTuple req) = None
    /\ (forall k, k <> Hashable (Msg.TcpTuple req) ->
                  transactionsMap http2 !! k = transactionsMap http !! k).
Proof.
  intros Htable Hsent Hkey Hreq Hresp.
  destruct (receivedHttpRequest_stores http http1 req Hreq)
    as (trans & Hlook & Hother & Hmeth & Huri & Hts & _ & (h & Hh & Hcode) & Htuple & Hres & _).
  assert (Htk : Hashable (Trans.tuple trans) = Hashable (Msg.TcpTuple req)).
  { rewrite Htuple. destruct (transactionsMap http !! _) as [old|] eqn:Hold; [|reflexivity].
    apply (Htable _ _ Hold). }
  unfold receivedHttpResponse in Hresp. cbv zeta in Hresp.
  rewrite Hkey, Hlook, Hh in Hresp. unfold try in Hresp.
  set (response := <["content_length" := _]> _) in Hresp.
  assert (Hc0 : response !! "code" = Some (VUint16 (Msg.StatusCode resp))).
  { unfold response. rewrite lookup_insert_ne by discriminate. apply lookup_insert_eq. }
  set (resp_r := if Send_headers http1 then _ else Ok response) in Hresp.
  assert (Hc1 : forall r, resp_r = Ok r -> r !! "code" = Some (VUint16 (Msg.StatusCode resp))).
  { intros r. unfold resp_r. destruct (Send_headers http1).
    - destruct (record_headers _ _ _); cbn [rbind]; try discriminate.
      intros [= <-]. rewrite lookup_insert_ne by discriminate. exact Hc0.
    - intros [= <-]. exact Hc0. }
  clearbody resp_r. destruct resp_r as [r| |]; try discriminate.
  specialize (Hc1 r eq_refl). clearbody response.
  trans_cbn in Hresp. rewrite Hts in Hresp.
  set (t1 := Trans.set_ResponseTime _ _) in Hresp.
  set (ra := if Send_response http1 then _ else Ok t1) in Hresp.
  assert (Ha : forall a, ra = Ok a ->
                 Trans.Method a = Msg.Method req
                 /\ Trans.RequestUri a = Msg.RequestUri req
                 /\ Trans.ResponseTime a
                    = int32 (Z.quot (time_Sub (Msg.Ts resp) (Msg.Ts req)) 1000000)
                 /\ Trans.Http a = Some (r ∪ h)
                 /\ Trans.tuple a = Trans.tuple trans).
  { intros a. unfold ra.
    destruct (Send_response http1);
      [destruct (cutMessageBody resp); cbn [rbind]; try discriminate|];
      intros [= <-]; unfold t1; trans_cbn; auto. }
  clearbody ra. destruct ra as [a| |]; try discriminate.
  destruct (Ha a eq_refl) as (Hm & Hu & Hrt & Hhttp & Htup). clear Ha. clearbody t1.
  unfold PublishTransaction in Hresp. http_cbn in Hresp. rewrite Hres, Hsent, Hhttp in Hresp.
  cbn [mbind option_bind] in Hresp. rewrite (lookup_union_Some_l _ _ _ _ Hc1) in Hresp.
  injection Hresp as <-. eexists. http_cbn.
  split; [reflexivity|].
  rewrite Hm, Hu, Hrt, Htup, Htk.
  repeat match goal with
         | |- context [if ?b then _ else _] => destruct b
         end;
    repeat (split; [rewrite ?lookup_insert_ne by discriminate; apply lookup_insert_eq|]);
    (split; [apply lookup_delete_eq|]);
    intros k Hk; rewrite lookup_delete_ne, lookup_insert_ne by congruence; apply Hother, Hk.
Qed.



Lemma table_ok_put (http : Http) (key : HashableTcpTuple) (trans : Trans.HttpTransaction) :
  table_ok http -> Hashable (Trans.tuple trans) = key -> table_ok (put key trans http).
Proof.
  intros Hok Hkey k t. unfold put. http_cbn.
  destruct (decide (k = key)) as [-> | Hne].
  - rewrite lookup_insert_eq. intros [= <-]. exact Hkey.
  - rewrite lookup_insert_ne by congruence. apply Hok.
Qed.

Lemma table_ok_same (http http' : Http) :
  transactionsMap http' = transactionsMap http -> table_ok http -> table_ok http'.
Proof. intros Hmap Hok k t. rewrite Hmap. apply Hok. Qed.

Lemma table_ok_delete (http : Http) (key : HashableTcpTuple) :
  table_ok http -> table_ok (set_transactionsMap (delete key (transactionsMap http)) http).
Proof.
  intros Hok k t. http_cbn. intros Hk. apply lookup_delete_Some in Hk as [_ Hk].
  apply Hok, Hk.
Qed.

Lemma table_ok_empty (http : Http) : transactionsMap http = ∅ -> table_ok http.
Proof. intros Hmap k t. rewrite Hmap, lookup_empty. discriminate. Qed.

Lemma PublishTransaction_table (http : Http) (t : Trans.HttpTransaction) :
  transactionsMap (fst (PublishTransaction http t)) = transactionsMap http.
Proof. unfold PublishTransaction. repeat case_match; reflexivity. Qed.

(** X7.  The table stays in order.  Every transaction is filed under the
    hash of its own tuple, which is where [receivedHttpResponse] and
    [expireTransaction] delete it: a request, a response and the expiry of a
    transaction keep the table so, also when they end in a panic. *)
Theorem table_ok_kept (http : Http) (msg : Msg.HttpMessage) (trans : Trans.HttpTransaction) :
  table_ok http ->
  table_ok (fst (receivedHttpRequest http msg))
  /\ table_ok (fst (receivedHttpResponse http msg))
  /\ table_ok (expireTransaction http trans).
Proof.
  intros Hok. split; [|split].
  - unfold receivedHttpRequest. cbv zeta.
    set (key := Hashable (Msg.TcpTuple msg)).
    destruct (transactionsMap http !! key) as [old|] eqn:Hold.
    + pose proof (Hok _ _ Hold) as Hkey.
      set (http0 := if negb _ then Warn _ http else http).
      assert (Hok0 : table_ok http0)
        by (unfold http0; destruct (negb _); [apply (table_ok_same http)|]; auto).
      clearbody http0. unfold try.
      destruct (Msg.Direction msg =? dir_code TcpDirectionReverse).
      all: repeat case_match; cbn [fst]; apply table_ok_put; auto;
        unbind; subst; trans_cbn; auto.
    + set (http0 := put key _ http).
      assert (Hok0 : table_ok http0) by (apply table_ok_put; auto).
      clearbody http0. unfold try.
      destruct (Msg.Direction msg =? dir_code TcpDirectionReverse).
      all: repeat case_match; cbn [fst]; apply table_ok_put; auto;
        unbind; subst; trans_cbn; auto.
  - unfold receivedHttpResponse. cbv zeta.
    set (key := Hashable (Msg.TcpTuple msg)).
    destruct (transactionsMap http !! key) as [t|] eqn:Ht;
      [|apply (table_ok_same http); auto].
    pose proof (Hok _ _ Ht) as Hkey.
    destruct (Trans.Http t) as [h|]; [|apply (table_ok_same http); auto].
    unfold try.
    destruct (if Send_headers http then _ else _) as [r| |]; cbn [fst]; try exact Hok.
    destruct (if Send_response http then _ else _) as [a| |] eqn:Ha; cbn [fst];
      try (apply table_ok_put; auto).
    assert (Hta : Hashable (Trans.tuple a) = key).
    { destruct (Send_response http);
        [destruct (cutMessageBody msg); cbn [rbind] in Ha; try discriminate|];
        injection Ha as <-; exact Hkey. }
    pose proof (PublishTransaction_table (put key a http) a) as Hmap.
    destruct (PublishTransaction (put key a http) a) as [h' [u| |]]; cbn [fst] in *.
    + apply table_ok_delete. apply (table_ok_same (put key a http)); [exact Hmap|].
      apply table_ok_put; auto.
    + apply (table_ok_same (put key a http)); [exact Hmap|]. apply table_ok_put; auto.
    + apply (table_ok_same (put key a http)); [exact Hmap|]. apply table_ok_put; auto.
  - apply table_ok_delete, Hok.
Qed.

(** X8.  A response after the expiry.  Once the timer of a flow's
    transaction has run, a response on the flow finds nothing: it is
    ignored with a warning, and neither the events sent nor the table
    change. *)
Theorem expired_response_ignored (http : Http) (msg : Msg.HttpMessage)
    (trans : Trans.HttpTransaction) :
  table_ok http ->
  transactionsMap http !! Hashable (Msg.TcpTuple msg) = Some trans ->
  let http' := expireTransaction http trans in
  transactionsMap http' !! Hashable (Msg.TcpTuple msg) = None
  /\ receivedHttpResponse http' msg
     = (Warn "Response from unknown transaction. Ignoring" http', Ok tt).
Proof.
  intros Hok Hlook http'.
  assert (Hnone : transactionsMap http' !! Hashable (Msg.TcpTuple msg) = None).
  { unfold http', expireTransaction. http_cbn. rewrite (Hok _ _ Hlook).
    apply lookup_delete_eq. }
  split; [exact Hnone|]. unfold receivedHttpResponse. cbv zeta. rewrite Hnone. reflexivity.
Qed.


(** *** Status lines and first lines *)

Lemma find_last_sub_Some (s sep : bytes) (k : nat) :
  find_last_sub s sep = Some k -> HasPrefix (drop k s) sep = true.
Proof.
  revert k. induction s as [|a s IH]; intros k; cbn [find_last_sub].
  - destruct (HasPrefix [] sep) eqn:Hp; [|discriminate]. intros [= <-]. exact Hp.
  - destruct (find_last_sub s sep) as [j|].
    + intros [= <-]. cbn. apply IH. reflexivity.
    + destruct (HasPrefix (a :: s) sep) eqn:Hp; [|discriminate]. intros [= <-]. exact Hp.
Qed.

(** X9.  The status of a response.  [parseResponseStatus] never panics.
    Without a blank it reports an error; with one, the status code is what
    [Atoi] makes of the text before the first blank, cut to 16 bits, and the
    phrase is the text behind the last blank, so of a phrase of several
    words the last one.  The second error of the source, for a last blank
    that is not found, does not occur. *)
Theorem parseResponseStatus_total (s : bytes) :
  len s <= MaxInt - 1 ->
  match find_sub s (B " ") with
  | None => parseResponseStatus s = Ok (0, EmptyString, true)
  | Some n =>
      exists k,
        find_last_sub s (B " ") = Some k /\ (n <= k < length s)%nat
        /\ parseResponseStatus s
           = Ok (uint16 (Atoi (S_ (take n s))), S_ (drop (S k) s), false)
  end.
Proof.
  intros Hlen. unfold parseResponseStatus.
  destruct (find_sub s (B " ")) as [n|] eqn:Hn.
  - rewrite (Index_find _ _ _ Hn). replace (Z.of_nat n =? -1) with false by cmp.
    pose proof (find_sub_Some _ _ _ Hn) as [_ Hb]. cbn [length B list_ascii_of_string] in Hb.
    rewrite slice_Ok by (unfold len; lia). cbn [rbind].
    destruct (find_last_sub_of_find_sub _ _ _ Hn) as (k & Hk & Hkb).
    cbn [length B list_ascii_of_string] in Hkb.
    exists k. split; [exact Hk|].
    assert (Hnk : (n <= k)%nat).
    { destruct (le_lt_dec n k) as [Hle | Hlt]; [exact Hle|].
      pose proof (find_sub_first _ _ _ _ Hn Hlt) as Hno.
      pose proof (find_last_sub_Some _ _ _ Hk) as Hyes. congruence. }
    split; [lia|].
    unfold LastIndex. rewrite Hk. cbn [pos_or_minus1].
    replace (Z.of_nat k =? -1) with false by cmp.
    unfold len in Hlen. unwrap.
    rewrite slice_from_Ok by (unfold len; lia). cbn [rbind].
    rewrite drop_0. replace (Z.to_nat (Z.of_nat n - 0)) with n by lia.
    replace (Z.to_nat (Z.of_nat k + 1)) with (S k) by lia. reflexivity.
  - rewrite (Index_none _ _ Hn). reflexivity.
Qed.

(** X10.  A first line too short.  When the first segment of a direction
    has its first CRLF before the ninth byte, the first line cannot be told
    apart as a request or a response: [Parse] gives the stream of the
    direction up, sends nothing and leaves the protocol object as it is. *)
Theorem short_first_line_dropped (http : Http) (pkt : Packet) (tcptuple : common_TcpTuple)
    (dir : Dir) (private : option httpPrivateData) (i : nat) :
  let priv := default {| Data0 := None; Data1 := None |} private in
  Data priv dir = None ->
  find_sub (Payload pkt) CRLF = Some i -> (i < 8)%nat ->
  len (Payload pkt) <= MaxInt - 2 ->
  Parse http pkt tcptuple dir private = (http, Ok (Some (set_Data dir None priv))).
Proof.
  intros priv Hnone Hi Hshort Hlen.
  rewrite (Parse_first http pkt) by exact Hnone. fold priv.
  pose proof (find_sub_Some _ _ _ Hi) as [_ Hb]. cbn [length CRLF] in Hb.
  unfold parse_stream.
  rewrite (messageParser_run http (new_HttpStream tcptuple pkt)
             (new_HttpMessage (pkt_Ts pkt)) eq_refl).
  rewrite run_unfold;
    [|split; cbn; [discriminate|lia]|exact Hlen|cbn; unfold len; lia].
  unfold parser_step. cbn [new_HttpStream Stream.parseState].
  unfold state_start. cbn [new_HttpStream Stream.data Stream.parseOffset].
  rewrite slice_from_Ok by (unfold len; lia). cbn [rbind].
  change (Z.to_nat 0) with 0%nat. rewrite drop_0, (Index_find _ _ _ Hi).
  replace (Z.of_nat i =? -1) with false by cmp.
  rewrite slice_Ok by (unfold len; lia). cbn [rbind].
  replace (len (take (Z.to_nat (Z.of_nat i - 0)) (drop (Z.to_nat 0) (Payload pkt))) <? 8)
    with true.
  2:{ symmetry. apply Z.ltb_lt. unfold len. rewrite length_take. lia. }
  cbn [rbind negb]. rewrite set_Data_twice. reflexivity.
Qed.

(** *** Without headers *)

Lemma store_header_headers_off (http : Http) (m m' : Msg.HttpMessage) (data : bytes)
    (i p : Z) x :
  Send_headers http = false ->
  store_header http m data i p = Ok (m', x) -> Msg.Headers m' = Msg.Headers m.
Proof.
  intros Hoff. unfold store_header. rewrite Hoff. intros Hrun.
  unbind. subst. repeat case_match; reflexivity.
Qed.

Lemma parseHeader_loop_headers_off (fuel : nat) (http : Http) (m m' : Msg.HttpMessage)
    (data : bytes) (i p : Z) x :
  Send_headers http = false ->
  parseHeader_loop fuel http m data i p = Ok (m', x) -> Msg.Headers m' = Msg.Headers m.
Proof.
  intros Hoff. revert p. induction fuel as [|fuel IH]; intros p; cbn [parseHeader_loop].
  - destruct (negb _); [intros [= <- _]; reflexivity|discriminate].
  - destruct (negb _); [intros [= <- _]; reflexivity|].
    destruct (slice_from data p) as [rest| |]; cbn [rbind]; try discriminate.
    destruct (Index rest CRLF =? -1); [intros [= <- _]; reflexivity|].
    destruct (if _ <? len data then _ else _) as [folded| |]; cbn [rbind];
      try discriminate.
    destruct folded; [apply IH|apply store_header_headers_off, Hoff].
Qed.

Ltac unbind_all :=
  repeat match goal with
         | H : rbind ?r _ = Ok _ |- _ =>
             destruct r eqn:?; cbn [rbind] in H; [|discriminate H|discriminate H]
         | H : (if ?b then _ else _) = Ok _ |- _ => destruct b eqn:?
         | H : match ?x with _ => _ end = Ok _ |- _ => destruct x eqn:?
         | H : Ok _ = Ok _ |- _ => injection H as H
         | H : (_, _) = (_, _) |- _ => injection H as ? ?
         | H : inl _ = inl _ |- _ => injection H as H
         | H : inr _ = inr _ |- _ => injection H as H
         | H : Continue _ _ = Continue _ _ |- _ => injection H as ? ?
         | H : Return _ _ _ _ = Return _ _ _ _ |- _ => injection H as ? ? ? ?
         | H : Continue _ _ = Return _ _ _ _ |- _ => discriminate H
         | H : Return _ _ _ _ = Continue _ _ |- _ => discriminate H
         end.

Lemma first_line_headers (fline : bytes) (m : Msg.HttpMessage) r :
  first_line fline m = Ok r ->
  match r with
  | inl (m', _) => Msg.Headers m' = Msg.Headers m
  | inr m' => Msg.Headers m' = Msg.Headers m
  end.
Proof. unfold first_line. intros Hrun. unbind_all; subst; reflexivity. Qed.

Lemma set_version_headers (version : bytes) (m m' : Msg.HttpMessage) :
  set_version version m = Ok m' -> Msg.Headers m' = Msg.Headers m.
Proof. unfold set_version. intros Hrun. unbind_all; subst; reflexivity. Qed.

Lemma parser_step_headers_off (http : Http) (s : Stream.HttpStream) (m : Msg.HttpMessage)
    (st : step) :
  Send_headers http = false ->
  parser_step http s m = Ok st ->
  match st with
  | Continue _ m' => Msg.Headers m' = Msg.Headers m
  | Return _ m' _ _ => Msg.Headers m' = Msg.Headers m
  end.
Proof.
  intros Hoff. unfold parser_step. destruct (Stream.parseState s).
  - unfold state_start. cbv zeta. intros Hrun.
    destruct (slice_from _ _) as [rest| |]; cbn [rbind] in Hrun; try discriminate.
    destruct (Index rest CRLF =? -1); [injection Hrun as <-; reflexivity|].
    destruct (slice _ _ _) as [fline| |]; cbn [rbind] in Hrun; try discriminate.
    destruct (len fline <? 8); [injection Hrun as <-; reflexivity|].
    destruct (first_line fline _) as [r| |] eqn:Efl; cbn [rbind] in Hrun; try discriminate.
    apply first_line_headers in Efl.
    destruct r as [[m1 version]|m1]; [|injection Hrun as <-; exact Efl].
    cbn [Msg.Headers Msg.set_start] in Efl.
    destruct (set_version version m1) as [m2| |] eqn:Esv; cbn [rbind] in Hrun;
      try discriminate.
    apply set_version_headers in Esv. injection Hrun as <-.
    cbn [Msg.Headers Msg.set_headerOffset]. rewrite Esv. exact Efl.
  - intros [= <-]. reflexivity.
  - unfold state_headers. cbv zeta.
    destruct (if 2 <=? _ then _ else _) as [eoh| |]; cbn [rbind]; try discriminate.
    destruct eoh.
    + intros Hrun. unbind_all; subst; reflexivity.
    + destruct (slice_from _ _) as [rest| |]; cbn [rbind]; try discriminate.
      unfold parseHeader.
      destruct (Index rest (B ":") =? -1).
      * cbn. intros [= <-]. reflexivity.
      * destruct (parseHeader_loop _ http m rest _ _) as [[m1 [[ok c] off]]| |] eqn:Eh;
          cbn [rbind]; try discriminate.
        apply (parseHeader_loop_headers_off _ _ _ _ _ _ _ _ Hoff) in Eh.
        intros Hrun. unbind_all; subst; exact Eh.
  - unfold state_body. cbv zeta. intros Hrun. unbind_all; subst; reflexivity.
  - unfold state_body_chunked_start. cbv zeta. intros Hrun. unbind_all; subst; reflexivity.
  - unfold state_body_chunked. cbv zeta. intros Hrun. unbind_all; subst; reflexivity.
  - unfold state_body_chunked_wait_final_crlf. intros Hrun. unbind_all; subst; reflexivity.
Qed.

Lemma messageParser_loop_headers_off (fuel : nat) (http : Http) (s s' : Stream.HttpStream)
    (m m' : Msg.HttpMessage) oc :
  Send_headers http = false ->
  messageParser_loop fuel http s m = Ok (s', m', oc) -> Msg.Headers m' = Msg.Headers m.
Proof.
  intros Hoff. revert s m. induction fuel as [|fuel IH]; intros s m; cbn [messageParser_loop].
  - destruct (negb _); [intros [= _ <- _]; reflexivity|discriminate].
  - destruct (negb _); [intros [= _ <- _]; reflexivity|].
    destruct (parser_step http s m) as [st| |] eqn:Est; cbn [rbind]; try discriminate.
    apply (parser_step_headers_off _ _ _ _ Hoff) in Est.
    destruct st as [s1 m1|s1 m1 ok c].
    + intros Hrun. apply IH in Hrun. congruence.
    + intros [= _ <- _]. exact Est.
Qed.

(** X11.  With [Send_headers] off.  The parser enters no header in the
    header map of the message, whatever the bytes: the map it returns is the
    one it was given.  For a message with an empty map, as a new one is, the
    content type and the Authorization header are then unknown to what
    follows: [cutMessageBody] keeps the bytes before the body only, whatever
    the configuration includes, and [censorPasswords] changes nothing. *)
Theorem headers_off_nothing_recorded (http : Http) (s s' : Stream.HttpStream)
    (m : Msg.HttpMessage) (oc : bool * bool) :
  Send_headers http = false ->
  Stream.message s = Some m ->
  messageParser http s = Ok (s', oc) ->
  exists m',
    Stream.message s' = Some m'
    /\ Msg.Headers m' = Msg.Headers m
    /\ (Msg.Headers m = ∅ ->
        forall raw msg,
          cutMessageBody (Msg.set_Raw raw m') = slice_to raw (Msg.bodyOffset m')
          /\ censorPasswords (Msg.set_Raw raw m') msg = Ok (Msg.set_Raw raw m', msg)).
Proof.
  intros Hoff Hm Hrun. rewrite (messageParser_run http s m Hm) in Hrun. unfold run in Hrun.
  destruct (messageParser_loop _ http s m) as [[[s1 m1] oc1]| |] eqn:Eloop;
    cbn [rbind] in Hrun; try discriminate.
  injection Hrun as <- <-.
  apply (messageParser_loop_headers_off _ _ _ _ _ _ _ Hoff) in Eloop.
  exists m1. split; [reflexivity|]. split; [exact Eloop|].
  intros Hempty raw msg. rewrite Hempty in Eloop. split.
  - unfold cutMessageBody. cbn [Msg.Raw Msg.bodyOffset Msg.Headers Msg.set_Raw].
    rewrite Eloop, lookup_empty. destruct (slice_to raw _); reflexivity.
  - unfold censorPasswords, censorAuthorization, censorBody.
    cbn [Msg.IsRequest Msg.Headers Msg.ContentLength Msg.set_Raw].
    rewrite Eloop, lookup_empty. cbn [default from_option].
    destruct (Msg.IsRequest m1); [|reflexivity].
    rewrite andb_false_r. cbn [rbind Msg.Headers Msg.ContentLength Msg.set_Raw].
    rewrite Eloop, lookup_empty. cbn [default from_option].
    replace (Contains EmptyString "urlencoded") with false by (vm_compute; reflexivity).
    rewrite andb_false_r. reflexivity.
Qed.


(** *** Configuration *)

Lemma whitelist_loop_lookup (hdrs : list string) (whitelist : gmap string bool)
    (name : string) :
  is_Some (whitelist_loop hdrs whitelist !! name)
  <-> is_Some (whitelist !! name) \/ exists hdr, hdr ∈ hdrs /\ ToLower hdr = name.
Proof.
  revert whitelist. induction hdrs as [|hdr rest IH]; intros whitelist; cbn [whitelist_loop].
  - split; [auto|]. intros [Hw | (hdr & Hin & _)]; [exact Hw|]. inversion Hin.
  - rewrite IH. split.
    + intros [Hw | (h & Hin & Hh)].
      * destruct (decide (ToLower hdr = name)) as [Heq | Hne].
        -- right. exists hdr. split; [left|exact Heq].
        -- left. rewrite lookup_insert_ne in Hw by exact Hne. exact Hw.
      * right. exists h. split; [right; exact Hin|exact Hh].
    + intros [Hw | (h & Hin & Hh)].
      * left. destruct (decide (ToLower hdr = name)) as [<- | Hne].
        -- rewrite lookup_insert_eq. eauto.
        -- rewrite lookup_insert_ne by exact Hne. exact Hw.
      * apply elem_of_cons in Hin as [-> | Hin].
        -- left. rewrite <- Hh, lookup_insert_eq. eauto.
        -- right. exists h. auto.
Qed.

(** X12.  The headers to send on.  After [Init] from a configuration that
    does not ask for all headers but names some, headers are sent on and
    the names to send on are the configured ones in lower case, which is how
    [parseHeader] looks a name up: a name is on the list exactly if it is
    the lower-case form of a configured name.  The table of transactions is
    empty and the results go to the channel given. *)
Theorem Init_whitelist (http : Http) (config : config_Config)
    (results_chan : option (list MapStr)) :
  Http_Send_all_headers config = false -> Http_Send_headers config <> [] ->
  let http' := Init http false config results_chan in
  Send_headers http' = true
  /\ Send_all_headers http' = Send_all_headers http
  /\ (forall name, is_Some (Headers_whitelist http' !! name)
                   <-> exists hdr, hdr ∈ Http_Send_headers config /\ ToLower hdr = name)
  /\ transactionsMap http' = ∅
  /\ results http' = results_chan.
Proof.
  intros Hall Hsome http'. unfold http', Init, SetFromConfig, InitDefaults. cbv zeta.
  cbn [negb]. rewrite Hall.
  replace (0 <? len (Http_Send_headers config)) with true
    by (destruct (Http_Send_headers config); [congruence|reflexivity]).
  destruct (Defined_send_request config), (Defined_send_response config); cbn;
    (split; [reflexivity|]); (split; [reflexivity|]);
    (split; [|split; reflexivity]);
    intros name; rewrite whitelist_loop_lookup, lookup_empty;
    (split; [intros [[? [=]] | Hin]; exact Hin | intros Hin; right; exact Hin]).
Qed.

(** *** The bound of a direction's buffer *)

(** X13.  A buffer over the bound.  When the bytes kept for a direction
    and the bytes of a segment are more together than
    [TCP_MAX_DATA_IN_STREAM], [Parse] parses nothing: it gives up the stream
    of the direction, keeps the other direction and the protocol object as
    they are, and the next segment is taken as the first of the
    direction. *)
Theorem Parse_over_the_bound (http : Http) (pkt pkt2 : Packet) (tcptuple : common_TcpTuple)
    (dir : Dir) (priv : httpPrivateData) (stream : Stream.HttpStream) :
  Data priv dir = Some stream ->
  TCP_MAX_DATA_IN_STREAM < len (Stream.data stream ++ Payload pkt) ->
  Parse http pkt tcptuple dir (Some priv) = (http, Ok (Some (set_Data dir None priv)))
  /\ feed http tcptuple dir (Some priv) [pkt; pkt2]
     = feed http tcptuple dir (Some (set_Data dir None priv)) [pkt2]
  /\ Parse http pkt2 tcptuple dir (Some (set_Data dir None priv))
     = parse_stream http tcptuple dir
         (set_Data dir (Some (new_HttpStream tcptuple pkt2)) priv)
         (new_HttpStream tcptuple pkt2).
Proof.
  intros Hdata Hover.
  assert (Hdrop : Parse http pkt tcptuple dir (Some priv)
                  = (http, Ok (Some (set_Data dir None priv)))).
  { unfold Parse. cbn [default from_option]. unfold id. rewrite Hdata.
    cbn [Stream.data Stream.set_data].
    replace (TCP_MAX_DATA_IN_STREAM <? len (Stream.data stream ++ Payload pkt)) with true
      by cmp.
    reflexivity. }
  split; [exact Hdrop|]. split.
  - cbn [feed]. rewrite Hdrop. reflexivity.
  - rewrite (Parse_first http pkt2) by (cbn; apply Data_set_Data).
    cbn [default from_option]. unfold id. rewrite set_Data_twice. reflexivity.
Qed.


(** *** A body until the connection is closed *)

(** X14.  A body without a length.  For a message of which the parser
    reads the body until the connection is closed, with all the bytes so
    far read, a segment is never the last for [Parse]: the call sends
    nothing, leaves the protocol object as it is, adds the bytes of the
    segment to the buffer and counts them into [ContentLength], and leaves
    the parser as it found it, so that the same holds for the segment after
    it. *)
Theorem body_until_close (http : Http) (pkt : Packet) (tcptuple : common_TcpTuple)
    (dir : Dir) (priv : httpPrivateData) (stream : Stream.HttpStream)
    (m : Msg.HttpMessage) :
  Data priv dir = Some stream ->
  Stream.message stream = Some m ->
  Stream.parseState stream = BODY ->
  Stream.parseOffset stream = len (Stream.data stream) ->
  until_close m = true ->
  len (Stream.data stream ++ Payload pkt) <= TCP_MAX_DATA_IN_STREAM ->
  len (Stream.data stream ++ Payload pkt) <= MaxInt - 2 ->
  0 <= Msg.ContentLength m -> Msg.ContentLength m + len (Payload pkt) <= MaxInt ->
  exists stream' m',
    Parse http pkt tcptuple dir (Some priv)
    = (http, Ok (Some (set_Data dir (Some stream') priv)))
    /\ Stream.message stream' = Some m'
    /\ Stream.parseState stream' = BODY
    /\ Stream.data stream' = Stream.data stream ++ Payload pkt
    /\ Stream.parseOffset stream' = len (Stream.data stream')
    /\ until_close m' = true
    /\ Msg.ContentLength m' = Msg.ContentLength m + len (Payload pkt)
    /\ Msg.start m' = Msg.start m /\ Msg.end_ m' = Msg.end_ m.
Proof.
  intros Hdata Hm Hst Hpo Hclose Hmax Hlen Hcl0 Hcl.
  pose proof (len_app (Stream.data stream) (Payload pkt)) as Happ.
  pose proof (len_nonneg (Payload pkt)) as Hle.
  pose proof (len_nonneg (Stream.data stream)) as Hd0.
  unfold Parse. cbn [default from_option]. unfold id. rewrite Hdata.
  cbn [Stream.data Stream.set_data].
  replace (TCP_MAX_DATA_IN_STREAM <? len (Stream.data stream ++ Payload pkt)) with false
    by cmp.
  cbn [Stream.message Stream.set_data]. rewrite Hm.
  set (sX := Stream.set_data (Stream.data stream ++ Payload pkt) stream).
  assert (HokX : stream_ok sX) by (split; cbn; [rewrite Hst; discriminate|lia]).
  unfold parse_stream. rewrite (messageParser_run http sX m Hm).
  destruct (Z_lt_le_dec (Stream.parseOffset sX) (len (Stream.data sX))) as [Hlt | Hge].
  - rewrite (run_unfold http sX m HokX Hlen Hlt).
    unfold parser_step. cbn [sX Stream.parseState Stream.set_data]. rewrite Hst.
    unfold state_body. fold (until_close m). rewrite Hclose.
    cbn [rbind negb Stream.message Stream.set_message].
    rewrite set_Data_twice.
    eexists _, _. split; [reflexivity|]. subst sX. stream_cbn.
    cbn [Msg.ContentLength Msg.set_ContentLength Msg.start Msg.end_].
    repeat (split; [first [reflexivity | assumption]|]).
    split; [|split; reflexivity].
    cbn in Hlt. rewrite Hpo in *. cbn [Msg.ContentLength Msg.set_ContentLength]. int_lia.
  - rewrite (run_exit http sX m Hge). cbn [rbind negb Stream.message Stream.set_message].
    rewrite set_Data_twice. cbn in Hge. rewrite Hpo in Hge.
    eexists _, _. split; [reflexivity|]. subst sX. stream_cbn.
    repeat (split; [first [reflexivity | assumption]|]).
    split; [lia|]. split; [exact Hclose|]. split; [lia|]. split; reflexivity.
Qed.




(** *** Bodies in chunks *)

Lemma find_sub_line (line x : bytes) :
  CR ∉ line -> find_sub (line ++ CRLF ++ x) CRLF = Some (length line).
Proof.
  induction line as [|a line IH]; intros Hcr; rewrite find_sub_unfold.
  - cbn [app]. rewrite (HasPrefix_app CRLF x). reflexivity.
  - apply not_elem_of_cons in Hcr as [Ha Hcr].
    cbn [app HasPrefix CRLF].
    replace (Ascii.eqb a CR) with false
      by (symmetry; apply Ascii.eqb_neq; congruence).
    cbn [andb]. change (CR :: LF :: x) with (CRLF ++ x). rewrite (IH Hcr). reflexivity.
Qed.

Lemma slice_from_app {A} (a r : list A) : slice_from (a ++ r) (len a) = Ok r.
Proof.
  rewrite slice_from_Ok by (rewrite ?len_app; pose proof (len_nonneg a);
                            pose proof (len_nonneg r); lia).
  unfold len. rewrite Nat2Z.id, drop_app_length. reflexivity.
Qed.

Lemma slice_middle {A} (a l r : list A) :
  slice (a ++ l ++ r) (len a) (len a + len l) = Ok l.
Proof.
  pose proof (len_nonneg a). pose proof (len_nonneg l). pose proof (len_nonneg r).
  rewrite slice_Ok by (rewrite ?len_app; lia).
  unfold len. rewrite Nat2Z.id, drop_app_length.
  replace (Z.to_nat (Z.of_nat (length a) + Z.of_nat (length l) - Z.of_nat (length a)))
    with (length l) by lia.
  rewrite take_app_length. reflexivity.
Qed.

Lemma index_app_r {A} (a r : list A) (c : A) : index (a ++ c :: r) (len a) = Ok c.
Proof.
  unfold len. apply index_Ok. rewrite lookup_app_r by lia.
  replace (length a - length a)%nat with 0%nat by lia. reflexivity.
Qed.

(** The last chunk: its line, of size 0, and the CRLF that ends the body. *)
Lemma run_chunk_last (http : Http) (s : Stream.HttpStream) (m : Msg.HttpMessage)
    (a last r : bytes) :
  Stream.parseState s = BODY_CHUNKED_START ->
  Stream.data s = a ++ last ++ CRLF ++ CRLF ++ r ->
  Stream.parseOffset s = len a ->
  size_line last 0 ->
  len (Stream.data s) <= MaxInt - 2 ->
  run http s m
  = Ok (Stream.set_parseOffset (len a + len last + 4) s,
        Msg.set_end_ (len a + len last + 4) (Msg.set_chunked_length 0 m),
        (true, true)).
Proof.
  intros Hst Hdata Hpo [Hcr Hscan] Hlen.
  pose proof (len_nonneg a) as Ha. pose proof (len_nonneg last) as Hl.
  pose proof (len_nonneg r) as Hr.
  assert (Htotal : len (Stream.data s) = len a + len last + 4 + len r).
  { rewrite Hdata, !len_app. change (len CRLF) with 2. lia. }
  rewrite run_unfold; [|split; [rewrite Hst; discriminate|lia]|exact Hlen|lia].
  unfold parser_step. rewrite Hst. unfold state_body_chunked_start.
  rewrite Hpo, Hdata, slice_from_app. cbn [rbind].
  rewrite (Index_find _ _ _ (find_sub_line last _ Hcr)).
  replace (Z.of_nat (length last) =? -1) with false by cmp.
  fold (len last). rewrite (int_small (len a + len last)) by (unfold MinInt, MaxInt in *; lia).
  rewrite slice_middle. cbn [rbind]. rewrite Hscan. stream_cbn.
  cbn [Msg.chunked_length Msg.set_chunked_length]. cbn [Z.eqb].
  unwrap. rewrite !Hdata.
  set (a1 := a ++ last ++ CRLF).
  assert (Ha1 : len a1 = len a + (len last + 2))
    by (unfold a1; rewrite !len_app; change (len CRLF) with 2; lia).
  replace (a ++ last ++ CRLF ++ CRLF ++ r) with (a1 ++ CR :: LF :: r)
    by (unfold a1; rewrite <- !app_assoc; reflexivity).
  rewrite <- Ha1, slice_from_app. cbn [rbind].
  replace (len (CR :: LF :: r) <? 2) with false by cmp.
  rewrite index_app_r. cbn [rbind]. rewrite Ascii.eqb_refl. cbn [negb rbind].
  replace (a1 ++ CR :: LF :: r) with ((a1 ++ [CR]) ++ LF :: r)
    by (rewrite <- app_assoc; reflexivity).
  replace (len a1 + 1) with (len (a1 ++ [CR])) by (rewrite len_app; reflexivity).
  rewrite index_app_r. cbn [rbind]. rewrite Ascii.eqb_refl. cbn [negb rbind].
  replace (len a1 + 2) with (len a + len last + 4) by lia.
  reflexivity.
Qed.

(** A chunk: its line, its bytes and the CRLF behind them. *)
Lemma run_chunk (http : Http) (s : Stream.HttpStream) (m : Msg.HttpMessage)
    (a line c r : bytes) :
  Stream.parseState s = BODY_CHUNKED_START ->
  Stream.data s = a ++ (line ++ CRLF ++ c ++ CRLF) ++ r ->
  Stream.parseOffset s = len a ->
  size_line line (len c) -> c <> [] ->
  len (Stream.data s) <= MaxInt - 2 ->
  run http s m
  = run http
      (Stream.set_parseOffset (len (a ++ line ++ CRLF ++ c ++ CRLF))
         (Stream.set_bodyReceived 0 s))
      (Msg.set_ContentLength (Msg.ContentLength m +! len c)
         (Msg.set_chunked_body (Msg.chunked_body m ++ c)
            (Msg.set_chunked_length (len c) m))).
Proof.
  intros Hst Hdata Hpo [Hcr Hscan] Hc Hlen.
  pose proof (len_nonneg a) as Ha. pose proof (len_nonneg line) as Hl.
  pose proof (len_nonneg r) as Hr.
  assert (Hc0 : 0 < len c) by (destruct c; [congruence|unfold len; cbn; lia]).
  assert (Htotal : len (Stream.data s) = len a + len line + 2 + len c + 2 + len r).
  { rewrite Hdata, !len_app. change (len CRLF) with 2. lia. }
  rewrite run_unfold; [|split; [rewrite Hst; discriminate|lia]|exact Hlen|lia].
  unfold parser_step at 1. rewrite Hst. unfold state_body_chunked_start.
  rewrite Hpo, Hdata, slice_from_app. cbn [rbind].
  rewrite <- !app_assoc.
  rewrite (Index_find _ _ _ (find_sub_line line _ Hcr)).
  replace (Z.of_nat (length line) =? -1) with false by cmp.
  fold (len line). rewrite (int_small (len a + len line)) by (unfold MinInt, MaxInt in *; lia).
  rewrite slice_middle. cbn [rbind]. rewrite Hscan. stream_cbn.
  cbn [Msg.chunked_length Msg.set_chunked_length].
  replace (len c =? 0) with false by cmp. cbn [rbind].
  set (a1 := a ++ line ++ CRLF).
  assert (Ha1 : len a1 = len a + (len line + 2))
    by (unfold a1; rewrite !len_app; change (len CRLF) with 2; lia).
  unwrap. rewrite <- Ha1.
  rewrite run_unfold;
    [|split; stream_cbn; [discriminate|lia]|exact Hlen|stream_cbn; lia].
  unfold parser_step at 1. stream_cbn. unfold state_body_chunked. stream_cbn.
  cbn [Msg.chunked_length Msg.set_chunked_length Msg.chunked_body Msg.ContentLength].
  rewrite !Hdata.
  replace (a ++ (line ++ CRLF ++ c ++ CRLF) ++ r) with (a1 ++ c ++ CRLF ++ r)
    by (unfold a1; rewrite <- !app_assoc; reflexivity).
  rewrite !slice_from_app. cbn [rbind].
  rewrite Z.sub_0_r. rewrite (int_small (len c)) by (unfold MinInt, MaxInt in *; lia).
  rewrite (int_small (len c + 2)) by (unfold MinInt, MaxInt in *; lia).
  replace (len c + 2 <=? len (c ++ CRLF ++ r)) with true
    by (symmetry; apply Z.leb_le; rewrite !len_app; change (len CRLF) with 2; lia).
  rewrite (int_small (len a1 + len c)) by (unfold MinInt, MaxInt in *; lia).
  rewrite Z.sub_0_r. rewrite (int_small (len a1 + len c)) by (unfold MinInt, MaxInt in *; lia).
  rewrite slice_middle. cbn [rbind].
  rewrite (int_small (len a1 + (len c + 2))) by (unfold MinInt, MaxInt in *; lia).
  replace (len (a ++ line ++ CRLF ++ c ++ CRLF)) with (len a1 + (len c + 2))
    by (rewrite Ha1, !len_app; change (len CRLF) with 2; lia).
  f_equal. clear -Hst. destruct s. cbn in Hst. subst. reflexivity.
Qed.

Lemma run_chunks (http : Http) (last : bytes) (chunks : list (bytes * bytes)) :
  forall (s : Stream.HttpStream) (m : Msg.HttpMessage) (a r : bytes),
  Stream.parseState s = BODY_CHUNKED_START ->
  Stream.data s = a ++ encode_chunks chunks last ++ r ->
  Stream.parseOffset s = len a ->
  Forall (fun lc => size_line (fst lc) (len (snd lc)) /\ snd lc <> []) chunks ->
  size_line last 0 ->
  len (Stream.data s) <= MaxInt - 2 ->
  0 <= Msg.ContentLength m ->
  Msg.ContentLength m + len (concat (snd <$> chunks)) <= MaxInt ->
  exists s' m',
    run http s m = Ok (s', m', (true, true))
    /\ Stream.data s' = Stream.data s
    /\ Stream.tcptuple s' = Stream.tcptuple s
    /\ Stream.parseOffset s' = len a + len (encode_chunks chunks last)
    /\ Msg.end_ m' = len a + len (encode_chunks chunks last)
    /\ Msg.chunked_body m' = Msg.chunked_body m ++ concat (snd <$> chunks)
    /\ Msg.ContentLength m' = Msg.ContentLength m + len (concat (snd <$> chunks))
    /\ Msg.start m' = Msg.start m
    /\ Msg.bodyOffset m' = Msg.bodyOffset m
    /\ Msg.Headers m' = Msg.Headers m.
Proof.
  induction chunks as [|[line c] chunks IH]; intros s m a r Hst Hdata Hpo Hall Hlast Hlen Hcl0 Hcl.
  - unfold encode_chunks in *. cbn [fmap list_fmap concat app] in *.
    rewrite <- !app_assoc in Hdata.
    rewrite (run_chunk_last http s m a last r Hst Hdata Hpo Hlast Hlen).
    eexists _, _. split; [reflexivity|]. stream_cbn.
    cbn [Msg.end_ Msg.set_end_ Msg.chunked_body Msg.ContentLength Msg.set_chunked_length
         Msg.start Msg.bodyOffset Msg.Headers].
    rewrite !len_app. change (len CRLF) with 2. change (len []) with 0.
    rewrite app_nil_r, Z.add_0_r.
    repeat (split; [first [reflexivity | lia]|]). reflexivity.
  - apply Forall_cons in Hall as [[Hline Hc] Hall]. cbn [fst snd] in Hline, Hc.
    pose proof (len_nonneg c) as Hc0.
    assert (Henc : encode_chunks ((line, c) :: chunks) last
                   = (line ++ CRLF ++ c ++ CRLF) ++ encode_chunks chunks last).
    { unfold encode_chunks. cbn [fmap list_fmap concat fst snd].
      rewrite <- !app_assoc. reflexivity. }
    rewrite Henc in *. cbn [fmap list_fmap concat snd] in *. rewrite len_app in Hcl.
    pose proof (len_nonneg (concat (snd <$> chunks))) as Hrest.
    rewrite <- app_assoc in Hdata.
    rewrite (run_chunk http s m a line c (encode_chunks chunks last ++ r) Hst Hdata Hpo
               Hline Hc Hlen).
    edestruct (IH (Stream.set_parseOffset (len (a ++ line ++ CRLF ++ c ++ CRLF))
                     (Stream.set_bodyReceived 0 s))
                  (Msg.set_ContentLength (Msg.ContentLength m +! len c)
                     (Msg.set_chunked_body (Msg.chunked_body m ++ c)
                        (Msg.set_chunked_length (len c) m)))
                  (a ++ line ++ CRLF ++ c ++ CRLF) r)
      as (s' & m' & Hrun & Hd & Ht & Hp & He & Hb & Hc' & Hs & Hbo & Hh);
      try assumption.
    + stream_cbn. rewrite Hdata, <- !app_assoc. reflexivity.
    + reflexivity.
    + cbn [Msg.ContentLength Msg.set_ContentLength]. int_lia.
    + cbn [Msg.ContentLength Msg.set_ContentLength]. int_lia.
    + exists s', m'. split; [exact Hrun|].
      cbn [Msg.ContentLength Msg.set_ContentLength Msg.chunked_body Msg.set_chunked_body
           Msg.start Msg.bodyOffset Msg.Headers Msg.set_chunked_length] in *.
      stream_cbn_all.
      rewrite (int_small (Msg.ContentLength m + len c)) in Hc'
        by (unfold MinInt, MaxInt in *; lia).
      rewrite <- app_assoc in Hb.
      repeat (split; [first [assumption | rewrite Hp || rewrite He;
                                          rewrite !len_app; lia]|]).
      split; [rewrite Hc', len_app; lia|]. auto.
Qed.

(** X16.  A body in chunks.  From the state for a chunk's size line, on a
    buffer that holds, from the offset on, a body in chunks whole — for each
    chunk a size line that [Sscanf] reads as the number of bytes of the
    chunk, then the chunk and a CRLF, and at the end a line of size 0 and
    two CRLF — the parser reports a complete message: the chunks are joined
    in order to [chunked_body], their sizes are added to [ContentLength],
    and the message ends, like the offset, right behind the last CRLF,
    whatever follows in the buffer. *)
Theorem chunked_body_decoded (http : Http) (s : Stream.HttpStream) (m : Msg.HttpMessage)
    (chunks : list (bytes * bytes)) (last before behind : bytes) :
  Stream.message s = Some m ->
  Stream.parseState s = BODY_CHUNKED_START ->
  Stream.data s = before ++ encode_chunks chunks last ++ behind ->
  Stream.parseOffset s = len before ->
  Forall (fun lc => size_line (fst lc) (len (snd lc)) /\ snd lc <> []) chunks ->
  size_line last 0 ->
  len (Stream.data s) <= MaxInt - 2 ->
  0 <= Msg.ContentLength m ->
  Msg.ContentLength m + len (concat (snd <$> chunks)) <= MaxInt ->
  exists s' m',
    messageParser http s = Ok (s', (true, true))
    /\ Stream.message s' = Some m'
    /\ Stream.data s' = Stream.data s
    /\ Stream.parseOffset s' = len before + len (encode_chunks chunks last)
    /\ Msg.end_ m' = len before + len (encode_chunks chunks last)
    /\ Msg.chunked_body m' = Msg.chunked_body m ++ concat (snd <$> chunks)
    /\ Msg.ContentLength m' = Msg.ContentLength m + len (concat (snd <$> chunks))
    /\ Msg.Headers m' = Msg.Headers m.
Proof.
  intros Hm Hst Hdata Hpo Hall Hlast Hlen Hcl0 Hcl.
  destruct (run_chunks http last chunks s m before behind Hst Hdata Hpo Hall Hlast Hlen
              Hcl0 Hcl)
    as (s' & m' & Hrun & Hd & _ & Hp & He & Hb & Hc & _ & _ & Hh).
  exists (Stream.set_message (Some m') s'), m'.
  rewrite (messageParser_run http s m Hm), Hrun. cbn [rbind].
  split; [reflexivity|]. stream_cbn. auto 10.
Qed.


(** *** The raw form of a message *)

(** X17.  What is kept of a message's bytes.  With the start of the body
    inside the raw bytes, [cutMessageBody] does not panic and always keeps
    the bytes before the body.  The body is kept only for a message that
    has a [content-type] header, empty or with one of the configured texts
    in it: then it is [chunked_body] if that has bytes, and the raw bytes
    from the start of the body on otherwise.  Without the header nothing of
    the body is kept, whatever is configured. *)
Theorem cutMessageBody_keeps (m : Msg.HttpMessage) :
  0 <= Msg.bodyOffset m -> Msg.bodyOffset m <= len (Msg.Raw m) ->
  let head := take (Z.to_nat (Msg.bodyOffset m)) (Msg.Raw m) in
  let body := if 0 <? len (Msg.chunked_body m) then Msg.chunked_body m
              else drop (Z.to_nat (Msg.bodyOffset m)) (Msg.Raw m) in
  cutMessageBody m
  = Ok (match Msg.Headers m !! "content-type" with
        | Some contentType =>
            if bool_decide (contentType = EmptyString)
               || existsb (Contains contentType) (Include_body_for ConfigSingleton)
            then head ++ body else head
        | None => head
        end).
Proof.
  intros H0 H1 head body. unfold cutMessageBody, slice_to, shouldIncludeInBody.
  rewrite slice_Ok by lia. cbn [rbind].
  change (Z.to_nat 0) with 0%nat. rewrite drop_0, Z.sub_0_r. fold head.
  destruct (Msg.Headers m !! "content-type") as [contentType|]; [|reflexivity].
  replace (Z.of_nat (String.length contentType) =? 0)
    with (bool_decide (contentType = EmptyString)).
  2:{ destruct contentType; [reflexivity|].
      rewrite bool_decide_eq_false_2 by discriminate. cbn [String.length]. cmp. }
  destruct (_ || _); [|reflexivity]. unfold body.
  destruct (0 <? len (Msg.chunked_body m)); [reflexivity|].
  rewrite slice_from_Ok by lia. reflexivity.
Qed.


(** *** The request line *)

Lemma space_width_visible (c : ascii) (r : bytes) :
  visible c = true -> space_width (c :: r) = O.
Proof.
  destruct c as [[] [] [] [] [] [] [] []]; intros Hv; try discriminate Hv; reflexivity.
Qed.

Lemma visible_not_CR (w : bytes) : Forall (fun c => visible c = true) w -> CR ∉ w.
Proof.
  intros Hw Hin. rewrite Forall_forall in Hw. specialize (Hw CR Hin). discriminate.
Qed.

Lemma fields_go_word (w rest : bytes) (cur : option bytes) :
  Forall (fun c => visible c = true) w ->
  fields_go (w ++ rest) O cur
  = match w with
    | [] => fields_go rest O cur
    | _ => fields_go rest O (Some (default [] cur ++ w))
    end.
Proof.
  revert cur. induction w as [|c w IH]; intros cur Hw; [reflexivity|].
  apply Forall_cons in Hw as [Hc Hw].
  cbn [app fields_go]. rewrite (space_width_visible c _ Hc). rewrite (IH _ Hw).
  destruct w; [reflexivity|]. cbn [default from_option id]. unfold id.
  rewrite <- app_assoc. reflexivity.
Qed.

Lemma Fields_three (a b c : bytes) :
  word a -> word b -> word c -> Fields (a ++ SP :: b ++ SP :: c) = [a; b; c].
Proof.
  intros [Ha Hav] [Hb Hbv] [Hc Hcv]. unfold Fields.
  rewrite (fields_go_word a _ None Hav). destruct a as [|a0 a]; [congruence|].
  cbn [default from_option app]. 
  change (fields_go (SP :: b ++ SP :: c) 0 (Some (a0 :: a)))
    with ([a0 :: a] ++ fields_go (b ++ SP :: c) 0 None).
  rewrite (fields_go_word b _ None Hbv). destruct b as [|b0 b]; [congruence|].
  cbn [default from_option app].
  change (fields_go (SP :: c) 0 (Some (b0 :: b)))
    with ([b0 :: b] ++ fields_go c 0 None).
  rewrite <- (app_nil_r c) at 1. rewrite (fields_go_word c [] None Hcv).
  destruct c as [|c0 c]; [congruence|]. reflexivity.
Qed.

Lemma take5_not_HTTP (method rest : bytes) :
  word method -> HasPrefix method (B "HTTP/") = false ->
  take 5 (method ++ SP :: rest) <> B "HTTP/".
Proof.
  intros [Hne Hv] Hp Heq.
  destruct method as [|c1 [|c2 [|c3 [|c4 [|c5 t]]]]]; [congruence| | | | |];
    cbn in Heq; simplify_eq.
  destruct t; vm_compute in Hp; discriminate.
Qed.

(** X18.  The request line.  At the start of a direction's buffer, for a
    first line made of a method, a target and ["HTTP/"] with a version,
    each a word of visible characters, with one blank between them, the
    method not starting with ["HTTP/"]: the parser takes the line for the
    first line of a request, keeps the method, the target and the line as
    they are, reads the version, and goes on with the headers right behind
    the CRLF of the line. *)
Theorem request_line_parsed (s : Stream.HttpStream) (m : Msg.HttpMessage)
    (method uri version rest : bytes) :
  let line := method ++ SP :: uri ++ SP :: (B "HTTP/" ++ version) in
  Stream.parseOffset s = 0 ->
  Stream.data s = line ++ CRLF ++ rest ->
  word method -> word uri -> Forall (fun c => visible c = true) version ->
  HasPrefix method (B "HTTP/") = false ->
  len (Stream.data s) <= MaxInt - 2 ->
  exists m',
    state_start s m
    = Ok (Continue (Stream.set_parseState HEADERS
                      (Stream.set_parseOffset (len line + 2) s)) m')
    /\ m' = Msg.set_headerOffset (len line + 2)
              (with_version version
                 (Msg.set_FirstLine (S_ line)
                    (Msg.set_IsRequest true
                       (Msg.set_RequestUri (S_ uri)
                          (Msg.set_Method (S_ method) (Msg.set_start 0 m)))))).
Proof.
  intros line Hpo Hdata Hmethod Huri Hversion Hnot Hlen.
  assert (Hproto : word (B "HTTP/" ++ version)).
  { split; [discriminate|]. apply Forall_app. split; [|exact Hversion].
    repeat constructor. }
  assert (Hcr : CR ∉ line).
  { unfold line. destruct Hmethod as [_ Hm], Huri as [_ Hu], Hproto as [_ Hp].
    apply not_elem_of_app. split; [apply visible_not_CR, Hm|].
    apply not_elem_of_cons. split; [discriminate|].
    apply not_elem_of_app. split; [apply visible_not_CR, Hu|].
    apply not_elem_of_cons. split; [discriminate|]. apply visible_not_CR, Hp. }
  assert (Hline : 9 <= len line).
  { unfold line. destruct Hmethod as [Hm _], Huri as [Hu _].
    assert (0 < length method)%nat by (destruct method; [congruence|cbn; lia]).
    assert (0 < length uri)%nat by (destruct uri; [congruence|cbn; lia]).
    unfold len. rewrite length_app. cbn [length]. rewrite length_app. cbn [length].
    rewrite length_app. change (length (B "HTTP/")) with 5%nat. lia. }
  pose proof (len_nonneg rest) as Hrest.
  assert (Htotal : len (Stream.data s) = len line + 2 + len rest).
  { rewrite Hdata, !len_app. change (len CRLF) with 2. lia. }
  eexists. split; [|reflexivity].
  unfold state_start. rewrite Hpo, Hdata.
  rewrite slice_from_Ok by (rewrite <- ?Hdata; lia). cbn [rbind].
  change (Z.to_nat 0) with 0%nat. rewrite drop_0.
  rewrite (Index_find _ _ _ (find_sub_line line rest Hcr)).
  replace (Z.of_nat (length line) =? -1) with false by cmp.
  fold (len line).
  rewrite slice_Ok by (rewrite <- ?Hdata; lia). cbn [rbind].
  change (Z.to_nat 0) with 0%nat. rewrite drop_0, Z.sub_0_r.
  replace (Z.to_nat (len line)) with (length line) by (unfold len; lia).
  rewrite take_app_length.
  rewrite (int_small (len line + 2)) by (unfold MinInt, MaxInt in *; lia).
  replace (len line <? 8) with false by cmp.
  unfold first_line. rewrite slice_Ok by lia. cbn [rbind].
  change (Z.to_nat (5 - 0)) with 5%nat. change (Z.to_nat 0) with 0%nat. rewrite drop_0.
  unfold Equal at 1. rewrite bool_decide_eq_false_2
    by (apply take5_not_HTTP; assumption).
  assert (HF : Fields line = [method; uri; B "HTTP/" ++ version])
    by (apply Fields_three; assumption).
  rewrite HF. change (len [method; uri; B "HTTP/" ++ version] =? 3) with true.
  cbn [negb]. unfold index.
  change (len [method; uri; B "HTTP/" ++ version]) with 3. cbn [Z.leb Z.ltb Z.compare andb].
  change (Z.to_nat 0) with 0%nat. change (Z.to_nat 1) with 1%nat.
  change (Z.to_nat 2) with 2%nat. cbn [lookup list_lookup rbind].
  change (1 <? 3) with true. change (2 <? 3) with true. cbn [rbind].
  pose proof (len_nonneg version) as Hv0.
  unfold slice_to. rewrite slice_Ok
    by (rewrite ?len_app; change (len (B "HTTP/")) with 5; lia).
  cbn [rbind]. change (Z.to_nat (5 - 0)) with 5%nat. change (Z.to_nat 0) with 0%nat.
  rewrite drop_0, (take_app_length' (B "HTTP/") version 5) by reflexivity.
  unfold Equal. rewrite bool_decide_eq_true_2 by reflexivity.
  rewrite slice_from_Ok by (rewrite ?len_app; change (len (B "HTTP/")) with 5; lia).
  cbn [rbind]. change (Z.to_nat 5) with 5%nat.
  rewrite (drop_app_length' (B "HTTP/") version 5) by reflexivity.
  rewrite set_version_spec. cbn [rbind Stream.parseOffset Stream.set_parseOffset].
  reflexivity.
Qed.

End Http.

(** * Worked instances

    The collaborators are the instance given above: [scan_hex], ASCII
    lower-casing, the sum of the two ports as flow key (the same for both
    directions), a process table that knows no process, and a buffer bound
    of ten mebibytes. *)

Abbreviation ex_messageParser := (messageParser scan_hex ascii_lower).
Abbreviation ex_Parse :=
  (Parse scan_hex ascii_lower tuple_key no_processes max_data scrub_config).
Abbreviation ex_feed :=
  (feed scan_hex ascii_lower tuple_key no_processes max_data scrub_config).
Abbreviation ex_http := (example_http (HashableTcpTuple := flow_key)).
Abbreviation ex_parsed := (parsed_message scan_hex ascii_lower).

Ltac by_compute := vm_compute; first [reflexivity | discriminate | lia | (intros; discriminate)].

(** C1, counterexample.  A request followed by a response, on one direction
    of a flow: delivered as one segment, no transaction is emitted, because
    the call stops after the request and leaves the response unparsed in the
    buffer; delivered as two segments, one transaction is emitted. *)
Lemma segmentation_changes_emission :
  let whole := ex_feed (ex_http true false) example_tuple TcpDirectionOriginal None
                 [segment (get_request ++ no_content_response) 0] in
  let split := ex_feed (ex_http true false) example_tuple TcpDirectionOriginal None
                 [segment get_request 0; segment no_content_response 0] in
  emitted (fst whole) = []
  /\ buffer_of whole TcpDirectionOriginal = Some no_content_response
  /\ length (emitted (fst split)) = 1%nat
  /\ emitted (fst whole) <> emitted (fst split).
Proof.
  cbv zeta. split; [by_compute|]. split; [by_compute|]. split; [by_compute|].
  intros Heq. apply (f_equal length) in Heq. vm_compute in Heq. discriminate.
Qed.

(** Two pipelined requests in one segment: the call registers the first and
    leaves the second in the buffer. *)
Lemma pipelined_request_left_in_buffer :
  let r := ex_Parse (ex_http true false) (segment (get_request ++ get_request) 0)
             example_tuple TcpDirectionOriginal None in
  buffer_of r TcpDirectionOriginal = Some get_request
  /\ pending_uri tuple_key (fst r) example_tuple = Some "/x"%string.
Proof. cbv zeta. split; by_compute. Qed.

(** Witness of C1, amended: two pipelined requests in one buffer. *)
Lemma Parse_one_message_per_call_witness :
  let stream := example_stream (get_request ++ get_request) START 0 (new_HttpMessage 0) in
  let r := parse_stream scan_hex ascii_lower tuple_key no_processes scrub_config
             (ex_http true false) example_tuple TcpDirectionOriginal
             {| Data0 := None; Data1 := None |} stream in
  exists priv' rest,
    snd r = Ok (Some priv')
    /\ Data priv' TcpDirectionOriginal = Some rest
    /\ Stream.data rest = get_request
    /\ Stream.parseState rest = START
    /\ Stream.parseOffset rest = 0
    /\ Stream.message rest = None.
Proof.
  intros stream r.
  pose (stream1 := fst (ok_or (stream, (false, false))
                          (ex_messageParser (ex_http true false) stream))).
  pose (priv' := default {| Data0 := None; Data1 := None |} (ok_or None (snd r))).
  pose proof (proj2 (Parse_one_message_per_call scan_hex ascii_lower tuple_key no_processes
                       max_data scrub_config (ex_http true false) example_tuple
                       TcpDirectionOriginal)
                {| Data0 := None; Data1 := None |} stream stream1 priv'
                ltac:(vm_compute; reflexivity) ltac:(vm_compute; reflexivity)) as Hkeep.
  destruct Hkeep as (m & rest & Hm & Hdir & Hdata & Hstate & Hoff & _ & Hmsg).
  assert (Hend : Msg.end_ <$> Stream.message stream1 = Some 28) by (vm_compute; reflexivity).
  rewrite Hm in Hend. injection Hend as Hend.
  exists priv', rest. split; [vm_compute; reflexivity|]. split; [exact Hdir|].
  split; [rewrite Hdata, Hend; vm_compute; reflexivity|]. auto.
Defined.

(** C2, the failing input.  The form body "user=bob&password=secret&x=1"
    with the keyword "password=": the end of the value is computed without
    the length of the keyword, so it falls before the start of the value and
    nothing is overwritten.  The bytes come out of [censorPasswords] as they
    went in, and the raw request kept for the record still shows the
    password. *)
Theorem form_password_not_scrubbed :
  let m := ex_parsed (ex_http true false) login_request in
  Msg.IsRequest m = true
  /\ Msg.ContentLength m = 28
  /\ Msg.Headers m !! "content-type" = Some "application/x-www-form-urlencoded"%string
  /\ Msg.bodyOffset m = 93
  /\ censorPasswords scrub_config m login_request = Ok (m, login_request)
  /\ drop 93 login_request = B "user=bob&password=secret&x=1"
  /\ pending_raw tuple_key
       (fst (ex_Parse (ex_http true false) (segment login_request 0) example_tuple
               TcpDirectionOriginal None))
       example_tuple
     = Some (S_ login_request).
Proof. cbv zeta. repeat apply conj; by_compute. Qed.


(** The slip left out of C3, amended: when "Authorization:" is not the first
    header, the end of the value is taken from the start of the header block
    instead of the start of the literal, and the tail of the credentials
    stays readable. *)
Lemma authorization_second_header_half_scrubbed :
  let data := lines ["GET /x HTTP/1.1"; "Host: a"; "Authorization: Basic dXNlcjpwYXNz"; ""]%string in
  let m := ex_parsed (ex_http true false) data in
  snd <$> (match censorPasswords scrub_config m data with Ok x => Some x | _ => None end)
  = Some (lines ["GET /x HTTP/1.1"; "Host: a"; "Authorization:**********lcjpwYXNz"; ""]%string).
Proof. cbv zeta. by_compute. Qed.


(** C4, the failing input.  A header whose value is continued on a folded
    line, "X-Test: a" CRLF " b" CRLF: the test for SP or HT reads the byte at
    [p+1], the LF of the CRLF itself, so the fold is never seen.  The value
    stops at the first CRLF and the offset returned is 11, the start of the
    folded line, where the claim has the value run to the second CRLF and
    the offset be 15.  The parser then waits for a colon that the folded
    line does not have, and the message is never completed. *)
Theorem parseHeader_folded_line_cut :
  (exists m, parseHeader ascii_lower (ex_http true false) (new_HttpMessage 0) folded_header
             = Ok (m, (true, true, 11))
             /\ Msg.Headers m !! "x-test" = Some "a"%string)
  /\ drop 11 folded_header = lines [" b"; ""]%string
  /\ (exists s, ex_messageParser (ex_http true false)
                  (example_stream (lines ["GET / HTTP/1.1"%string] ++ folded_header) START 0
                     (new_HttpMessage 0))
                = Ok (s, (true, false))
                /\ Stream.parseState s = HEADERS /\ Stream.parseOffset s = 27).
Proof.
  split; [eexists; split; by_compute|]. split; [by_compute|].
  eexists. split; [vm_compute; reflexivity|]. split; reflexivity.
Qed.

(** C5, counterexample.  The status line "HTTP/x.y 200 OK": the version
    bytes "x.y" are three, so [parseVersion] returns no error, and the
    message carries version 0.0, not 1.0. *)
Lemma version_of_non_digits_is_zero :
  exists s m,
    state_start (example_stream (lines ["HTTP/x.y 200 OK"; ""]%string) START 0
                   (new_HttpMessage 0)) (new_HttpMessage 0)
    = Ok (Continue s m)
    /\ Stream.parseState s = HEADERS
    /\ (Msg.version_major m, Msg.version_minor m) = (0, 0)
    /\ (Msg.version_major m, Msg.version_minor m) <> (1, 0).
Proof. eexists _, _. split; [vm_compute; reflexivity|]. repeat apply conj; by_compute. Qed.

(** Witness of C5, amended: the request line "GET / HTTP/1", whose version
    has one byte. *)
Lemma state_start_version_witness :
  exists m',
    state_start (example_stream (lines ["GET / HTTP/1"; ""]%string) START 0 (new_HttpMessage 0))
      (new_HttpMessage 0)
    = Ok (Continue
            (Stream.set_parseState HEADERS
               (Stream.set_parseOffset 14
                  (example_stream (lines ["GET / HTTP/1"; ""]%string) START 0
                     (new_HttpMessage 0))))
            (Msg.set_headerOffset 14 m'))
    /\ Msg.version_major m' = 1 /\ Msg.version_minor m' = 0.
Proof.
  edestruct (state_start_version
               (example_stream (lines ["GET / HTTP/1"; ""]%string) START 0 (new_HttpMessage 0))
               (new_HttpMessage 0))
    as (m' & Hrun & _ & Hshort & _).
  - reflexivity.
  - vm_compute. reflexivity.
  - lia.
  - by_compute.
  - vm_compute. reflexivity.
  - exists m'. split; [exact Hrun|]. apply Hshort. by_compute.
Defined.

(** C6, the failing input.  The first line "HTTP/1.1", eight bytes long,
    passes the length test [len(fline) < 8] and reaches [fline[9:]], a slice
    from 9 of a line of length 8: the parser panics where the claim has it
    return invalid.  [Parse] recovers and returns nil, which gives up the
    streams of both directions. *)
Theorem status_line_of_eight_bytes_panics :
  let data := lines ["HTTP/1.1"%string] in
  len (take 8 data) = 8
  /\ slice_from (take 8 data) 9 = Panic
  /\ state_start (example_stream data START 0 (new_HttpMessage 0)) (new_HttpMessage 0) = Panic
  /\ ex_messageParser (ex_http true false) (example_stream data START 0 (new_HttpMessage 0))
     = Panic
  /\ snd (ex_Parse (ex_http true false) (segment data 0) example_tuple TcpDirectionOriginal
            (Some {| Data0 := Some (example_stream get_request START 0 (new_HttpMessage 0));
                     Data1 := None |}))
     = Ok None.
Proof. cbv zeta. repeat apply conj; by_compute. Qed.

(** Witness of C7: the five bytes of the chunk and the CR behind them. *)
Lemma state_body_chunked_boundary_witness :
  state_body_chunked (example_stream (B "hello" ++ [CR]) BODY_CHUNKED 0 chunk_message)
    chunk_message
  = Ok (Return (example_stream (B "hello" ++ [CR]) BODY_CHUNKED 0 chunk_message)
          chunk_message true false).
Proof.
  pose proof (state_body_chunked_boundary
                (example_stream (B "hello" ++ [CR]) BODY_CHUNKED 0 chunk_message)
                chunk_message) as Hthm.
  cbv zeta in Hthm.
  specialize (Hthm ltac:(by_compute) ltac:(by_compute) ltac:(by_compute) ltac:(by_compute)
                   ltac:(by_compute) ltac:(by_compute)).
  destruct Hthm as [Hwait _]. apply Hwait; by_compute.
Defined.

(** C8, counterexample.  A 204 response with "Transfer-Encoding: chunked":
    the stored value equals "chunked", and the message is complete at the
    end of its headers; chunked framing is not entered. *)
Lemma no_content_response_never_chunked :
  exists s m,
    ex_messageParser (ex_http true false)
      (example_stream chunked_no_content_response START 0 (new_HttpMessage 0))
    = Ok (s, (true, true))
    /\ Stream.message s = Some m
    /\ Msg.TransferEncoding m = "chunked"%string
    /\ Stream.parseState s = HEADERS
    /\ Msg.end_ m = len chunked_no_content_response.
Proof. eexists _, _. split; [vm_compute; reflexivity|]. repeat apply conj; by_compute. Qed.

(** Witness of C8, amended: a request that asks for chunked framing. *)
Lemma state_headers_end_of_headers_witness :
  state_headers ascii_lower (ex_http true false)
    (example_stream chunked_request_head HEADERS 44 chunked_request_message)
    chunked_request_message
  = Ok (Continue
          (Stream.set_parseState BODY_CHUNKED_START
             (Stream.set_parseOffset 46
                (example_stream chunked_request_head HEADERS 44 chunked_request_message)))
          (Msg.set_bodyOffset 46 chunked_request_message)).
Proof.
  pose proof (state_headers_end_of_headers ascii_lower (ex_http true false)
                (example_stream chunked_request_head HEADERS 44 chunked_request_message)
                chunked_request_message) as Hthm.
  cbv zeta in Hthm.
  specialize (Hthm ltac:(by_compute) ltac:(by_compute) ltac:(by_compute) ltac:(by_compute)
                   ltac:(by_compute)).
  destruct Hthm as (_ & Hchunked & _). apply Hchunked. reflexivity.
Defined.

(** Witness of C9: a response on a flow with an empty table. *)
Lemma receivedHttpResponse_unpaired_witness :
  exists http' w,
    receivedHttpResponse ascii_lower tuple_key scrub_config (ex_http true false)
      (new_HttpMessage 0) = (http', Ok tt)
    /\ emitted http' = []
    /\ transactionsMap http' = ∅
    /\ warnings http' = [w].
Proof.
  destruct (receivedHttpResponse_unpaired ascii_lower tuple_key scrub_config
              (ex_http true false) (new_HttpMessage 0))
    as (http' & w & Hrun & _ & Hemit & Hmap & Hwarn); [left; reflexivity|].
  exists http', w. split; [exact Hrun|]. split; [exact Hemit|]. split; [exact Hmap|exact Hwarn].
Defined.

(** Witness of C10: a request whose Cookie header is "x=1; flag". *)
Lemma splitCookiesHeader_partial_witness :
  snd (receivedHttpRequest ascii_lower tuple_key scrub_config (ex_http true true)
         flag_cookie_request) = Panic.
Proof.
  destruct (splitCookiesHeader_partial ascii_lower tuple_key scrub_config)
    as (_ & _ & _ & _ & Hrequest & _).
  apply (Hrequest (ex_http true true) flag_cookie_request "x=1; flag"%string);
    try reflexivity.
  change (Split "x=1; flag" ";") with ["x=1"; " flag"]%string.
  intros Hall. apply Forall_cons in Hall as [_ Hall]. apply Forall_cons in Hall as [Hflag _].
  unfold has_equals in Hflag. apply list_elem_of_In in Hflag. cbn in Hflag.
  repeat destruct Hflag as [Hflag | Hflag]; try discriminate Hflag. exact Hflag.
Defined.

(** X1, an instance.  The login request in three segments: the first stops
    in the request line, the second in the headers.  Both deliveries leave
    the request pending in the table, and nothing in the buffer. *)
Lemma Parse_segments_witness :
  let pkts := [segment (take 10 login_request) 0;
               segment (take 60 (drop 10 login_request)) 1;
               segment (drop 70 login_request) 2] in
  fst (ex_feed (ex_http true false) example_tuple TcpDirectionOriginal None pkts)
  = fst (ex_Parse (ex_http true false) (joined pkts) example_tuple TcpDirectionOriginal None)
  /\ buffer_of (ex_feed (ex_http true false) example_tuple TcpDirectionOriginal None pkts)
       TcpDirectionOriginal
     = buffer_of (ex_Parse (ex_http true false) (joined pkts) example_tuple
                    TcpDirectionOriginal None) TcpDirectionOriginal.
Proof.
  intros pkts.
  apply (Parse_segments scan_hex ascii_lower tuple_key no_processes max_data scrub_config
           (ex_http true false) example_tuple TcpDirectionOriginal None pkts).
  - reflexivity.
  - discriminate.
  - repeat constructor; vm_compute; discriminate.
  - by_compute.
  - by_compute.
  - intros k Hk. assert (Hk' : k = 1%nat \/ k = 2%nat) by (cbn in Hk; lia).
    destruct Hk' as [-> | ->]; vm_compute; reflexivity.
  - vm_compute. discriminate.
Defined.


(** X2, an instance.  The parser on a request of 28 bytes: 29 turns are
    enough, and 100 give the same. *)
Lemma messageParser_loop_terminates_witness :
  let s := example_stream get_request START 0 (new_HttpMessage 0) in
  messageParser_loop scan_hex ascii_lower 29 (ex_http true false) s (new_HttpMessage 0)
  <> OutOfFuel
  /\ messageParser_loop scan_hex ascii_lower 100 (ex_http true false) s (new_HttpMessage 0)
     = messageParser_loop scan_hex ascii_lower 29 (ex_http true false) s (new_HttpMessage 0).
Proof.
  intros s.
  apply (messageParser_loop_terminates scan_hex ascii_lower (ex_http true false) s
           (new_HttpMessage 0) 29 100).
  - split; by_compute.
  - by_compute.
  - by_compute.
  - lia.
Defined.

(** X3, an instance.  The request with an Authorization header: what
    comes back has stars and the bytes that were there. *)
Lemma censorPasswords_only_stars_witness :
  exists m' msg',
    censorPasswords scrub_config (ex_parsed (ex_http true false) basic_auth_request)
      basic_auth_request = Ok (m', msg')
    /\ only_stars basic_auth_request msg'
    /\ Msg.Headers m' !! "host" = None.
Proof.
  pose (m := ex_parsed (ex_http true false) basic_auth_request).
  pose (r := censorPasswords scrub_config m basic_auth_request).
  pose (m' := fst (ok_or (m, []) r)). pose (msg' := snd (ok_or (m, []) r)).
  assert (Hrun : censorPasswords scrub_config m basic_auth_request = Ok (m', msg'))
    by (vm_compute; reflexivity).
  destruct (censorPasswords_only_stars scrub_config m m' basic_auth_request msg' Hrun)
    as (Hstars & Hmap & _).
  exists m', msg'. split; [exact Hrun|]. split; [exact Hstars|].
  rewrite Hmap by discriminate. vm_compute. reflexivity.
Defined.

(** X4, an instance.  A header line with blanks around the value, with all
    headers sent on. *)
Lemma parseHeader_records_witness :
  exists m',
    parseHeader ascii_lower (ex_http true false) (new_HttpMessage 0)
      (B "Content-Length:  12 " ++ CRLF ++ B "x")
    = Ok (m', (true, true, 22))
    /\ Msg.Headers m' !! "content-length" = Some "12"%string
    /\ Msg.hasContentLength m' = true /\ Msg.ContentLength m' = 12.
Proof.
  pose proof (parseHeader_records ascii_lower (ex_http true false) (new_HttpMessage 0)
                (B "Content-Length:  12 " ++ CRLF ++ B "x") 14 5) as Hthm.
  cbv zeta in Hthm.
  specialize (Hthm ltac:(by_compute) ltac:(by_compute) ltac:(by_compute)).
  destruct Hthm as (m' & Hrun & Hmap & Hlen).
  destruct (Hlen ltac:(by_compute)) as [Hhas Hcl].
  exists m'. split; [exact Hrun|]. split; [rewrite Hmap; by_compute|].
  split; [exact Hhas|]. rewrite Hcl. by_compute.
Defined.


(** X5, an instance.  A GET for [/x] and, two milliseconds later, a 404 on
    the same flow: one event, with the status "ERROR". *)
Lemma request_then_response_witness :
  let req := Msg.set_CmdlineTuple (no_processes example_tuple)
               (Msg.set_TcpTuple example_tuple
                  (Msg.set_RequestUri "/x"
                     (Msg.set_Method "GET"
                        (Msg.set_IsRequest true (new_HttpMessage 1000000))))) in
  let resp := Msg.set_TcpTuple example_tuple
                (Msg.set_StatusCode 404 (new_HttpMessage 3000000)) in
  let http1 := fst (receivedHttpRequest ascii_lower tuple_key scrub_config
                      (ex_http false false) req) in
  let http2 := fst (receivedHttpResponse ascii_lower tuple_key scrub_config http1 resp) in
  exists event,
    emitted http2 = [event]
    /\ event !! "status" = Some (VString "ERROR")
    /\ event !! "method" = Some (VString "GET")
    /\ event !! "path" = Some (VString "/x")
    /\ event !! "responsetime" = Some (VInt32 2)
    /\ transactionsMap http2 !! tuple_key example_tuple = None.
Proof.
  intros req resp http1 http2.
  destruct (request_then_response ascii_lower tuple_key scrub_config (ex_http false false)
              http1 http2 req resp [])
    as (event & Hres & _ & Hmethod & Hpath & Hstatus & Htime & Hgone & _).
  - apply table_ok_empty. reflexivity.
  - reflexivity.
  - reflexivity.
  - vm_compute. reflexivity.
  - vm_compute. reflexivity.
  - exists event. unfold emitted. rewrite Hres.
    split; [reflexivity|]. split; [exact Hstatus|]. split; [exact Hmethod|].
    split; [exact Hpath|]. split; [exact Htime | exact Hgone].
Defined.


(** X7, an instance.  The empty table, a request, a response and an
    expiry. *)
Lemma table_ok_kept_witness :
  let msg := Msg.set_CmdlineTuple (no_processes example_tuple)
               (Msg.set_TcpTuple example_tuple
                  (Msg.set_IsRequest true (new_HttpMessage 5))) in
  table_ok tuple_key
    (fst (receivedHttpRequest ascii_lower tuple_key scrub_config (ex_http true false) msg))
  /\ table_ok tuple_key
       (fst (receivedHttpResponse ascii_lower tuple_key scrub_config (ex_http true false) msg))
  /\ table_ok tuple_key
       (expireTransaction tuple_key (ex_http true false) (new_HttpTransaction example_tuple)).
Proof.
  intros msg.
  apply (table_ok_kept ascii_lower tuple_key scrub_config (ex_http true false) msg
           (new_HttpTransaction example_tuple)).
  apply table_ok_empty. reflexivity.
Defined.

(** X8, an instance.  A flow whose pending request has been expired, and
    then its response. *)
Lemma expired_response_ignored_witness :
  let trans := new_HttpTransaction example_tuple in
  let http := put (tuple_key example_tuple) trans (ex_http true false) in
  let resp := Msg.set_TcpTuple example_tuple
                (Msg.set_StatusCode 200 (new_HttpMessage 7)) in
  let http' := expireTransaction tuple_key http trans in
  emitted (fst (receivedHttpResponse ascii_lower tuple_key scrub_config http' resp)) = []
  /\ warnings (fst (receivedHttpResponse ascii_lower tuple_key scrub_config http' resp))
     = ["Response from unknown transaction. Ignoring"%string]
  /\ snd (receivedHttpResponse ascii_lower tuple_key scrub_config http' resp) = Ok tt.
Proof.
  intros trans http resp http'.
  pose proof (expired_response_ignored ascii_lower tuple_key scrub_config http resp trans)
    as Hthm.
  cbv zeta in Hthm.
  destruct Hthm as [_ Hrun].
  - apply table_ok_put; [apply table_ok_empty; reflexivity | reflexivity].
  - vm_compute. reflexivity.
  - fold http' in Hrun. rewrite Hrun. repeat split.
Defined.

(** X9, an instance.  A phrase of two words: the last one is kept. *)
Lemma parseResponseStatus_total_witness :
  parseResponseStatus (B "404 Not Found") = Ok (404, "Found"%string, false).
Proof.
  pose proof (parseResponseStatus_total (B "404 Not Found")) as Hthm.
  specialize (Hthm ltac:(by_compute)).
  assert (Hfirst : find_sub (B "404 Not Found") (B " ") = Some 3%nat) by by_compute.
  rewrite Hfirst in Hthm. destruct Hthm as (k & Hlast & _ & Hrun).
  assert (Hk : find_last_sub (B "404 Not Found") (B " ") = Some 7%nat) by by_compute.
  rewrite Hk in Hlast. injection Hlast as <-.
  rewrite Hrun. by_compute.
Defined.

(** X10, an instance.  A first line of five bytes. *)
Lemma short_first_line_dropped_witness :
  ex_Parse (ex_http true false) (segment (B "GET /" ++ CRLF) 0) example_tuple
    TcpDirectionOriginal None
  = (ex_http true false, Ok (Some {| Data0 := None; Data1 := None |})).
Proof.
  apply (short_first_line_dropped scan_hex ascii_lower tuple_key no_processes max_data
           scrub_config (ex_http true false) (segment (B "GET /" ++ CRLF) 0) example_tuple
           TcpDirectionOriginal None 5).
  - reflexivity.
  - by_compute.
  - lia.
  - by_compute.
Defined.

(** X11, an instance.  The request with an Authorization header, parsed
    with the headers off. *)
Lemma headers_off_nothing_recorded_witness :
  let s := example_stream basic_auth_request START 0 (new_HttpMessage 0) in
  exists s' oc m',
    ex_messageParser (ex_http false false) s = Ok (s', oc)
    /\ Stream.message s' = Some m'
    /\ Msg.Headers m' = ∅
    /\ censorPasswords scrub_config (Msg.set_Raw basic_auth_request m') basic_auth_request
       = Ok (Msg.set_Raw basic_auth_request m', basic_auth_request).
Proof.
  intros s.
  pose (r := ex_messageParser (ex_http false false) s).
  pose (s' := fst (ok_or (s, (false, false)) r)).
  pose (oc := snd (ok_or (s, (false, false)) r)).
  assert (Hrun : ex_messageParser (ex_http false false) s = Ok (s', oc))
    by (vm_compute; reflexivity).
  destruct (headers_off_nothing_recorded scan_hex ascii_lower scrub_config
              (ex_http false false) s s' (new_HttpMessage 0) oc)
    as (m' & Hmsg & Hmap & Hafter).
  - reflexivity.
  - reflexivity.
  - exact Hrun.
  - exists s', oc, m'. split; [exact Hrun|]. split; [exact Hmsg|].
    split; [rewrite Hmap; reflexivity|].
    apply (Hafter eq_refl basic_auth_request basic_auth_request).
Defined.

(** X12, an instance.  Two names configured, in mixed case. *)
Lemma Init_whitelist_witness :
  let config := {| Defined_send_request := false; Defined_send_response := false;
                   Protocols_http_Send_request := false;
                   Protocols_http_Send_response := false;
                   Http_Send_all_headers := false;
                   Http_Send_headers := ["Host"; "X-Forwarded-For"]%string;
                   Http_Split_cookie := false; Http_Real_ip_header := EmptyString |} in
  let http' := Init ascii_lower (ex_http false false) false config None in
  Send_headers http' = true
  /\ is_Some (Headers_whitelist http' !! "x-forwarded-for")
  /\ Headers_whitelist http' !! "X-Forwarded-For" = None.
Proof.
  intros config http'.
  pose proof (Init_whitelist ascii_lower (ex_http false false) config None) as Hthm.
  cbv zeta in Hthm.
  destruct Hthm as (Hsend & _ & Hlist & _).
  - reflexivity.
  - discriminate.
  - split; [exact Hsend|]. split.
    + apply Hlist. exists "X-Forwarded-For"%string. split.
      * apply elem_of_cons. right. apply elem_of_cons. left. reflexivity.
      * by_compute.
    + apply eq_None_not_Some. intros Hsome. apply Hlist in Hsome.
      destruct Hsome as (hdr & Hin & Hlow).
      apply elem_of_cons in Hin as [-> | Hin]; [vm_compute in Hlow; discriminate|].
      apply elem_of_cons in Hin as [-> | Hin]; [vm_compute in Hlow; discriminate|].
      apply elem_of_nil in Hin. exact Hin.
Defined.

(** X13, an instance.  With a bound of 16 bytes, a buffer of 12 and a
    segment of 5. *)
Lemma Parse_over_the_bound_witness :
  let stream := example_stream (B "GET /x HTTP/") START 0 (new_HttpMessage 0) in
  let priv := {| Data0 := None; Data1 := Some stream |} in
  Parse scan_hex ascii_lower tuple_key no_processes 16 scrub_config (ex_http true false)
    (segment (B "1.1" ++ CRLF) 1) example_tuple TcpDirectionOriginal (Some priv)
  = (ex_http true false, Ok (Some {| Data0 := None; Data1 := None |})).
Proof.
  intros stream priv.
  destruct (Parse_over_the_bound scan_hex ascii_lower tuple_key no_processes 16 scrub_config
              (ex_http true false) (segment (B "1.1" ++ CRLF) 1) (segment (B "x") 2)
              example_tuple TcpDirectionOriginal priv stream) as (Hrun & _).
  - reflexivity.
  - by_compute.
  - exact Hrun.
Defined.

(** X14, an instance.  A response of HTTP/1.0 without a length, its head
    read, and five bytes of its body. *)
Lemma body_until_close_witness :
  let head := lines ["HTTP/1.0 200 OK"; ""]%string in
  let m := Msg.set_version_minor 0 (Msg.set_version_major 1 (new_HttpMessage 0)) in
  let stream := example_stream head BODY (len head) m in
  let priv := {| Data0 := None; Data1 := Some stream |} in
  exists stream' m',
    ex_Parse (ex_http true false) (segment (B "hello") 1) example_tuple
      TcpDirectionOriginal (Some priv)
    = (ex_http true false, Ok (Some {| Data0 := None; Data1 := Some stream' |}))
    /\ Stream.message stream' = Some m'
    /\ Stream.data stream' = head ++ B "hello"
    /\ Msg.ContentLength m' = 5.
Proof.
  intros head m stream priv.
  destruct (body_until_close scan_hex ascii_lower tuple_key no_processes max_data
              scrub_config (ex_http true false) (segment (B "hello") 1) example_tuple
              TcpDirectionOriginal priv stream m)
    as (stream' & m' & Hrun & Hmsg & _ & Hdata & _ & _ & Hlen & _).
  - reflexivity.
  - reflexivity.
  - reflexivity.
  - reflexivity.
  - reflexivity.
  - by_compute.
  - by_compute.
  - by_compute.
  - by_compute.
  - exists stream', m'. split; [exact Hrun|]. split; [exact Hmsg|].
    split; [exact Hdata|]. rewrite Hlen. reflexivity.
Defined.


(** X16, an instance.  One chunk of five bytes and the last chunk. *)
Lemma chunked_body_decoded_witness :
  let body := B "5" ++ CRLF ++ B "hello" ++ CRLF ++ B "0" ++ CRLF ++ CRLF in
  let s := example_stream body BODY_CHUNKED_START 0 (new_HttpMessage 0) in
  exists s' m',
    ex_messageParser (ex_http true false) s = Ok (s', (true, true))
    /\ Stream.message s' = Some m'
    /\ Msg.chunked_body m' = B "hello"
    /\ Msg.ContentLength m' = 5
    /\ Msg.end_ m' = 15.
Proof.
  intros body s.
  destruct (chunked_body_decoded scan_hex ascii_lower (ex_http true false) s
              (new_HttpMessage 0) [(B "5", B "hello")] (B "0") [] [])
    as (s' & m' & Hrun & Hmsg & _ & _ & Hend & Hbody & Hlen & _).
  - reflexivity.
  - reflexivity.
  - reflexivity.
  - reflexivity.
  - constructor; [|constructor]. split; [split|discriminate].
    + intros Hin. apply elem_of_cons in Hin as [Heq | Hin]; [discriminate|].
      apply elem_of_nil in Hin. exact Hin.
    + reflexivity.
  - split.
    + intros Hin. apply elem_of_cons in Hin as [Heq | Hin]; [discriminate|].
      apply elem_of_nil in Hin. exact Hin.
    + reflexivity.
  - by_compute.
  - by_compute.
  - by_compute.
  - exists s', m'. split; [exact Hrun|]. split; [exact Hmsg|].
    split; [rewrite Hbody; reflexivity|]. split; [rewrite Hlen; reflexivity|].
    rewrite Hend. reflexivity.
Defined.

(** X17, an instance.  The login request, whose content type is among the
    configured ones: all of it is kept. *)
Lemma cutMessageBody_keeps_witness :
  cutMessageBody scrub_config
    (Msg.set_Raw login_request (ex_parsed (ex_http true false) login_request))
  = Ok login_request.
Proof.
  pose proof (cutMessageBody_keeps scrub_config
                (Msg.set_Raw login_request (ex_parsed (ex_http true false) login_request)))
    as Hthm.
  cbv zeta in Hthm.
  rewrite Hthm by by_compute. vm_compute. reflexivity.
Defined.

(** X18, an instance.  The request line of the GET request. *)
Lemma request_line_parsed_witness :
  let s := example_stream get_request START 0 (new_HttpMessage 0) in
  exists m',
    state_start s (new_HttpMessage 0)
    = Ok (Continue (Stream.set_parseState HEADERS (Stream.set_parseOffset 17 s)) m')
    /\ Msg.Method m' = "GET"%string /\ Msg.RequestUri m' = "/x"%string
    /\ Msg.IsRequest m' = true
    /\ Msg.version_major m' = 1 /\ Msg.version_minor m' = 1.
Proof.
  intros s.
  pose proof (request_line_parsed s (new_HttpMessage 0) (B "GET") (B "/x") (B "1.1")
                (B "Host: a" ++ CRLF ++ CRLF)) as Hthm.
  cbv zeta in Hthm.
  destruct Hthm as (m' & Hrun & Hm).
  - reflexivity.
  - reflexivity.
  - split; [discriminate | repeat constructor].
  - split; [discriminate | repeat constructor].
  - repeat constructor.
  - by_compute.
  - by_compute.
  - exists m'. split; [exact Hrun|]. rewrite Hm. repeat split; vm_compute; reflexivity.
Defined.

